(** * Image comparison driver (main.py): shallow embedding and properties

    The program asks for two image URLs, validates and downloads them to
    [image1.jpg] and [image2.jpg], sends both to a remote generative
    model, prints the answer and removes the two files.

    Python values are embedded as follows.
    - [str] is [string]: a sequence of 8-bit characters read as the code
      points 0..255.  [str.lower], [str.strip] and the character classes
      below are the ones Python has on that range.
    - A call that may raise is a computation in the monad [M]: it maps a
      [World] to a [Result] and the world it leaves.  [Raise] carries the
      exception, and [SystemExit] is kept apart from the subclasses of
      [Exception] because [except Exception] does not catch it.
    - What the outside decides (HTTP responses, the image decoder, the
      remote model, the [.env] file, the platform of [os.path]) is read
      from an [Env]; a library call that fails there fails with a subclass
      of [Exception].  Faults of the operating system (a directory that
      cannot be written, a console that is closed) and interrupts from the
      keyboard are not part of the model. *)

From Stdlib Require Import ZArith QArith Bool List Ascii String Lia.
From stdpp Require Import base option gmap strings list fin_maps.
Import ListNotations.

Local Open Scope string_scope.
Local Open Scope list_scope.
Local Open Scope Z_scope.

(** ** Python string operations *)

Module Py.

Definition ord (c : ascii) : Z := Z.of_N (N_of_ascii c).

(** [c.lower()] for one character with code point below 256: the ASCII
    capitals and the Latin-1 capitals (all of U+00C0..U+00DE but the
    multiplication sign U+00D7) move up by 32. *)
Definition lower_char (c : ascii) : ascii :=
  let n := ord c in
  if ((65 <=? n) && (n <=? 90)) || ((192 <=? n) && (n <=? 222) && negb (n =? 215))
  then ascii_of_N (Z.to_N (n + 32))
  else c.

(** [s.lower()] *)
Fixpoint lower (s : string) : string :=
  match s with
  | EmptyString => EmptyString
  | String c s' => String (lower_char c) (lower s')
  end.

(** [c.isspace()] below 256: TAB..CR, FS..US, space, NEL and NBSP. *)
Definition isspace (c : ascii) : bool :=
  let n := ord c in
  ((9 <=? n) && (n <=? 13)) || ((28 <=? n) && (n <=? 32)) || (n =? 133) || (n =? 160).

Fixpoint lstrip_by (drop : ascii -> bool) (s : string) : string :=
  match s with
  | EmptyString => EmptyString
  | String c s' => if drop c then lstrip_by drop s' else s
  end.

Fixpoint rstrip_by (drop : ascii -> bool) (s : string) : string :=
  match s with
  | EmptyString => EmptyString
  | String c s' =>
      match rstrip_by drop s' with
      | EmptyString => if drop c then EmptyString else String c EmptyString
      | r => String c r
      end
  end.

(** [s.strip()] *)
Definition strip (s : string) : string :=
  rstrip_by isspace (lstrip_by isspace s).

(** [s.find(c)] for a one-character [c]: first index, or -1. *)
Fixpoint find (c : ascii) (s : string) : Z :=
  match s with
  | EmptyString => -1
  | String a s' =>
      if Ascii.eqb a c then 0
      else let r := find c s' in if r <? 0 then -1 else 1 + r
  end.

(** [s.rfind(c)] for a one-character [c]: last index, or -1. *)
Fixpoint rfind (c : ascii) (s : string) : Z :=
  match s with
  | EmptyString => -1
  | String a s' =>
      let r := rfind c s' in
      if 0 <=? r then 1 + r
      else if Ascii.eqb a c then 0 else -1
  end.

Fixpoint take (n : nat) (s : string) : string :=
  match n, s with
  | S n', String c s' => String c (take n' s')
  | _, _ => EmptyString
  end.

Fixpoint drop (n : nat) (s : string) : string :=
  match n, s with
  | S n', String _ s' => drop n' s'
  | _, _ => s
  end.

(** [s[:i]] and [s[i:]].  The program only slices at indices that are
    not negative, where Python's slice is the plain prefix or suffix. *)
Definition slice_to (i : Z) (s : string) : string := take (Z.to_nat i) s.
Definition slice_from (i : Z) (s : string) : string := drop (Z.to_nat i) s.

(** [s[i:i+1]] for [0 <= i]: the character at [i] when there is one;
    [None] stands for the empty slice past the end. *)
Definition char_at (i : Z) (s : string) : option ascii :=
  match slice_from i s with
  | String c _ => Some c
  | EmptyString => None
  end.

(** [s[lo:hi]], [len(s)] and [s.find(c, start)], same proviso. *)
Definition slice (lo hi : Z) (s : string) : string :=
  take (Z.to_nat (hi - lo)) (slice_from lo s).

Definition len (s : string) : Z := Z.of_nat (String.length s).

Definition find_from (c : ascii) (start : Z) (s : string) : Z :=
  let r := find c (slice_from start s) in
  if r <? 0 then -1 else start + r.

(** [c in s] *)
Fixpoint contains (c : ascii) (s : string) : bool :=
  match s with
  | EmptyString => false
  | String a s' => Ascii.eqb a c || contains c s'
  end.

(** [s.replace(c, "")] for each [c] of [cs] in turn. *)
Fixpoint remove_chars (cs : string) (s : string) : string :=
  match s with
  | EmptyString => EmptyString
  | String a s' =>
      if contains a cs then remove_chars cs s' else String a (remove_chars cs s')
  end.

Fixpoint all_chars (p : ascii -> bool) (s : string) : bool :=
  match s with
  | EmptyString => true
  | String a s' => p a && all_chars p s'
  end.

(** Truth value of a [str]: the empty string is false. *)
Definition truthy (s : string) : bool :=
  match s with EmptyString => false | _ => true end.

(** [all(xs)] on a list of truth values. *)
Definition all (xs : list bool) : bool := forallb (fun b => b) xs.

(** [x in xs] for a list of strings. *)
Definition in_list (x : string) (xs : list string) : bool :=
  existsb (String.eqb x) xs.

Definition nl : string := String (ascii_of_nat 10) EmptyString.

End Py.

(** ** [os.path.splitext] *)

Module OsPath.

Inductive os_name := posix | nt.

(** The [while filenameIndex < dotIndex] loop of [genericpath._splitext];
    [n] is the number of iterations left, [dotIndex - filenameIndex]. *)
Fixpoint skip_leading_dots (n : nat) (p : string) (extsep : ascii)
    (dotIndex filenameIndex : Z) : string * string :=
  match n with
  | O => (p, Py.slice_to 0 p)
  | S n' =>
      if decide (Py.char_at filenameIndex p = Some extsep)
      then skip_leading_dots n' p extsep dotIndex (filenameIndex + 1)
      else (Py.slice_to dotIndex p, Py.slice_from dotIndex p)
  end.

(** [genericpath._splitext(p, sep, altsep, extsep)] *)
Definition _splitext (p : string) (sep : ascii) (altsep : option ascii)
    (extsep : ascii) : string * string :=
  let sepIndex := Py.rfind sep p in
  let sepIndex :=
    match altsep with
    | Some a => Z.max sepIndex (Py.rfind a p)
    | None => sepIndex
    end in
  let dotIndex := Py.rfind extsep p in
  if sepIndex <? dotIndex then
    let filenameIndex := sepIndex + 1 in
    skip_leading_dots (Z.to_nat (dotIndex - filenameIndex)) p extsep dotIndex filenameIndex
  else (p, Py.slice_to 0 p).

(** [posixpath.splitext] and [ntpath.splitext] *)
Definition splitext (os : os_name) (p : string) : string * string :=
  match os with
  | posix => _splitext p "/"%char None "."%char
  | nt => _splitext p "\"%char (Some "/"%char) "."%char
  end.

End OsPath.


(** ** Exceptions, results and the world *)

(** [Exception cls msg] is an instance of a subclass [cls] of Python's
    [Exception] with [str(e) = msg]; [SystemExit] is what [exit()] raises
    and derives from [BaseException] only. *)
Inductive exn :=
| Exception (cls : string) (msg : string)
| SystemExit.

Inductive Result (A : Type) :=
| Ok (a : A)
| Raise (e : exn).
Arguments Ok {A} a.
Arguments Raise {A} e.

Record GenerationConfig := {
  temperature : Q;
  top_p : Q;
  top_k : Z;
  max_output_tokens : Z
}.

(** A [genai.GenerativeModel] *)
Record GenerativeModel := {
  model_name : string;
  generation_config : GenerationConfig
}.

(** One part of a multimodal request. *)
Inductive Part :=
| ImagePart (data : string)
| TextPart (s : string).

Record World := {
  environ : gmap string string;        (* os.environ *)
  fs : gmap string string;             (* files of the working directory *)
  stdin : list string;                 (* lines not read yet *)
  stdout : list string;                (* what was written, oldest first *)
  requests_log : list string;          (* URLs sent with requests.get *)
  genai_api_key : option string;       (* key given to genai.configure *)
  sessions : list GenerativeModel;     (* models constructed *)
  genai_log : list (list Part)         (* generate_content requests *)
}.

Definition set_environ (v : gmap string string) (w : World) : World :=
  {| environ := v; fs := fs w; stdin := stdin w; stdout := stdout w;
     requests_log := requests_log w; genai_api_key := genai_api_key w;
     sessions := sessions w; genai_log := genai_log w |}.
Definition set_fs (v : gmap string string) (w : World) : World :=
  {| environ := environ w; fs := v; stdin := stdin w; stdout := stdout w;
     requests_log := requests_log w; genai_api_key := genai_api_key w;
     sessions := sessions w; genai_log := genai_log w |}.
Definition set_stdin (v : list string) (w : World) : World :=
  {| environ := environ w; fs := fs w; stdin := v; stdout := stdout w;
     requests_log := requests_log w; genai_api_key := genai_api_key w;
     sessions := sessions w; genai_log := genai_log w |}.
Definition set_stdout (v : list string) (w : World) : World :=
  {| environ := environ w; fs := fs w; stdin := stdin w; stdout := v;
     requests_log := requests_log w; genai_api_key := genai_api_key w;
     sessions := sessions w; genai_log := genai_log w |}.
Definition set_requests_log (v : list string) (w : World) : World :=
  {| environ := environ w; fs := fs w; stdin := stdin w; stdout := stdout w;
     requests_log := v; genai_api_key := genai_api_key w;
     sessions := sessions w; genai_log := genai_log w |}.
Definition set_genai_api_key (v : option string) (w : World) : World :=
  {| environ := environ w; fs := fs w; stdin := stdin w; stdout := stdout w;
     requests_log := requests_log w; genai_api_key := v;
     sessions := sessions w; genai_log := genai_log w |}.
Definition set_sessions (v : list GenerativeModel) (w : World) : World :=
  {| environ := environ w; fs := fs w; stdin := stdin w; stdout := stdout w;
     requests_log := requests_log w; genai_api_key := genai_api_key w;
     sessions := v; genai_log := genai_log w |}.
Definition set_genai_log (v : list (list Part)) (w : World) : World :=
  {| environ := environ w; fs := fs w; stdin := stdin w; stdout := stdout w;
     requests_log := requests_log w; genai_api_key := genai_api_key w;
     sessions := sessions w; genai_log := v |}.

(** ** The monad of computations that read and change the world *)

Definition M (A : Type) : Type := World -> Result A * World.

Definition ret {A} (a : A) : M A := fun w => (Ok a, w).

Definition bind {A B} (m : M A) (k : A -> M B) : M B :=
  fun w =>
    match m w with
    | (Ok a, w') => k a w'
    | (Raise e, w') => (Raise e, w')
    end.

Definition raise {A} (e : exn) : M A := fun w => (Raise e, w).

(** A pure call that may raise. *)
Definition lift {A} (r : Result A) : M A := fun w => (r, w).

(** [try: body  except Exception as e: handler(e)].  The handler gets the
    class and [str(e)]; [SystemExit] passes through. *)
Definition try_except {A} (body : M A) (handler : string -> string -> M A) : M A :=
  fun w =>
    match body w with
    | (Raise (Exception cls msg), w') => handler cls msg w'
    | r => r
    end.

Declare Scope py_scope.
Delimit Scope py_scope with py.
Notation "x <- m ;; k" := (bind m (fun x => k))
  (at level 100, m at next level, right associativity) : py_scope.
Notation "m ;; k" := (bind m (fun _ => k))
  (at level 100, right associativity) : py_scope.
Local Open Scope py_scope.

(** ** What the outside decides *)

(** The response of a streaming GET: [http_error] is the text of the
    [HTTPError] that [raise_for_status] raises when [status_code] is an
    error code, [chunks] is what [iter_content] yields, and [stream_error]
    the exception it raises after them, if the transfer breaks. *)
Record Response := {
  status_code : Z;
  http_error : string;
  chunks : list string;
  stream_error : option (string * string)
}.

(** What a library call comes to: a value, or an exception of class
    [cls], a subclass of [Exception], with [str(e) = msg]. *)
Inductive Outcome (A : Type) :=
| Returned (a : A)
| Failed (cls msg : string).
Arguments Returned {A} a.
Arguments Failed {A} cls msg.

Definition outcome {A} (o : Outcome A) : Result A :=
  match o with
  | Returned a => Ok a
  | Failed cls msg => Raise (Exception cls msg)
  end.

(** What [model.generate_content] returns; reading [.text] may raise. *)
Record GenerateContentResponse := { text : Outcome string }.

Record Env := {
  os_name : OsPath.os_name;
  (** bindings of the [.env] file that [load_dotenv] finds, none if absent *)
  dotenv_values : gmap string string;
  (** [urllib.parse._check_bracketed_netloc]: the message of the
      [ValueError] it raises for this netloc, if it does *)
  check_bracketed_netloc : string -> option string;
  (** [urllib.parse._checknetloc] on a netloc that is not ASCII: the
      message of the [ValueError] its NFKC test raises, if it does *)
  checknetloc_nfkc : string -> option string;
  (** [requests.get(url, stream=True)], given the requests sent before *)
  http_get : list string -> string -> Outcome Response;
  (** [PIL.Image.open] on the bytes of a file: the message of the error
      it raises when it cannot identify an image, if it does *)
  pil_identify : string -> option string;
  (** the remote model: configured key, session and request *)
  genai_generate : option string -> GenerativeModel -> list Part ->
                   Outcome GenerateContentResponse
}.

(** ** [urllib.parse.urlparse] (as in CPython 3.11 and 3.12), scheme and netloc *)

Module UrlParse.

(** The fields the program reads; [rest] is what is left after the netloc
    (path, parameters, query and fragment, which it never looks at). *)
Record ParseResult := {
  scheme : string;
  netloc : string;
  rest : string
}.

Definition is_ascii_alpha (c : ascii) : bool :=
  let n := Py.ord c in
  ((65 <=? n) && (n <=? 90)) || ((97 <=? n) && (n <=? 122)).

Definition is_ascii_digit (c : ascii) : bool :=
  let n := Py.ord c in (48 <=? n) && (n <=? 57).

(** [c in scheme_chars]: letters, digits and ["+-."]. *)
Definition is_scheme_char (c : ascii) : bool :=
  is_ascii_alpha c || is_ascii_digit c || Py.contains c "+-.".

(** [c in _WHATWG_C0_CONTROL_OR_SPACE] *)
Definition is_c0_control_or_space (c : ascii) : bool := Py.ord c <=? 32.

(** [_UNSAFE_URL_BYTES_TO_REMOVE]: tab, carriage return, line feed. *)
Definition unsafe_url_bytes : string :=
  String (ascii_of_nat 9) (String (ascii_of_nat 13) (String (ascii_of_nat 10) EmptyString)).

Definition isascii (s : string) : bool :=
  Py.all_chars (fun c => Py.ord c <? 128) s.

(** [_splitnetloc(url, start)] *)
Definition _splitnetloc (url : string) (start : Z) : string * string :=
  let delim :=
    fold_left
      (fun delim c =>
         let wdelim := Py.find_from c start url in
         if 0 <=? wdelim then Z.min delim wdelim else delim)
      ["/"%char; "?"%char; "#"%char] (Py.len url) in
  (Py.slice start delim url, Py.slice_from delim url).

(** The scheme test of [urlsplit]: [Some (scheme, url)] when the text
    before the first colon is a scheme. *)
Definition split_scheme (url : string) : option (string * string) :=
  let i := Py.find ":"%char url in
  match url with
  | String c0 _ =>
      if (0 <? i) && is_ascii_alpha c0 && Py.all_chars is_scheme_char (Py.slice_to i url)
      then Some (Py.lower (Py.slice_to i url), Py.slice_from (i + 1) url)
      else None
  | EmptyString => None
  end.

(** [urlsplit(url)] up to the netloc.  It raises [ValueError] on a netloc
    with unbalanced or ill-formed brackets or an unsafe NFKC form. *)
Definition urlsplit (E : Env) (url : string) : Result ParseResult :=
  let url := Py.lstrip_by is_c0_control_or_space url in
  let url := Py.remove_chars unsafe_url_bytes url in
  let '(scheme, url) :=
    match split_scheme url with
    | Some (s, u) => (s, u)
    | None => (EmptyString, url)
    end in
  let '(netloc, url) :=
    if String.eqb (Py.slice_to 2 url) "//" then _splitnetloc url 2
    else (EmptyString, url) in
  let lbr := Py.contains "["%char netloc in
  let rbr := Py.contains "]"%char netloc in
  if (lbr && negb rbr) || (rbr && negb lbr)
  then Raise (Exception "ValueError" "Invalid IPv6 URL")
  else
    match (if lbr && rbr then check_bracketed_netloc E netloc else None) with
    | Some msg => Raise (Exception "ValueError" msg)
    | None =>
        match (if negb (Py.truthy netloc) || isascii netloc then None
               else checknetloc_nfkc E netloc) with
        | Some msg => Raise (Exception "ValueError" msg)
        | None => Ok {| scheme := scheme; netloc := netloc; rest := url |}
        end
    end.

(** [urlparse(url)]: [urlsplit], then the parameters are cut from the
    path, which leaves scheme and netloc as they are. *)
Definition urlparse (E : Env) (url : string) : Result ParseResult :=
  urlsplit E url.

End UrlParse.

(** ** The program *)

Section Program.

Context (E : Env).

(** *** Console, files, network *)

(** The world once the line [s] is written to the console. *)
Definition printed (s : string) (w : World) : World :=
  set_stdout (stdout w ++ [s +:+ Py.nl]) w.

(** [print(s)] *)
Definition print (s : string) : M unit :=
  fun w => (Ok tt, printed s w).

(** [input(prompt)]: writes the prompt, then reads a line or raises
    [EOFError] at the end of the input. *)
Definition input (prompt : string) : M string :=
  fun w =>
    let w := set_stdout (stdout w ++ [prompt]) w in
    match stdin w with
    | [] => (Raise (Exception "EOFError" "EOF when reading a line"), w)
    | line :: lines => (Ok line, set_stdin lines w)
    end.

(** [exit()] *)
Definition exit {A} : M A := raise SystemExit.

(** [requests.get(url, stream=True)] *)
Definition requests_get (url : string) : M Response :=
  fun w =>
    let w' := set_requests_log (requests_log w ++ [url]) w in
    (outcome (http_get E (requests_log w) url), w').

(** [r.raise_for_status()] *)
Definition raise_for_status (r : Response) : M unit :=
  if (400 <=? status_code r) && (status_code r <? 600)
  then raise (Exception "HTTPError" (http_error r))
  else ret tt.

(** [open(filename, 'wb')]: the file is created or emptied. *)
Definition open_wb (filename : string) : M unit :=
  fun w => (Ok tt, set_fs (<[filename := EmptyString]> (fs w)) w).

(** [f.write(chunk)] on the file opened at [filename]. *)
Definition file_write (filename chunk : string) : M unit :=
  fun w =>
    let written := default EmptyString (fs w !! filename) in
    (Ok tt, set_fs (<[filename := written +:+ chunk]> (fs w)) w).

(** [for chunk in r.iter_content(chunk_size=8192): f.write(chunk)] *)
Fixpoint write_chunks (filename : string) (cs : list string)
    (err : option (string * string)) : M unit :=
  match cs with
  | [] =>
      match err with
      | Some (cls, msg) => raise (Exception cls msg)
      | None => ret tt
      end
  | c :: cs' => file_write filename c ;; write_chunks filename cs' err
  end.

(** [os.remove(path)] *)
Definition os_remove (path : string) : M unit :=
  fun w =>
    match fs w !! path with
    | Some _ => (Ok tt, set_fs (delete path (fs w)) w)
    | None => (Raise (Exception "FileNotFoundError"
                        ("[Errno 2] No such file or directory: '" +:+ path +:+ "'")), w)
    end.

(** *** [setup_api] *)

(** [load_dotenv()]: variables already set are kept. *)
Definition load_dotenv : M unit :=
  fun w => (Ok tt, set_environ (environ w ∪ dotenv_values E) w).

(** [os.getenv(name)] *)
Definition os_getenv (name : string) : M (option string) :=
  fun w => (Ok (environ w !! name), w).

(** [genai.configure(api_key=api_key)] *)
Definition genai_configure (api_key : option string) : M unit :=
  fun w => (Ok tt, set_genai_api_key api_key w).

(** [genai.GenerativeModel(name, generation_config=cfg)] *)
Definition genai_GenerativeModel (name : string) (cfg : GenerationConfig) : M GenerativeModel :=
  fun w =>
    let m := {| model_name := name; generation_config := cfg |} in
    (Ok m, set_sessions (sessions w ++ [m]) w).

Definition setup_api : M GenerativeModel :=
  load_dotenv ;;
  api_key <- os_getenv "API_KEY" ;;
  genai_configure api_key ;;
  let model_config :=
    {| temperature := 0.4%Q;
       top_p := 0.99%Q;
       top_k := 0;
       max_output_tokens := 4096 |} in
  genai_GenerativeModel "gemini-1.5-flash" model_config.

(** *** Validators and download *)

Definition is_valid_url (url_string : string) : Result bool :=
  match UrlParse.urlparse E url_string with
  | Ok result =>
      Ok (Py.all [Py.truthy (UrlParse.scheme result); Py.truthy (UrlParse.netloc result)])
  | Raise e => Raise e
  end.

Definition allowed_extensions : list string := [".jpg"; ".jpeg"; ".png"; ".gif"].

Definition validate_file (filename : string) : bool :=
  let file_extension := Py.lower (snd (OsPath.splitext (os_name E) filename)) in
  Py.in_list file_extension allowed_extensions.

Definition download_file_from_url (url filename : string) : M string :=
  r <- requests_get url ;;
  raise_for_status r ;;
  open_wb filename ;;
  write_chunks filename (chunks r) (stream_error r) ;;
  ret filename.

Definition download_and_validate_image (url filename : string) : M string :=
  valid <- lift (is_valid_url url) ;;
  if negb valid then raise (Exception "ValueError" "Invalid URL provided")
  else if negb (validate_file filename) then raise (Exception "ValueError" "Invalid file extension")
  else download_file_from_url url filename.

(** *** [analyze_image_similarities] *)

(** [Image.open(path)]; an image is kept as the bytes of its file. *)
Definition Image_open (path : string) : M string :=
  fun w =>
    match fs w !! path with
    | None => (Raise (Exception "FileNotFoundError"
                        ("[Errno 2] No such file or directory: '" +:+ path +:+ "'")), w)
    | Some data =>
        match pil_identify E data with
        | Some msg => (Raise (Exception "UnidentifiedImageError" msg), w)
        | None => (Ok data, w)
        end
    end.

(** [model.generate_content(parts)] *)
Definition generate_content (model : GenerativeModel) (parts : list Part)
    : M GenerateContentResponse :=
  fun w =>
    (outcome (genai_generate E (genai_api_key w) model parts),
     set_genai_log (genai_log w ++ [parts]) w).

Definition analysis_prompt : string :=
  String.concat Py.nl
    [ "Compare these two images and provide a detailed analysis of their similarities and differences:";
      "    1. Describe the main elements in each image";
      "    2. Compare their color palettes and overall tone";
      "    3. Analyze the mood or emotional feeling of each image";
      "    4. Identify any common themes or visual elements";
      "    5. Suggest how these images might complement each other";
      "    ";
      "    Please structure your response in clear sections." ].

Definition analyze_image_similarities (model : GenerativeModel)
    (image1_path image2_path : string) : M string :=
  image1 <- Image_open image1_path ;;
  image2 <- Image_open image2_path ;;
  let prompt := analysis_prompt in
  response <- generate_content model [ImagePart image1; ImagePart image2; TextPart prompt] ;;
  lift (outcome (text response)).

(** *** [main] *)

(** The [try] of one pass of a [while True] loop: [Some path] is the
    [break], [None] falls through to the next pass. *)
Definition attempt (label filename url : string) : M (option string) :=
  try_except
    (image_path <- download_and_validate_image url filename ;;
     print (label +:+ " image saved as: " +:+ image_path) ;;
     ret (Some image_path))
    (fun _ msg => print ("Error: " +:+ msg) ;; ret None).

(** What a pass does with the line it has read. *)
Definition handle_line (label filename line : string) : M (option string) :=
  let url := Py.strip line in
  if String.eqb (Py.lower url) "quit" then exit
  else attempt label filename url.

(** One pass of the loop. *)
Definition iteration (prompt label filename : string) : M (option string) :=
  line <- input prompt ;;
  handle_line label filename line.

(** The [while True] loop, by recursion on the lines still to be read:
    each pass that does not leave the loop consumes one of them.  A pass
    is [iteration]: [await_url_unroll] below shows that the loop is one
    [iteration] followed, on [None], by the loop again. *)
Fixpoint await_loop (prompt label filename : string) (lines : list string) : M string :=
  fun w =>
    let w := set_stdout (stdout w ++ [prompt]) w in
    match lines with
    | [] => (Raise (Exception "EOFError" "EOF when reading a line"), w)
    | line :: lines' =>
        match handle_line label filename line (set_stdin lines' w) with
        | (Ok (Some image_path), w') => (Ok image_path, w')
        | (Ok None, w') => await_loop prompt label filename lines' w'
        | (Raise e, w') => (Raise e, w')
        end
    end.

Definition await_url (prompt label filename : string) : M string :=
  fun w => await_loop prompt label filename (stdin w) w.

Definition first_prompt : string := "Enter the first image URL (or 'quit' to exit): ".
Definition second_prompt : string := "Enter the second image URL (or 'quit' to exit): ".

Definition main_body : M unit :=
  print "Setting up API..." ;;
  model <- setup_api ;;
  image1_path <- await_url first_prompt "First" "image1.jpg" ;;
  image2_path <- await_url second_prompt "Second" "image2.jpg" ;;
  print (Py.nl +:+ "Analyzing image similarities...") ;;
  similarities <- analyze_image_similarities model image1_path image2_path ;;
  print (Py.nl +:+ "Image Analysis:") ;;
  print similarities ;;
  os_remove image1_path ;;
  os_remove image2_path.

Definition main : M unit :=
  try_except main_body (fun _ msg => print ("Error: " +:+ msg)).

End Program.

(** The exit status of [python main.py] when [main()] ends with [r]: an
    exception that leaves [main] ends the process with status 1, except
    [SystemExit], which [exit()] raises with status 0. *)
Definition exit_status (r : Result unit) : Z :=
  match r with
  | Ok _ => 0
  | Raise SystemExit => 0
  | Raise (Exception _ _) => 1
  end.

(** ** Notions used in the statements *)

(** The 256 characters. *)
Definition all_ascii : list ascii := map ascii_of_nat (seq 0 256).

(** A separator is a character that lowering neither moves nor produces. *)
Definition case_stable (c : ascii) : Prop :=
  forall a, Ascii.eqb (Py.lower_char a) c = Ascii.eqb a c.

(** [preserves R m]: every run of [m] relates the world it starts in to
    the world it leaves, whatever it returns or raises. *)
Definition preserves {A} (R : World -> World -> Prop) (m : M A) : Prop :=
  forall w r w', m w = (r, w') -> R w w'.

(** The component [f] of the world is left as it was. *)
Definition keeps {B} (f : World -> B) : World -> World -> Prop :=
  fun w w' => f w' = f w.

(** Output is only ever appended. *)
Definition stdout_grows : World -> World -> Prop :=
  fun w w' => exists out, stdout w' = stdout w ++ out.

(** No file other than [name] is touched. *)
Definition fs_except (name : string) : World -> World -> Prop :=
  fun w w' => forall other, other <> name -> fs w' !! other = fs w !! other.

(** A component of the world that downloads and printing do not touch. *)
Definition io_blind {B} (f : World -> B) : Prop :=
  (forall v w, f (set_fs v w) = f w) /\
  (forall v w, f (set_requests_log v w) = f w) /\
  (forall v w, f (set_stdout v w) = f w).

(** A URL written as scheme, ["://"], host and tail: the scheme is a
    letter followed by scheme characters, the host is not empty and made
    of printable ASCII other than [/ ? # [ ]], and the tail is empty or
    starts the path, the query or the fragment. *)
Definition is_host_char (c : ascii) : bool :=
  let n := Py.ord c in
  (32 <? n) && (n <? 127) && negb (Py.contains c "/?#[]").

Definition scheme_name (sch : string) : bool :=
  match sch with
  | String c _ => UrlParse.is_ascii_alpha c && Py.all_chars UrlParse.is_scheme_char sch
  | EmptyString => false
  end.

Definition host_name (host : string) : bool :=
  Py.truthy host && Py.all_chars is_host_char host.

Definition url_tail (tail : string) : bool :=
  match tail with
  | String c _ => Py.contains c "/?#"
  | EmptyString => true
  end.

(** A plain file name [stem.ext]: the stem has no separator and does not
    start with a dot, the extension has neither separator nor dot. *)
Definition plain_stem (stem : string) : bool :=
  match stem with
  | String c _ =>
      negb (Ascii.eqb c "."%char) && Py.all_chars (fun a => negb (Py.contains a "/\")) stem
  | EmptyString => false
  end.

Definition plain_ext (ext : string) : bool :=
  Py.all_chars (fun a => negb (Py.contains a "./\")) ext.

(** The bytes of a list of chunks, in order. *)
Definition joined (cs : list string) : string :=
  fold_right String.append EmptyString cs.

(** The request that [analyze_image_similarities] sends for two images. *)
Definition analysis_request (image1 image2 : string) : list Part :=
  [ImagePart image1; ImagePart image2; TextPart analysis_prompt].

(** Everything [main_body] does after [setup_api]. *)
Definition after_setup (E : Env) (model : GenerativeModel) : M unit :=
  image1_path <- await_url E first_prompt "First" "image1.jpg" ;;
  image2_path <- await_url E second_prompt "Second" "image2.jpg" ;;
  print (Py.nl +:+ "Analyzing image similarities...") ;;
  similarities <- analyze_image_similarities E model image1_path image2_path ;;
  print (Py.nl +:+ "Image Analysis:") ;;
  print similarities ;;
  os_remove image1_path ;;
  os_remove image2_path.

(** Every character of [t] is one of [s]: what holds of all characters
    of [s] holds of all characters of [t]. *)
Definition chars_within (t s : string) : Prop :=
  forall p, Py.all_chars p s = true -> Py.all_chars p t = true.

(** [download_and_validate_image] with its extension test taken out. *)
Definition download_url_checked (E : Env) (url filename : string) : M string :=
  valid <- lift (is_valid_url E url) ;;
  if negb valid then raise (Exception "ValueError" "Invalid URL provided")
  else download_file_from_url E url filename.

(** ** A concrete environment and world, for evaluation *)

Module Demo.

Definition ok_response (cs : list string) : Response :=
  {| status_code := 200; http_error := ""; chunks := cs; stream_error := None |}.

(** A server with two images, one page that is missing and one transfer
    that breaks after its first chunk; any other host cannot be reached. *)
Definition http (sent : list string) (url : string) : Outcome Response :=
  if String.eqb url "https://example.com/a.png" then Returned (ok_response ["PNG-"; "a"])
  else if String.eqb url "https://example.com/b.gif" then Returned (ok_response ["GIF-b"])
  else if String.eqb url "https://example.com/missing.jpg" then
    Returned {| status_code := 404;
                http_error :=
                  "404 Client Error: Not Found for url: https://example.com/missing.jpg";
                chunks := []; stream_error := None |}
  else if String.eqb url "https://example.com/broken.jpg" then
    Returned {| status_code := 200; http_error := ""; chunks := ["JPG-"];
                stream_error := Some ("ChunkedEncodingError", "Connection broken") |}
  else Failed "ConnectionError" "Failed to establish a new connection".

Definition generate (key : option string) (m : GenerativeModel) (parts : list Part)
    : Outcome GenerateContentResponse :=
  match key with
  | Some _ => Returned {| text := Returned "Both images show a landscape." |}
  | None => Failed "DefaultCredentialsError" "No API_KEY or ADC found."
  end.

Definition env : Env :=
  {| os_name := OsPath.posix;
     dotenv_values := {[ "API_KEY" := "secret" ]};
     check_bracketed_netloc := fun _ => None;
     checknetloc_nfkc := fun _ => None;
     http_get := http;
     pil_identify := fun _ => None;
     genai_generate := generate |}.

(** The same, with a model that refuses the request. *)
Definition env_api_down : Env :=
  {| os_name := OsPath.posix;
     dotenv_values := ∅;
     check_bracketed_netloc := fun _ => None;
     checknetloc_nfkc := fun _ => None;
     http_get := http;
     pil_identify := fun _ => None;
     genai_generate := generate |}.

(** The session that [setup_api] builds. *)
Definition model : GenerativeModel :=
  {| model_name := "gemini-1.5-flash";
     generation_config :=
       {| temperature := 0.4%Q; top_p := 0.99%Q; top_k := 0; max_output_tokens := 4096 |} |}.

Definition world (lines : list string) : World :=
  {| environ := ∅; fs := ∅; stdin := lines; stdout := [];
     requests_log := []; genai_api_key := None; sessions := []; genai_log := [] |}.

End Demo.

(** ** Proof tools *)

Ltac unfold_M :=
  unfold bind, ret, raise, lift, try_except, exit in *.

(** Every character is one of the 256 that [ascii_of_nat] reaches. *)
Lemma forall_ascii (p : ascii -> bool) :
  forallb p all_ascii = true -> forall c, p c = true.
Proof.
  intros H c.
  rewrite forallb_forall in H. apply H.
  rewrite <- (ascii_nat_embedding c).
  apply in_map, in_seq.
  pose proof (nat_ascii_bounded c). lia.
Qed.

(** *** Strings *)

Lemma str_app_cons c s t : String c s +:+ t = String c (s +:+ t).
Proof. reflexivity. Qed.

Lemma str_app_nil_l s : EmptyString +:+ s = s.
Proof. reflexivity. Qed.

Lemma str_app_nil_r s : s +:+ EmptyString = s.
Proof.
  induction s as [|c s IH]; [reflexivity|].
  now rewrite str_app_cons, IH.
Qed.

Lemma take_drop_app n s : Py.take n s +:+ Py.drop n s = s.
Proof.
  revert s. induction n as [|n IH]; intros [|c s]; simpl; try reflexivity.
  now rewrite str_app_cons, IH.
Qed.

Lemma lower_take n s : Py.lower (Py.take n s) = Py.take n (Py.lower s).
Proof.
  revert s. induction n as [|n IH]; intros [|c s]; simpl; try reflexivity.
  now rewrite IH.
Qed.

Lemma lower_drop n s : Py.lower (Py.drop n s) = Py.drop n (Py.lower s).
Proof.
  revert s. induction n as [|n IH]; intros [|c s]; simpl; try reflexivity.
  apply IH.
Qed.

Lemma lower_char_idem c : Py.lower_char (Py.lower_char c) = Py.lower_char c.
Proof.
  apply Ascii.eqb_eq. revert c. apply forall_ascii. vm_compute. reflexivity.
Qed.

Lemma lower_idem s : Py.lower (Py.lower s) = Py.lower s.
Proof.
  induction s as [|c s IH]; simpl; [reflexivity|].
  now rewrite lower_char_idem, IH.
Qed.

Lemma case_stable_check c :
  forallb (fun a => Bool.eqb (Ascii.eqb (Py.lower_char a) c) (Ascii.eqb a c)) all_ascii = true ->
  case_stable c.
Proof.
  intros H a. apply Bool.eqb_prop.
  exact (forall_ascii _ H a).
Qed.

Lemma case_stable_dot : case_stable "."%char.
Proof. apply case_stable_check. vm_compute. reflexivity. Qed.

Lemma case_stable_slash : case_stable "/"%char.
Proof. apply case_stable_check. vm_compute. reflexivity. Qed.

Lemma case_stable_backslash : case_stable "\"%char.
Proof. apply case_stable_check. vm_compute. reflexivity. Qed.

Lemma rfind_lower c s : case_stable c -> Py.rfind c (Py.lower s) = Py.rfind c s.
Proof.
  intros Hc. induction s as [|a s IH]; simpl; [reflexivity|].
  now rewrite IH, Hc.
Qed.

Lemma char_at_lower i s :
  Py.char_at i (Py.lower s) = option_map Py.lower_char (Py.char_at i s).
Proof.
  unfold Py.char_at, Py.slice_from.
  rewrite <- lower_drop.
  now destruct (Py.drop (Z.to_nat i) s).
Qed.

Lemma all_chars_impl (p q : ascii -> bool) s :
  (forall c, p c = true -> q c = true) ->
  Py.all_chars p s = true -> Py.all_chars q s = true.
Proof.
  intros Hpq. induction s as [|c s IH]; simpl; [reflexivity|].
  intros [H1 H2]%andb_prop. now rewrite (Hpq _ H1), IH.
Qed.

Lemma char_impl (p q : ascii -> bool) :
  forallb (fun c => implb (p c) (q c)) all_ascii = true ->
  forall c, p c = true -> q c = true.
Proof.
  intros H c Hp. pose proof (forall_ascii _ H c) as Hc. simpl in Hc.
  now rewrite Hp in Hc.
Qed.

Lemma all_chars_app p s t :
  Py.all_chars p (s +:+ t) = Py.all_chars p s && Py.all_chars p t.
Proof.
  induction s as [|c s IH]; [reflexivity|].
  rewrite str_app_cons. simpl. now rewrite IH, andb_assoc.
Qed.

Lemma all_chars_not_contains c s :
  Py.all_chars (fun a => negb (Ascii.eqb a c)) s = true -> Py.contains c s = false.
Proof.
  induction s as [|a s IH]; simpl; [reflexivity|].
  intros [H1 H2]%andb_prop. apply negb_true_iff in H1. now rewrite H1, IH.
Qed.

Lemma remove_chars_app cs s t :
  Py.remove_chars cs (s +:+ t) = Py.remove_chars cs s +:+ Py.remove_chars cs t.
Proof.
  induction s as [|c s IH]; [reflexivity|].
  rewrite str_app_cons. simpl. destruct (Py.contains c cs); [exact IH|].
  now rewrite str_app_cons, IH.
Qed.

Lemma remove_chars_id cs s :
  Py.all_chars (fun c => negb (Py.contains c cs)) s = true -> Py.remove_chars cs s = s.
Proof.
  induction s as [|c s IH]; simpl; [reflexivity|].
  intros [H1 H2]%andb_prop. apply negb_true_iff in H1. now rewrite H1, IH.
Qed.

Lemma find_nonneg_or c s : Py.find c s = -1 \/ 0 <= Py.find c s.
Proof.
  induction s as [|a s IH]; simpl; [now left|].
  destruct (Ascii.eqb a c); [right; lia|].
  destruct (Z.ltb_spec (Py.find c s) 0); [now left | right; lia].
Qed.

Lemma find_app_absent c s t :
  Py.contains c s = false ->
  Py.find c (s +:+ t) =
    if Py.find c t <? 0 then -1 else Py.len s + Py.find c t.
Proof.
  unfold Py.len. induction s as [|a s IH]; intros H.
  - rewrite str_app_nil_l. simpl.
    destruct (find_nonneg_or c t) as [->|H0]; [reflexivity|].
    destruct (Z.ltb_spec (Py.find c t) 0); lia.
  - rewrite str_app_cons. simpl in *. apply orb_false_elim in H as [H1 H2].
    rewrite H1, (IH H2).
    destruct (Z.ltb_spec (Py.find c t) 0); simpl; [reflexivity|].
    destruct (Z.ltb_spec (Z.of_nat (String.length s) + Py.find c t) 0); lia.
Qed.

Lemma take_app_length s t : Py.take (String.length s) (s +:+ t) = s.
Proof.
  induction s as [|c s IH]; simpl.
  - now destruct t.
  - now rewrite IH.
Qed.

Lemma drop_app_length s t : Py.drop (String.length s) (s +:+ t) = t.
Proof. induction s as [|c s IH]; simpl; [reflexivity | exact IH]. Qed.

Lemma length_app s t : String.length (s +:+ t) = (String.length s + String.length t)%nat.
Proof.
  induction s as [|c s IH]; [reflexivity|].
  rewrite str_app_cons. simpl. now rewrite IH.
Qed.

Lemma lower_truthy s : Py.truthy (Py.lower s) = Py.truthy s.
Proof. now destruct s. Qed.

(** *** [os.path.splitext] *)

Lemma skip_leading_dots_app n p extsep dotIndex filenameIndex :
  let r := OsPath.skip_leading_dots n p extsep dotIndex filenameIndex in
  fst r +:+ snd r = p.
Proof.
  revert filenameIndex. induction n as [|n IH]; intros k; simpl.
  - unfold Py.slice_to. simpl. replace (Py.take 0 p) with EmptyString by now destruct p.
    apply str_app_nil_r.
  - destruct (decide _); [apply IH|].
    simpl. apply take_drop_app.
Qed.

Lemma splitext_app os p :
  fst (OsPath.splitext os p) +:+ snd (OsPath.splitext os p) = p.
Proof.
  assert (H0 : forall q, q +:+ Py.slice_to 0 q = q).
  { intros q. unfold Py.slice_to. simpl. replace (Py.take 0 q) with EmptyString by now destruct q.
    apply str_app_nil_r. }
  destruct os; unfold OsPath.splitext, OsPath._splitext;
    match goal with |- context [if ?b then _ else _] => destruct b end;
    simpl; auto using skip_leading_dots_app.
Qed.

Lemma skip_leading_dots_lower n p extsep dotIndex filenameIndex :
  case_stable extsep ->
  OsPath.skip_leading_dots n (Py.lower p) extsep dotIndex filenameIndex =
  (Py.lower (fst (OsPath.skip_leading_dots n p extsep dotIndex filenameIndex)),
   Py.lower (snd (OsPath.skip_leading_dots n p extsep dotIndex filenameIndex))).
Proof.
  intros Hc. revert filenameIndex. induction n as [|n IH]; intros k; simpl.
  - reflexivity.
  - rewrite char_at_lower.
    assert (Hiff : option_map Py.lower_char (Py.char_at k p) = Some extsep <->
                   Py.char_at k p = Some extsep).
    { destruct (Py.char_at k p) as [a|]; simpl; [|split; discriminate].
      specialize (Hc a).
      split; intros [= H].
      - f_equal. apply Ascii.eqb_eq. rewrite <- Hc. now apply Ascii.eqb_eq.
      - f_equal. apply Ascii.eqb_eq. rewrite Hc. now apply Ascii.eqb_eq. }
    destruct (decide (option_map _ _ = _)) as [H1|H1], (decide (Py.char_at k p = _)) as [H2|H2];
      try (exfalso; tauto).
    + apply IH.
    + simpl. unfold Py.slice_to, Py.slice_from. now rewrite lower_take, lower_drop.
Qed.

Lemma splitext_lower os p :
  OsPath.splitext os (Py.lower p) =
  (Py.lower (fst (OsPath.splitext os p)), Py.lower (snd (OsPath.splitext os p))).
Proof.
  destruct os; unfold OsPath.splitext, OsPath._splitext;
    rewrite ?rfind_lower
      by auto using case_stable_dot, case_stable_slash, case_stable_backslash;
    match goal with |- context [if ?b then _ else _] => destruct b end;
    auto using skip_leading_dots_lower, case_stable_dot.
Qed.

Lemma rfind_nonneg_or c s : Py.rfind c s = -1 \/ 0 <= Py.rfind c s.
Proof.
  induction s as [|a s IH]; simpl; [now left|].
  destruct (Z.leb_spec 0 (Py.rfind c s)); [right; lia|].
  destruct (Ascii.eqb a c); [right; lia | now left].
Qed.

Lemma rfind_absent c s : Py.contains c s = false -> Py.rfind c s = -1.
Proof.
  induction s as [|a s IH]; simpl; [reflexivity|].
  intros [H1 H2]%orb_false_elim. now rewrite (IH H2), H1.
Qed.

Lemma rfind_app c s t :
  Py.rfind c (s +:+ t) =
    if 0 <=? Py.rfind c t then Py.len s + Py.rfind c t else Py.rfind c s.
Proof.
  unfold Py.len. induction s as [|a s IH].
  - rewrite str_app_nil_l. simpl.
    destruct (rfind_nonneg_or c t) as [->|H]; [reflexivity|].
    destruct (Z.leb_spec 0 (Py.rfind c t)); lia.
  - rewrite str_app_cons. cbn [Py.rfind]. rewrite IH.
    destruct (Z.leb_spec 0 (Py.rfind c t)) as [H|H]; [|reflexivity].
    destruct (Z.leb_spec 0 (Z.of_nat (String.length s) + Py.rfind c t));
      simpl String.length; lia.
Qed.

Lemma contains_app c s t : Py.contains c (s +:+ t) = Py.contains c s || Py.contains c t.
Proof.
  induction s as [|a s IH]; [reflexivity|].
  rewrite str_app_cons. simpl. now rewrite IH, orb_assoc.
Qed.

Lemma lacks_of_all_chars (cs : string) c s :
  Py.contains c cs = true ->
  Py.all_chars (fun a => negb (Py.contains a cs)) s = true -> Py.contains c s = false.
Proof.
  intros Hc. induction s as [|a s IH]; simpl; [reflexivity|].
  intros [H1 H2]%andb_prop. rewrite (IH H2), orb_false_r.
  destruct (Ascii.eqb_spec a c) as [->|]; [|reflexivity].
  now rewrite Hc in H1.
Qed.

(** On a plain name the split is at the last dot. *)
Lemma splitext_plain os stem ext :
  plain_stem stem = true -> plain_ext ext = true ->
  OsPath.splitext os (stem +:+ String "."%char ext) = (stem, String "."%char ext).
Proof.
  intros Hstem Hext.
  destruct stem as [|c0 stem']; [discriminate|].
  apply andb_prop in Hstem as [Hc0 Hstem].
  set (stem := String c0 stem') in *.
  set (p := stem +:+ String "."%char ext).
  assert (Hsep : forall d, Py.contains d "/\" = true -> Py.rfind d p = -1).
  { intros d Hd. apply rfind_absent. unfold p. rewrite contains_app.
    rewrite (lacks_of_all_chars "/\" d stem Hd Hstem). cbn [Py.contains orb].
    assert (Hd' : Py.contains d "./\" = true).
    { revert Hd. cbn [Py.contains]. intros ->. apply orb_true_r. }
    rewrite (lacks_of_all_chars "./\" d ext Hd' Hext), orb_false_r.
    destruct (Ascii.eqb_spec "."%char d) as [<-|]; [discriminate | reflexivity]. }
  assert (Hdot : Py.rfind "."%char p = Py.len stem).
  { unfold p. rewrite rfind_app. cbn [Py.rfind].
    rewrite (rfind_absent _ ext (lacks_of_all_chars "./\" "."%char ext eq_refl Hext)).
    simpl. lia. }
  assert (Hlen : Py.len stem = Z.of_nat (S (String.length stem'))) by reflexivity.
  assert (Hsplit :
    OsPath.skip_leading_dots (Z.to_nat (Py.len stem - (-1 + 1))) p "."%char (Py.len stem) (-1 + 1) =
    (stem, String "."%char ext)).
  { rewrite Hlen. replace (Z.to_nat (Z.of_nat (S (String.length stem')) - (-1 + 1)))
      with (S (String.length stem')) by lia.
    cbn [OsPath.skip_leading_dots].
    assert (Hhead : Py.char_at (-1 + 1) p = Some c0) by reflexivity.
    rewrite Hhead. destruct (decide (Some c0 = Some "."%char)) as [[= ->]|_]; [discriminate|].
    unfold Py.slice_to, Py.slice_from. rewrite Nat2Z.id.
    change (S (String.length stem')) with (String.length stem).
    unfold p. now rewrite take_app_length, drop_app_length. }
  destruct os; unfold OsPath.splitext, OsPath._splitext; fold p;
    rewrite ?Hsep by reflexivity; rewrite Hdot.
  - replace (-1 <? Py.len stem) with true by (symmetry; apply Z.ltb_lt; lia).
    exact Hsplit.
  - change (Z.max (-1) (-1)) with (-1).
    replace (-1 <? Py.len stem) with true by (symmetry; apply Z.ltb_lt; lia).
    exact Hsplit.
Qed.

(** *** What a computation leaves unchanged *)

#[local] Instance keeps_preorder {B} (f : World -> B) : PreOrder (keeps f).
Proof.
  split; [intros w; reflexivity|].
  intros w1 w2 w3 H1 H2. unfold keeps in *. congruence.
Qed.

#[local] Instance stdout_grows_preorder : PreOrder stdout_grows.
Proof.
  split.
  - intros w. exists []. now rewrite app_nil_r.
  - intros w1 w2 w3 [o1 H1] [o2 H2]. exists (o1 ++ o2).
    now rewrite H2, H1, <- app_assoc.
Qed.

#[local] Instance fs_except_preorder name : PreOrder (fs_except name).
Proof.
  split; [intros w other _; reflexivity|].
  intros w1 w2 w3 H1 H2 other Hne. now rewrite H2, H1.
Qed.

Section Preserves.

Context (R : World -> World -> Prop) `{!PreOrder R}.

Lemma preserves_ret {A} (a : A) : preserves R (ret a).
Proof. intros w r w' [= _ <-]. reflexivity. Qed.

Lemma preserves_raise {A} e : preserves R (@raise A e).
Proof. intros w r w' [= _ <-]. reflexivity. Qed.

Lemma preserves_lift {A} (x : Result A) : preserves R (lift x).
Proof. intros w r w' [= _ <-]. reflexivity. Qed.

Lemma preserves_bind {A B} (m : M A) (k : A -> M B) :
  preserves R m -> (forall a, preserves R (k a)) -> preserves R (bind m k).
Proof.
  intros Hm Hk w r w' H. unfold bind in H.
  destruct (m w) as [[a|e] w1] eqn:Hw.
  - transitivity w1; [exact (Hm _ _ _ Hw) | exact (Hk _ _ _ _ H)].
  - injection H as _ <-. exact (Hm _ _ _ Hw).
Qed.

Lemma preserves_try_except {A} (body : M A) handler :
  preserves R body -> (forall cls msg, preserves R (handler cls msg)) ->
  preserves R (try_except body handler).
Proof.
  intros Hb Hh w r w' H. unfold try_except in H.
  destruct (body w) as [[a|[cls msg|]] w1] eqn:Hw.
  - injection H as _ <-. exact (Hb _ _ _ Hw).
  - transitivity w1; [exact (Hb _ _ _ Hw) | exact (Hh _ _ _ _ _ H)].
  - injection H as _ <-. exact (Hb _ _ _ Hw).
Qed.

Lemma preserves_if {A} (b : bool) (m1 m2 : M A) :
  preserves R m1 -> preserves R m2 -> preserves R (if b then m1 else m2).
Proof. now destruct b. Qed.

End Preserves.

(** A step whose effect on the world is written out: unfold it, split on
    what it reads, and compare the two worlds. *)
Ltac step_preserves unf :=
  let w := fresh "w" in let r := fresh "r" in
  let w' := fresh "w'" in let H := fresh "H" in
  intros w r w' H; unf;
  repeat match type of H with
         | context [match ?x with _ => _ end] => destruct x
         end;
  injection H as _ <-.

Lemma print_grows s : preserves stdout_grows (print s).
Proof. step_preserves ltac:(unfold print, printed in *). now eexists. Qed.

Lemma print_keeps {B} (f : World -> B) s :
  (forall v w, f (set_stdout v w) = f w) -> preserves (keeps f) (print s).
Proof. intros Hf. step_preserves ltac:(unfold print, printed in *). apply Hf. Qed.

Lemma requests_get_grows E url : preserves stdout_grows (requests_get E url).
Proof.
  step_preserves ltac:(unfold requests_get in *); exists []; simpl; now rewrite app_nil_r.
Qed.

Lemma requests_get_keeps {B} (f : World -> B) E url :
  (forall v w, f (set_requests_log v w) = f w) -> preserves (keeps f) (requests_get E url).
Proof. intros Hf. step_preserves ltac:(unfold requests_get in *); apply Hf. Qed.

Lemma requests_get_fs E url name : preserves (fs_except name) (requests_get E url).
Proof. step_preserves ltac:(unfold requests_get in *); intros other _; reflexivity. Qed.

Lemma raise_for_status_preserves R `{!PreOrder R} r : preserves R (raise_for_status r).
Proof.
  unfold raise_for_status. apply preserves_if; [apply preserves_raise | apply preserves_ret]; assumption.
Qed.

Lemma open_wb_grows name : preserves stdout_grows (open_wb name).
Proof. step_preserves ltac:(unfold open_wb in *). exists []. simpl. now rewrite app_nil_r. Qed.

Lemma open_wb_keeps {B} (f : World -> B) name :
  (forall v w, f (set_fs v w) = f w) -> preserves (keeps f) (open_wb name).
Proof. intros Hf. step_preserves ltac:(unfold open_wb in *). apply Hf. Qed.

Lemma open_wb_fs name : preserves (fs_except name) (open_wb name).
Proof.
  step_preserves ltac:(unfold open_wb in *). intros other Hne. simpl.
  now rewrite lookup_insert_ne.
Qed.

Lemma file_write_grows name c : preserves stdout_grows (file_write name c).
Proof. step_preserves ltac:(unfold file_write in *). exists []. simpl. now rewrite app_nil_r. Qed.

Lemma file_write_keeps {B} (f : World -> B) name c :
  (forall v w, f (set_fs v w) = f w) -> preserves (keeps f) (file_write name c).
Proof. intros Hf. step_preserves ltac:(unfold file_write in *). apply Hf. Qed.

Lemma file_write_fs name c : preserves (fs_except name) (file_write name c).
Proof.
  step_preserves ltac:(unfold file_write in *). intros other Hne. simpl.
  now rewrite lookup_insert_ne.
Qed.

Lemma write_chunks_preserves R `{!PreOrder R} name cs err :
  (forall c, preserves R (file_write name c)) -> preserves R (write_chunks name cs err).
Proof.
  intros Hw. induction cs as [|c cs IH]; simpl.
  - destruct err as [[cls msg]|]; [apply preserves_raise | apply preserves_ret]; assumption.
  - apply preserves_bind; auto.
Qed.

Lemma os_remove_grows path : preserves stdout_grows (os_remove path).
Proof. step_preserves ltac:(unfold os_remove in *); exists []; simpl; now rewrite app_nil_r. Qed.

Lemma os_remove_keeps {B} (f : World -> B) path :
  (forall v w, f (set_fs v w) = f w) -> preserves (keeps f) (os_remove path).
Proof.
  intros Hf. step_preserves ltac:(unfold os_remove in *); [apply Hf | reflexivity].
Qed.

Lemma Image_open_same E path w r w' : Image_open E path w = (r, w') -> w' = w.
Proof.
  unfold Image_open. intros H.
  repeat match type of H with
         | context [match ?x with _ => _ end] => destruct x
         end; now injection H as _ <-.
Qed.

Lemma generate_content_grows E m parts : preserves stdout_grows (generate_content E m parts).
Proof.
  step_preserves ltac:(unfold generate_content in *); exists []; simpl; now rewrite app_nil_r.
Qed.

Lemma generate_content_keeps {B} (f : World -> B) E m parts :
  (forall v w, f (set_genai_log v w) = f w) -> preserves (keeps f) (generate_content E m parts).
Proof. intros Hf. step_preserves ltac:(unfold generate_content in *); apply Hf. Qed.

Lemma Image_open_preserves R `{!PreOrder R} E path : preserves R (Image_open E path).
Proof. intros w r w' H. apply Image_open_same in H as ->. reflexivity. Qed.

(** *** Download *)

Lemma download_file_keeps {B} (f : World -> B) E url filename :
  (forall v w, f (set_fs v w) = f w) ->
  (forall v w, f (set_requests_log v w) = f w) ->
  preserves (keeps f) (download_file_from_url E url filename).
Proof.
  intros Hfs Hlog. unfold download_file_from_url.
  apply preserves_bind; [typeclasses eauto | now apply requests_get_keeps |]. intros r.
  apply preserves_bind; [typeclasses eauto | apply raise_for_status_preserves; typeclasses eauto |].
  intros _.
  apply preserves_bind; [typeclasses eauto | now apply open_wb_keeps |]. intros _.
  apply preserves_bind; [typeclasses eauto | | intros; apply preserves_ret; typeclasses eauto].
  apply write_chunks_preserves; [typeclasses eauto|]. intros c. now apply file_write_keeps.
Qed.

Lemma download_file_grows E url filename :
  preserves stdout_grows (download_file_from_url E url filename).
Proof.
  unfold download_file_from_url.
  apply preserves_bind; [typeclasses eauto | apply requests_get_grows |]. intros r.
  apply preserves_bind; [typeclasses eauto | apply raise_for_status_preserves; typeclasses eauto |].
  intros _.
  apply preserves_bind; [typeclasses eauto | apply open_wb_grows |]. intros _.
  apply preserves_bind; [typeclasses eauto | | intros; apply preserves_ret; typeclasses eauto].
  apply write_chunks_preserves; [typeclasses eauto|]. intros c. apply file_write_grows.
Qed.

Lemma download_file_fs E url filename :
  preserves (fs_except filename) (download_file_from_url E url filename).
Proof.
  unfold download_file_from_url.
  apply preserves_bind; [typeclasses eauto | apply requests_get_fs |]. intros r.
  apply preserves_bind; [typeclasses eauto | apply raise_for_status_preserves; typeclasses eauto |].
  intros _.
  apply preserves_bind; [typeclasses eauto | apply open_wb_fs |]. intros _.
  apply preserves_bind; [typeclasses eauto | | intros; apply preserves_ret; typeclasses eauto].
  apply write_chunks_preserves; [typeclasses eauto|]. intros c. apply file_write_fs.
Qed.

Lemma write_chunks_file name cs err w r w' :
  write_chunks name cs err w = (r, w') ->
  is_Some (fs w !! name) -> is_Some (fs w' !! name).
Proof.
  revert w. induction cs as [|c cs IH]; simpl; intros w H Hsome.
  - destruct err as [[cls msg]|]; unfold_M; now injection H as _ <-.
  - unfold bind, file_write in H. apply IH in H; [exact H|].
    simpl. rewrite lookup_insert_eq. eauto.
Qed.

(** A download that returns has sent one request and left the file in
    place; it returns the name it was given. *)
Lemma download_file_ok E url filename w p w' :
  download_file_from_url E url filename w = (Ok p, w') ->
  p = filename /\ is_Some (fs w' !! filename) /\
  requests_log w' = requests_log w ++ [url].
Proof.
  unfold download_file_from_url, bind, requests_get, raise_for_status, open_wb.
  destruct (http_get E (requests_log w) url) as [r|cls msg]; cbn [outcome]; [|discriminate].
  destruct (_ && _); [discriminate|]. unfold ret at 1.
  destruct (write_chunks _ _ _ _) as [[[]|e] w1] eqn:Hw; [|discriminate].
  unfold ret. intros [= <- <-].
  split; [reflexivity|]. split.
  - eapply write_chunks_file; [exact Hw|]. simpl. rewrite lookup_insert_eq. eauto.
  - assert (Hk : preserves (keeps requests_log) (write_chunks filename (chunks r) (stream_error r))).
    { apply write_chunks_preserves; [typeclasses eauto|]. intros c.
      now apply file_write_keeps. }
    now rewrite (Hk _ _ _ Hw).
Qed.

(** Every call of the downloader sends a request, whatever comes of it. *)
Lemma download_file_requests E url filename w r w' :
  download_file_from_url E url filename w = (r, w') ->
  requests_log w' = requests_log w ++ [url].
Proof.
  unfold download_file_from_url, bind, requests_get, raise_for_status, open_wb.
  assert (Hk : forall cs err, preserves (keeps requests_log) (write_chunks filename cs err)).
  { intros cs err. apply write_chunks_preserves; [typeclasses eauto|]. intros c.
    now apply file_write_keeps. }
  destruct (http_get E (requests_log w) url) as [resp|cls msg]; cbn [outcome];
    [|now intros [= _ <-]].
  destruct (_ && _); [unfold raise; now intros [= _ <-]|]. unfold ret at 1.
  destruct (write_chunks _ _ _ _) as [[[]|e] w1] eqn:Hw; unfold ret; intros [= _ <-];
    now rewrite (Hk _ _ _ _ _ Hw).
Qed.

Lemma download_and_validate_preserves R `{!PreOrder R} E url filename :
  preserves R (download_file_from_url E url filename) ->
  preserves R (download_and_validate_image E url filename).
Proof.
  intros Hd. unfold download_and_validate_image.
  apply preserves_bind; [assumption | now apply preserves_lift |]. intros valid.
  repeat apply preserves_if; try assumption; now apply preserves_raise.
Qed.

(** ** Validators *)

Lemma in_list_In x xs : Py.in_list x xs = true <-> In x xs.
Proof.
  unfold Py.in_list. rewrite existsb_exists. split.
  - intros (y & Hy & Heq). apply String.eqb_eq in Heq. now subst.
  - intros H. exists x. split; [exact H | apply String.eqb_refl].
Qed.

Lemma validate_file_lower E filename :
  validate_file E (Py.lower filename) = validate_file E filename.
Proof.
  unfold validate_file. rewrite splitext_lower. simpl. now rewrite lower_idem.
Qed.

(** C2: [validate_file] answers true exactly when the lowercased extension
    that [os.path.splitext] cuts from the filename is one of [.jpg],
    [.jpeg], [.png], [.gif].  That extension is a suffix of the filename;
    on a plain name [stem.ext] it is [.ext].  The answer is the same for
    two filenames that differ only in case, and [X.JPG] is accepted while
    [x.bmp] is not. *)
Theorem validate_file_spec (E : Env) (filename : string) :
  let ext := snd (OsPath.splitext (os_name E) filename) in
  (validate_file E filename = true <->
     In (Py.lower ext) [".jpg"; ".jpeg"; ".png"; ".gif"])
  /\ (exists root, filename = root +:+ ext)
  /\ (forall stem e,
        plain_stem stem = true -> plain_ext e = true ->
        filename = stem +:+ String "."%char e ->
        ext = String "."%char e /\
        (validate_file E filename = true <->
           In (Py.lower (String "."%char e)) [".jpg"; ".jpeg"; ".png"; ".gif"]))
  /\ (forall other, Py.lower other = Py.lower filename ->
        validate_file E other = validate_file E filename)
  /\ validate_file E "X.JPG" = true
  /\ validate_file E "x.bmp" = false.
Proof.
  intros ext.
  assert (Hiff : validate_file E filename = true <->
                 In (Py.lower ext) [".jpg"; ".jpeg"; ".png"; ".gif"]).
  { unfold validate_file. apply in_list_In. }
  split; [exact Hiff|]. split; [|split; [|split; [|split]]].
  - exists (fst (OsPath.splitext (os_name E) filename)).
    symmetry. apply splitext_app.
  - intros stem e Hstem He Hname.
    assert (Hext : ext = String "."%char e).
    { unfold ext. now rewrite Hname, splitext_plain. }
    split; [exact Hext | now rewrite <- Hext].
  - intros other Heq.
    rewrite <- (validate_file_lower E other), Heq. apply validate_file_lower.
  - unfold validate_file. now destruct (os_name E).
  - unfold validate_file. now destruct (os_name E).
Qed.

Lemma validate_file_spec_witness :
  validate_file Demo.env "Photo.PnG" = true
  /\ snd (OsPath.splitext OsPath.posix "holiday.2024.JPeG") = ".JPeG"
  /\ validate_file Demo.env "IMAGE1.JPG" = validate_file Demo.env "image1.jpg".
Proof.
  split; [|split].
  - apply (proj1 (validate_file_spec Demo.env "Photo.PnG")).
    vm_compute. right. right. left. reflexivity.
  - apply (proj1 (proj2 (proj2 (validate_file_spec Demo.env "holiday.2024.JPeG")))
             "holiday.2024" "JPeG"); reflexivity.
  - apply (proj1 (proj2 (proj2 (proj2 (validate_file_spec Demo.env "image1.jpg"))))).
    vm_compute. reflexivity.
Defined.

(** [is_valid_url] answers true exactly when [urlparse] returns a result
    whose scheme and netloc are both not empty, false when it returns one
    that lacks either, and raises what [urlparse] raises. *)
Lemma is_valid_url_iff (E : Env) (s : string) :
  (is_valid_url E s = Ok true <->
     exists r, UrlParse.urlparse E s = Ok r /\
               UrlParse.scheme r <> EmptyString /\ UrlParse.netloc r <> EmptyString)
  /\ (forall r, UrlParse.urlparse E s = Ok r ->
        UrlParse.scheme r = EmptyString \/ UrlParse.netloc r = EmptyString ->
        is_valid_url E s = Ok false)
  /\ (forall e, is_valid_url E s = Raise e <-> UrlParse.urlparse E s = Raise e).
Proof.
  unfold is_valid_url. split; [split|split]; cycle 3.
  { intros e. destruct (UrlParse.urlparse E s) as [r|e0]; split;
      try discriminate; now intros [= ->]. }
  - destruct (UrlParse.urlparse E s) as [r|e]; [|discriminate].
    intros [= H]. exists r. split; [reflexivity|].
    destruct (UrlParse.scheme r), (UrlParse.netloc r); simpl in H; try discriminate.
    split; discriminate.
  - intros (r & -> & Hs & Hn).
    destruct (UrlParse.scheme r), (UrlParse.netloc r); simpl; congruence.
  - intros r -> [H|H]; rewrite H; simpl; [reflexivity|].
    now destruct (UrlParse.scheme r).
Qed.

(** ** Validate and download *)

Lemma download_invalid_url E url filename w :
  is_valid_url E url = Ok false ->
  download_and_validate_image E url filename w =
    (Raise (Exception "ValueError" "Invalid URL provided"), w).
Proof.
  intros H. unfold download_and_validate_image, bind, lift, raise. now rewrite H.
Qed.

(** C1: [download_and_validate_image] tests the URL first and the
    extension second.  When a test fails it raises its [ValueError] and
    leaves the world as it was: no request is sent and no file is written.
    Only when both validators answer true does it hand over to the
    downloader, and a call that returns gives back the filename. *)
Theorem download_and_validate_image_fails_fast (E : Env) (url filename : string) (w : World) :
  (is_valid_url E url = Ok false ->
     download_and_validate_image E url filename w =
       (Raise (Exception "ValueError" "Invalid URL provided"), w))
  /\ (is_valid_url E url = Ok true -> validate_file E filename = false ->
     download_and_validate_image E url filename w =
       (Raise (Exception "ValueError" "Invalid file extension"), w))
  /\ (is_valid_url E url = Ok true -> validate_file E filename = true ->
     download_and_validate_image E url filename w =
       download_file_from_url E url filename w)
  /\ (forall r w', download_and_validate_image E url filename w = (r, w') ->
        is_valid_url E url <> Ok true \/ validate_file E filename = false ->
        (exists e, r = Raise e) /\ w' = w)
  /\ (forall p w', download_and_validate_image E url filename w = (Ok p, w') ->
        p = filename /\ is_valid_url E url = Ok true /\ validate_file E filename = true /\
        requests_log w' = requests_log w ++ [url]).
Proof.
  unfold download_and_validate_image, bind, lift, raise.
  repeat split.
  - apply download_invalid_url.
  - now intros -> ->.
  - now intros -> ->.
  - destruct (is_valid_url E url) as [[|]|e], (validate_file E filename);
      simpl in H; try (injection H as <- _; eauto); destruct H0; congruence.
  - destruct (is_valid_url E url) as [[|]|e], (validate_file E filename);
      simpl in H; try (injection H as _ <-; eauto); destruct H0; congruence.
  - destruct (is_valid_url E url) as [[|]|e], (validate_file E filename);
      simpl in H; try discriminate. now apply download_file_ok in H.
  - destruct (is_valid_url E url) as [[|]|e]; [reflexivity| |]; simpl in H;
      destruct (validate_file E filename); discriminate.
  - destruct (is_valid_url E url) as [[|]|e], (validate_file E filename);
      simpl in H; try discriminate. reflexivity.
  - destruct (is_valid_url E url) as [[|]|e], (validate_file E filename);
      simpl in H; try discriminate. now apply download_file_ok in H.
Qed.

(** ** Absolute URLs *)

Lemma scheme_char_not_colon :
  forall c, UrlParse.is_scheme_char c = true -> negb (Ascii.eqb c ":"%char) = true.
Proof. apply char_impl. vm_compute. reflexivity. Qed.

Lemma scheme_char_safe :
  forall c, UrlParse.is_scheme_char c = true ->
            negb (Py.contains c UrlParse.unsafe_url_bytes) = true.
Proof. apply char_impl. vm_compute. reflexivity. Qed.

Lemma alpha_not_stripped :
  forall c, UrlParse.is_ascii_alpha c = true ->
            negb (UrlParse.is_c0_control_or_space c) = true.
Proof. apply char_impl. vm_compute. reflexivity. Qed.

Lemma host_char_safe :
  forall c, is_host_char c = true -> negb (Py.contains c UrlParse.unsafe_url_bytes) = true.
Proof. apply char_impl. vm_compute. reflexivity. Qed.

Lemma host_char_ascii :
  forall c, is_host_char c = true -> (Py.ord c <? 128) = true.
Proof. apply char_impl. vm_compute. reflexivity. Qed.

Lemma host_char_not (d : ascii) :
  Py.contains d "/?#[]" = true ->
  forall c, is_host_char c = true -> negb (Ascii.eqb c d) = true.
Proof.
  intros Hd c Hc.
  destruct (Ascii.eqb_spec c d) as [->|Hne]; [|reflexivity].
  unfold is_host_char in Hc. rewrite Hd, andb_false_r in Hc. discriminate.
Qed.

Lemma host_lacks (d : ascii) host :
  Py.contains d "/?#[]" = true ->
  Py.all_chars is_host_char host = true -> Py.contains d host = false.
Proof.
  intros Hd Hh. apply all_chars_not_contains.
  revert Hh. apply all_chars_impl. now apply host_char_not.
Qed.

Lemma tail_char_safe :
  forall c, Py.contains c "/?#" = true ->
            negb (Py.contains c UrlParse.unsafe_url_bytes) = true.
Proof. apply char_impl. vm_compute. reflexivity. Qed.

Lemma tail_char_reserved :
  forall c, Py.contains c "/?#" = true -> Py.contains c "/?#[]" = true.
Proof. apply char_impl. vm_compute. reflexivity. Qed.

Lemma find_head c t : Py.find c (String c t) = 0.
Proof. cbn [Py.find]. now rewrite Ascii.eqb_refl. Qed.

Lemma tail_head_cases d :
  Py.contains d "/?#" = true -> d = "/"%char \/ d = "?"%char \/ d = "#"%char.
Proof.
  cbn [Py.contains].
  destruct (Ascii.eqb_spec "/"%char d) as [<-|]; [now left|].
  destruct (Ascii.eqb_spec "?"%char d) as [<-|]; [right; now left|].
  destruct (Ascii.eqb_spec "#"%char d) as [<-|]; [right; now right|].
  discriminate.
Qed.

Lemma url_tail_remove tail :
  url_tail tail = true -> url_tail (Py.remove_chars UrlParse.unsafe_url_bytes tail) = true.
Proof.
  destruct tail as [|d t]; [reflexivity|]. intros Hd.
  change (Py.contains d "/?#" = true) in Hd.
  pose proof (tail_char_safe d Hd) as Hs. apply negb_true_iff in Hs.
  cbn [Py.remove_chars]. rewrite Hs. exact Hd.
Qed.

Lemma split_scheme_absolute sch rest :
  scheme_name sch = true ->
  UrlParse.split_scheme (sch +:+ String ":"%char rest) = Some (Py.lower sch, rest).
Proof.
  destruct sch as [|c0 sch']; [discriminate|].
  intros [Ha Hs]%andb_prop.
  set (sch := String c0 sch') in *.
  assert (Hfind : Py.find ":"%char (sch +:+ String ":"%char rest) = Py.len sch).
  { rewrite find_app_absent.
    - simpl. lia.
    - apply all_chars_not_contains. revert Hs. apply all_chars_impl.
      apply scheme_char_not_colon. }
  unfold UrlParse.split_scheme. rewrite Hfind.
  assert (Hto : Py.slice_to (Py.len sch) (sch +:+ String ":"%char rest) = sch).
  { unfold Py.slice_to, Py.len. rewrite Nat2Z.id. apply take_app_length. }
  assert (Hfrom : Py.slice_from (Py.len sch + 1) (sch +:+ String ":"%char rest) = rest).
  { unfold Py.slice_from, Py.len.
    replace (Z.to_nat (Z.of_nat (String.length sch) + 1)) with (String.length sch + 1)%nat by lia.
    clear. induction sch as [|a s IH]; simpl; [reflexivity | exact IH]. }
  assert (Hpos : (0 <? Py.len sch) = true).
  { apply Z.ltb_lt. unfold Py.len, sch. simpl String.length. lia. }
  remember (sch +:+ String ":"%char rest) as url eqn:Hurl.
  rewrite Hto, Hfrom.
  assert (Hhead : url = String c0 (sch' +:+ String ":"%char rest)) by now subst url.
  rewrite Hhead. cbv iota beta. now rewrite Hpos, Ha, Hs.
Qed.

(** The loop of [_splitnetloc]: the result lies between any lower bound
    of the delimiters found and the start value, and is at most each
    delimiter found. *)
Lemma fold_delim_bounds (f : ascii -> Z) cs d0 B :
  (forall c, In c cs -> f c = -1 \/ B <= f c) -> B <= d0 ->
  let r := fold_left
             (fun delim c => let wdelim := f c in
                             if 0 <=? wdelim then Z.min delim wdelim else delim) cs d0 in
  B <= r <= d0 /\ (forall c, In c cs -> 0 <= f c -> r <= f c).
Proof.
  revert d0. induction cs as [|a cs IH]; intros d0 Hf Hd; simpl.
  - split; [lia | intros c []].
  - set (d1 := if 0 <=? f a then Z.min d0 (f a) else d0).
    assert (Hd1 : B <= d1 <= d0 /\ (0 <= f a -> d1 <= f a)).
    { unfold d1. destruct (Hf a (or_introl eq_refl)) as [Ha|Ha];
        destruct (Z.leb_spec 0 (f a)); lia. }
    destruct (IH d1 (fun c Hc => Hf c (or_intror Hc)) (proj1 (proj1 Hd1))) as [Hr Hmin].
    cbv zeta in *.
    split; [lia|].
    intros c [<-|Hc] H0; [lia | now apply Hmin].
Qed.

Lemma splitnetloc_absolute host tail :
  Py.all_chars is_host_char host = true -> url_tail tail = true ->
  UrlParse._splitnetloc (String "/"%char (String "/"%char (host +:+ tail))) 2 = (host, tail).
Proof.
  intros Hh Ht.
  remember (String "/"%char (String "/"%char (host +:+ tail))) as url eqn:Hurl.
  assert (Hlen : Py.len url = 2 + Py.len host + Py.len tail).
  { unfold Py.len. rewrite Hurl. simpl String.length. rewrite length_app. lia. }
  assert (Hfind : forall d, Py.contains d "/?#" = true ->
            Py.find_from d 2 url =
              if Py.find d tail <? 0 then -1 else 2 + Py.len host + Py.find d tail).
  { intros d Hd. unfold Py.find_from, Py.slice_from. rewrite Hurl. simpl Py.drop.
    rewrite find_app_absent.
    - destruct (Z.ltb_spec (Py.find d tail) 0); simpl; [reflexivity|].
      destruct (Z.ltb_spec (Py.len host + Py.find d tail) 0); unfold Py.len in *; lia.
    - apply host_lacks; [|exact Hh]. now apply tail_char_reserved. }
  assert (Hdelim :
    fold_left
      (fun delim c =>
         let wdelim := Py.find_from c 2 url in
         if 0 <=? wdelim then Z.min delim wdelim else delim)
      ["/"%char; "?"%char; "#"%char] (Py.len url) = 2 + Py.len host).
  { assert (Hlo : forall c, In c ["/"%char; "?"%char; "#"%char] ->
              Py.find_from c 2 url = -1 \/ 2 + Py.len host <= Py.find_from c 2 url).
    { intros c Hc. rewrite Hfind.
      - destruct (find_nonneg_or c tail) as [->|H0]; [now left|].
        destruct (Z.ltb_spec (Py.find c tail) 0); [now left | right; lia].
      - cbn [Py.contains]. simpl in Hc.
        destruct Hc as [ <- | [ <- | [ <- | [ ] ] ] ]; rewrite ?Ascii.eqb_refl, ?orb_true_r; reflexivity. }
    assert (Hnn : 0 <= Py.len tail) by (unfold Py.len; lia).
    destruct (fold_delim_bounds (fun c => Py.find_from c 2 url) _ (Py.len url)
                (2 + Py.len host) Hlo ltac:(lia)) as [[Hge Hle] Hmin].
    destruct tail as [|d t].
    - unfold Py.len in *. simpl String.length in *. lia.
    - assert (Hd : In d ["/"%char; "?"%char; "#"%char]).
      { destruct (tail_head_cases d Ht) as [ -> | [ -> | -> ] ]; simpl; tauto. }
      specialize (Hmin d Hd). rewrite Hfind in Hmin by exact Ht.
      rewrite find_head in Hmin. change (0 <? 0) with false in Hmin. cbv iota in Hmin.
      assert (0 <= Py.len host) by (unfold Py.len; lia). lia. }
  unfold UrlParse._splitnetloc. cbv zeta in Hdelim |- *. rewrite Hdelim.
  unfold Py.slice, Py.slice_from, Py.len.
  replace (Z.to_nat (2 + Z.of_nat (String.length host) - 2)) with (String.length host) by lia.
  replace (Z.to_nat (2 + Z.of_nat (String.length host))) with (S (S (String.length host))) by lia.
  rewrite Hurl. simpl Py.drop. now rewrite take_app_length, drop_app_length.
Qed.

Lemma urlparse_absolute E sch host tail :
  scheme_name sch = true -> host_name host = true -> url_tail tail = true ->
  UrlParse.urlparse E (sch +:+ "://" +:+ host +:+ tail) =
    Ok {| UrlParse.scheme := Py.lower sch;
          UrlParse.netloc := host;
          UrlParse.rest := Py.remove_chars UrlParse.unsafe_url_bytes tail |}.
Proof.
  intros Hsch [Hne Hhost]%andb_prop Htail.
  unfold UrlParse.urlparse, UrlParse.urlsplit.
  assert (Hstrip : Py.lstrip_by UrlParse.is_c0_control_or_space
                     (sch +:+ "://" +:+ host +:+ tail) = sch +:+ "://" +:+ host +:+ tail).
  { destruct sch as [|c0 sch']; [discriminate|].
    apply andb_prop in Hsch as [Ha _].
    apply alpha_not_stripped, negb_true_iff in Ha.
    rewrite str_app_cons. cbn [Py.lstrip_by]. now rewrite Ha. }
  rewrite Hstrip.
  assert (Hrm : Py.remove_chars UrlParse.unsafe_url_bytes (sch +:+ "://" +:+ host +:+ tail) =
                sch +:+ String ":"%char
                  (String "/"%char (String "/"%char
                     (host +:+ Py.remove_chars UrlParse.unsafe_url_bytes tail)))).
  { rewrite !remove_chars_app.
    change (Py.remove_chars UrlParse.unsafe_url_bytes "://") with "://".
    change ("://" +:+ ?x) with (String ":"%char (String "/"%char (String "/"%char x))).
    f_equal; [|do 3 f_equal; f_equal].
    - apply remove_chars_id.
      assert (Hs : Py.all_chars UrlParse.is_scheme_char sch = true).
      { destruct sch; [discriminate|]. now apply andb_prop in Hsch as [_ ?]. }
      revert Hs. apply all_chars_impl, scheme_char_safe.
    - apply remove_chars_id. revert Hhost. apply all_chars_impl, host_char_safe. }
  rewrite Hrm, (split_scheme_absolute _ _ Hsch).
  change (Py.slice_to 2 (String "/"%char (String "/"%char ?x))) with "//".
  rewrite String.eqb_refl.
  rewrite (splitnetloc_absolute _ _ Hhost (url_tail_remove _ Htail)).
  rewrite !(host_lacks _ host) by (reflexivity || exact Hhost).
  simpl andb. simpl orb. cbv iota.
  assert (Hascii : UrlParse.isascii host = true).
  { unfold UrlParse.isascii. revert Hhost. apply all_chars_impl, host_char_ascii. }
  now rewrite Hascii, orb_true_r.
Qed.

(** C3, as amended: [is_valid_url] answers true exactly when the string
    parses with a scheme and a network location that are both not empty,
    and false when it parses and lacks either, as ["not a url"] does.  On
    a string that [urlparse] rejects it raises the [ValueError] of
    [urlparse] instead of answering: ["//["] has no scheme and is such a
    string.  Every absolute URL (a scheme name, ["://"], a host and an
    optional tail) is accepted whatever its scheme, [https] and [ftp]
    alike. *)
Theorem is_valid_url_spec (E : Env) (s : string) :
  (is_valid_url E s = Ok true <->
     exists r, UrlParse.urlparse E s = Ok r /\
               UrlParse.scheme r <> EmptyString /\ UrlParse.netloc r <> EmptyString)
  /\ (forall r, UrlParse.urlparse E s = Ok r ->
        UrlParse.scheme r = EmptyString \/ UrlParse.netloc r = EmptyString ->
        is_valid_url E s = Ok false)
  /\ (forall e, is_valid_url E s = Raise e <-> UrlParse.urlparse E s = Raise e)
  /\ (forall sch host tail,
        scheme_name sch = true -> host_name host = true -> url_tail tail = true ->
        s = sch +:+ "://" +:+ host +:+ tail -> is_valid_url E s = Ok true)
  /\ is_valid_url E "not a url" = Ok false
  /\ is_valid_url E "https://example.com/a.png" = Ok true
  /\ is_valid_url E "ftp://example.com/a.png" = Ok true
  /\ is_valid_url E "//[" = Raise (Exception "ValueError" "Invalid IPv6 URL").
Proof.
  split; [apply is_valid_url_iff|].
  split; [apply is_valid_url_iff|].
  split; [apply is_valid_url_iff|].
  split; [|repeat split; reflexivity].
  intros sch host tail Hsch Hhost Htail ->.
  unfold is_valid_url. rewrite (urlparse_absolute E _ _ _ Hsch Hhost Htail).
  simpl UrlParse.scheme. simpl UrlParse.netloc.
  rewrite lower_truthy.
  apply andb_prop in Hhost as [-> _].
  now destruct sch.
Qed.

(** C3 as first stated fails: ["//["] has no colon, hence no scheme, and
    [is_valid_url] does not answer false on it. *)
Lemma is_valid_url_raises_without_scheme :
  Py.find ":"%char "//[" = -1
  /\ is_valid_url Demo.env "//[" = Raise (Exception "ValueError" "Invalid IPv6 URL")
  /\ is_valid_url Demo.env "//[" <> Ok false.
Proof. repeat split. discriminate. Qed.

Lemma is_valid_url_spec_witness :
  is_valid_url Demo.env "sftp://files.example.org:22/pics/cat.gif?x=1" = Ok true /\
  is_valid_url Demo.env "//example.com/a.png" = Ok false.
Proof.
  split.
  - apply (proj1 (proj2 (proj2 (proj2 (is_valid_url_spec Demo.env _))))
             "sftp" "files.example.org:22" "/pics/cat.gif?x=1"); reflexivity.
  - apply (proj1 (proj2 (is_valid_url_spec Demo.env "//example.com/a.png"))
             {| UrlParse.scheme := ""; UrlParse.netloc := "example.com";
                UrlParse.rest := "/a.png" |}).
    + reflexivity.
    + left. reflexivity.
Defined.

(** ** The input loops *)

Lemma io_blind_stdin : io_blind stdin.
Proof. now repeat split. Qed.

Lemma io_blind_sessions : io_blind sessions.
Proof. now repeat split. Qed.

Lemma urlparse_raises E s e :
  UrlParse.urlparse E s = Raise e -> exists cls msg, e = Exception cls msg.
Proof.
  unfold UrlParse.urlparse, UrlParse.urlsplit.
  repeat match goal with
         | |- context [match ?x with _ => _ end] => destruct x
         | |- context [let '(_, _) := ?x in _] => destruct x
         end; intros [= <-]; eauto.
Qed.

Lemma write_chunks_raises name cs err w e w' :
  write_chunks name cs err w = (Raise e, w') -> exists cls msg, e = Exception cls msg.
Proof.
  revert w. induction cs as [|c cs IH]; simpl; intros w.
  - destruct err as [[cls msg]|]; unfold_M; intros [= <- _]; eauto.
  - unfold bind, file_write. apply IH.
Qed.

(** The downloader and the validators raise subclasses of [Exception]
    only, never [SystemExit]. *)
Lemma download_raises E url filename w e w' :
  download_and_validate_image E url filename w = (Raise e, w') ->
  exists cls msg, e = Exception cls msg.
Proof.
  unfold download_and_validate_image, bind, lift, is_valid_url.
  destruct (UrlParse.urlparse E url) as [r|e0] eqn:Hp.
  - destruct (negb _); [unfold raise; intros [= <- _]; eauto|].
    destruct (negb _); [unfold raise; intros [= <- _]; eauto|].
    unfold download_file_from_url, bind, requests_get, raise_for_status, open_wb.
    destruct (http_get E (requests_log w) url) as [resp|cls msg]; cbn [outcome];
      [|intros [= <- _]; eauto].
    destruct (_ && _); [unfold raise; intros [= <- _]; eauto|]. unfold ret at 1.
    destruct (write_chunks _ _ _ _) as [[[]|e1] w1] eqn:Hw; unfold ret; [discriminate|].
    intros [= <- _]. eapply write_chunks_raises, Hw.
  - intros [= <- _]. eapply urlparse_raises, Hp.
Qed.

Lemma attempt_ok E label filename url w p w1 :
  download_and_validate_image E url filename w = (Ok p, w1) ->
  attempt E label filename url w =
    (Ok (Some p), printed (label +:+ " image saved as: " +:+ p) w1).
Proof.
  intros H. unfold attempt, try_except, bind. rewrite H. reflexivity.
Qed.

Lemma attempt_error E label filename url w cls msg w1 :
  download_and_validate_image E url filename w = (Raise (Exception cls msg), w1) ->
  attempt E label filename url w =
    (Ok None, printed ("Error: " +:+ msg) w1).
Proof.
  intros H. unfold attempt, try_except, bind. rewrite H. reflexivity.
Qed.

(** A pass either saves the file and says so, or prints an error line:
    nothing raised by validation or download leaves it. *)
Lemma attempt_cases E label filename url w :
  (exists p w1, download_and_validate_image E url filename w = (Ok p, w1) /\
     attempt E label filename url w =
       (Ok (Some p), printed (label +:+ " image saved as: " +:+ p) w1))
  \/ (exists cls msg w1,
        download_and_validate_image E url filename w = (Raise (Exception cls msg), w1) /\
        attempt E label filename url w =
          (Ok None, printed ("Error: " +:+ msg) w1)).
Proof.
  destruct (download_and_validate_image E url filename w) as [[p|e] w1] eqn:H.
  - left. exists p, w1. split; [reflexivity|]. now apply attempt_ok.
  - destruct (download_raises _ _ _ _ _ _ H) as (cls & msg & ->).
    right. exists cls, msg, w1. split; [reflexivity|]. now apply (attempt_error _ _ _ _ _ cls).
Qed.

Lemma download_keeps {B} (f : World -> B) E url filename :
  io_blind f -> preserves (keeps f) (download_and_validate_image E url filename).
Proof.
  intros (Hfs & Hlog & _).
  apply download_and_validate_preserves; [typeclasses eauto|].
  now apply download_file_keeps.
Qed.

Lemma attempt_keeps {B} (f : World -> B) E label filename url :
  io_blind f -> preserves (keeps f) (attempt E label filename url).
Proof.
  intros Hf. pose proof Hf as (_ & _ & Hout). unfold attempt.
  apply preserves_try_except; [typeclasses eauto | |].
  - apply preserves_bind; [typeclasses eauto | now apply download_keeps |]. intros p.
    apply preserves_bind; [typeclasses eauto | now apply print_keeps |]. intros _.
    apply preserves_ret; typeclasses eauto.
  - intros cls msg.
    apply preserves_bind; [typeclasses eauto | now apply print_keeps |]. intros _.
    apply preserves_ret; typeclasses eauto.
Qed.

Lemma attempt_grows E label filename url :
  preserves stdout_grows (attempt E label filename url).
Proof.
  unfold attempt.
  apply preserves_try_except; [typeclasses eauto | |].
  - apply preserves_bind; [typeclasses eauto | |].
    + apply download_and_validate_preserves; [typeclasses eauto | apply download_file_grows].
    + intros p. apply preserves_bind; [typeclasses eauto | apply print_grows |]. intros _.
      apply preserves_ret; typeclasses eauto.
  - intros cls msg.
    apply preserves_bind; [typeclasses eauto | apply print_grows |]. intros _.
    apply preserves_ret; typeclasses eauto.
Qed.

Lemma print_fs name s : preserves (fs_except name) (print s).
Proof. step_preserves ltac:(unfold print, printed in *). intros other _. reflexivity. Qed.

Lemma attempt_fs E label filename url :
  preserves (fs_except filename) (attempt E label filename url).
Proof.
  unfold attempt.
  apply preserves_try_except; [typeclasses eauto | |].
  - apply preserves_bind; [typeclasses eauto | |].
    + apply download_and_validate_preserves; [typeclasses eauto | apply download_file_fs].
    + intros p. apply preserves_bind; [typeclasses eauto | apply print_fs |]. intros _.
      apply preserves_ret; typeclasses eauto.
  - intros cls msg.
    apply preserves_bind; [typeclasses eauto | apply print_fs |]. intros _.
    apply preserves_ret; typeclasses eauto.
Qed.

Lemma handle_line_preserves R `{!PreOrder R} E label filename line :
  (forall url, preserves R (attempt E label filename url)) ->
  preserves R (handle_line E label filename line).
Proof.
  intros Ha. unfold handle_line, exit.
  apply preserves_if; [apply preserves_raise; assumption | apply Ha].
Qed.

(** A pass that saves a file returns the name it was given, and the file
    is there. *)
Lemma handle_line_saved E label filename line w p w' :
  handle_line E label filename line w = (Ok (Some p), w') ->
  p = filename /\ is_Some (fs w' !! filename).
Proof.
  unfold handle_line. destruct (String.eqb _ _); [discriminate|].
  destruct (attempt_cases E label filename (Py.strip line) w)
    as [(q & w1 & Hd & ->)|(cls & msg & w1 & _ & ->)]; [|discriminate].
  intros [= -> <-].
  unfold download_and_validate_image, bind, lift in Hd.
  destruct (is_valid_url E (Py.strip line)) as [valid|]; [|discriminate].
  destruct (negb valid); [discriminate|].
  destruct (negb _); [discriminate|].
  apply download_file_ok in Hd as (-> & Hfile & _). now split.
Qed.

(** The only exception that leaves a pass is the [SystemExit] of [quit]. *)
Lemma handle_line_raises E label filename line w e w' :
  handle_line E label filename line w = (Raise e, w') ->
  e = SystemExit /\ w' = w /\ Py.lower (Py.strip line) = "quit".
Proof.
  unfold handle_line. destruct (String.eqb_spec (Py.lower (Py.strip line)) "quit") as [Hq|Hq].
  - unfold_M. now intros [= <- <-].
  - destruct (attempt_cases E label filename (Py.strip line) w)
      as [(q & w1 & _ & ->)|(cls & msg & w1 & _ & ->)]; discriminate.
Qed.

Lemma handle_line_stdin E label filename line :
  preserves (keeps stdin) (handle_line E label filename line).
Proof.
  apply handle_line_preserves; [typeclasses eauto|].
  intros url. apply attempt_keeps, io_blind_stdin.
Qed.

(** The loop is its first pass followed, unless that pass left it, by the
    loop again: it is the [while True] of the source. *)
Lemma await_url_unroll E prompt label filename w :
  await_url E prompt label filename w =
    (r <- iteration E prompt label filename ;;
     match r with
     | Some image_path => ret image_path
     | None => await_url E prompt label filename
     end) w.
Proof.
  unfold await_url, iteration, bind, input.
  destruct (stdin w) as [|line lines] eqn:Hin; simpl stdin; rewrite Hin; [reflexivity|].
  cbn [await_loop].
  destruct (handle_line E label filename line _) as [[[p|]|e] w1] eqn:Hh; try reflexivity.
  apply handle_line_stdin in Hh. unfold keeps in Hh. simpl in Hh. now rewrite Hh.
Qed.

Lemma await_loop_preserves R `{!PreOrder R} E prompt label filename :
  (forall w, R w (set_stdout (stdout w ++ [prompt]) w)) ->
  (forall w lines, R w (set_stdin lines w)) ->
  (forall line, preserves R (handle_line E label filename line)) ->
  forall lines, preserves R (await_loop E prompt label filename lines).
Proof.
  intros Hout Hin Hh lines.
  induction lines as [|line lines IH]; intros w r w' H; cbn [await_loop] in H.
  - injection H as _ <-. apply Hout.
  - destruct (handle_line E label filename line _) as [[[p|]|e] w1] eqn:Hl.
    + injection H as _ <-.
      transitivity (set_stdout (stdout w ++ [prompt]) w); [apply Hout|].
      etransitivity; [apply Hin|]. exact (Hh _ _ _ _ Hl).
    + transitivity (set_stdout (stdout w ++ [prompt]) w); [apply Hout|].
      etransitivity; [apply Hin|].
      etransitivity; [exact (Hh _ _ _ _ Hl) | exact (IH _ _ _ H)].
    + injection H as _ <-.
      transitivity (set_stdout (stdout w ++ [prompt]) w); [apply Hout|].
      etransitivity; [apply Hin|]. exact (Hh _ _ _ _ Hl).
Qed.

Lemma await_url_keeps {B} (f : World -> B) E prompt label filename :
  io_blind f -> (forall v w, f (set_stdin v w) = f w) ->
  preserves (keeps f) (await_url E prompt label filename).
Proof.
  intros Hf Hin w r w' H. pose proof Hf as (_ & _ & Hout).
  unfold await_url in H. revert H.
  apply await_loop_preserves; [typeclasses eauto | | |].
  - intros w0. apply Hout.
  - intros w0 lines. apply Hin.
  - intros line. apply handle_line_preserves; [typeclasses eauto|].
    intros url. now apply attempt_keeps.
Qed.

Lemma await_url_grows E prompt label filename :
  preserves stdout_grows (await_url E prompt label filename).
Proof.
  intros w r w' H. unfold await_url in H. revert H.
  apply await_loop_preserves; [typeclasses eauto | | |].
  - intros w0. now exists [prompt].
  - intros w0 lines. exists []. simpl. now rewrite app_nil_r.
  - intros line. apply handle_line_preserves; [typeclasses eauto|].
    intros url. apply attempt_grows.
Qed.

Lemma await_url_fs E prompt label filename :
  preserves (fs_except filename) (await_url E prompt label filename).
Proof.
  intros w r w' H. unfold await_url in H. revert H.
  apply await_loop_preserves; [typeclasses eauto | | |].
  - intros w0 other _. reflexivity.
  - intros w0 lines other _. reflexivity.
  - intros line. apply handle_line_preserves; [typeclasses eauto|].
    intros url. apply attempt_fs.
Qed.

(** The loop is left with the file saved under the name it was given. *)
Lemma await_url_saved E prompt label filename w p w' :
  await_url E prompt label filename w = (Ok p, w') ->
  p = filename /\ is_Some (fs w' !! filename).
Proof.
  unfold await_url. generalize (stdin w) as lines. intros lines. revert w.
  induction lines as [|line lines IH]; intros w H; cbn [await_loop] in H; [discriminate|].
  destruct (handle_line E label filename line _) as [[[q|]|e] w1] eqn:Hl.
  - injection H as -> ->. eapply handle_line_saved, Hl.
  - eapply IH, H.
  - discriminate.
Qed.

(** What leaves the loop as an exception is the [SystemExit] of [quit] or
    the [EOFError] of [input] at the end of the input: nothing that
    validation or download raised. *)
Lemma await_url_raises E prompt label filename w e w' :
  await_url E prompt label filename w = (Raise e, w') ->
  e = SystemExit \/ (e = Exception "EOFError" "EOF when reading a line" /\ stdin w' = []).
Proof.
  unfold await_url.
  assert (Hgen : forall lines w0, stdin w0 = lines ->
            await_loop E prompt label filename lines w0 = (Raise e, w') ->
            e = SystemExit \/
            (e = Exception "EOFError" "EOF when reading a line" /\ stdin w' = [])).
  { induction lines as [|line lines IH]; intros w0 Hin H; cbn [await_loop] in H.
    - injection H as <- <-. right. now split.
    - destruct (handle_line E label filename line _) as [[[q|]|e1] w1] eqn:Hl.
      + discriminate.
      + apply (IH w1); [|exact H].
        apply handle_line_stdin in Hl. exact Hl.
      + injection H as -> ->. left. eapply handle_line_raises, Hl. }
  apply Hgen. reflexivity.
Qed.

(** ** Sequencing *)

Lemma bind_ok {A B} (m : M A) (k : A -> M B) w a w1 :
  m w = (Ok a, w1) -> bind m k w = k a w1.
Proof. intros H. unfold bind. now rewrite H. Qed.

Lemma bind_raise {A B} (m : M A) (k : A -> M B) w e w1 :
  m w = (Raise e, w1) -> bind m k w = (Raise e, w1).
Proof. intros H. unfold bind. now rewrite H. Qed.

Lemma bind_inv {A B} (m : M A) (k : A -> M B) w r w' :
  bind m k w = (r, w') ->
  (exists a w1, m w = (Ok a, w1) /\ k a w1 = (r, w')) \/
  (exists e, m w = (Raise e, w') /\ r = Raise e).
Proof.
  unfold bind. destruct (m w) as [[a|e] w1].
  - intros H. left. now exists a, w1.
  - intros [= <- <-]. right. now exists e.
Qed.

Lemma try_except_ok {A} (body : M A) handler w a w1 :
  body w = (Ok a, w1) -> try_except body handler w = (Ok a, w1).
Proof. intros H. unfold try_except. now rewrite H. Qed.

Lemma try_except_caught {A} (body : M A) handler w cls msg w1 :
  body w = (Raise (Exception cls msg), w1) ->
  try_except body handler w = handler cls msg w1.
Proof. intros H. unfold try_except. now rewrite H. Qed.

Lemma try_except_exit {A} (body : M A) handler w w1 :
  body w = (Raise SystemExit, w1) -> try_except body handler w = (Raise SystemExit, w1).
Proof. intros H. unfold try_except. now rewrite H. Qed.

Lemma bind_print {B} s (k : unit -> M B) w : bind (print s) k w = k tt (printed s w).
Proof. reflexivity. Qed.

(** ** Setup and analysis *)

Lemma setup_api_run E w :
  setup_api E w =
    (Ok {| model_name := "gemini-1.5-flash";
           generation_config :=
             {| temperature := 0.4%Q; top_p := 0.99%Q; top_k := 0;
                max_output_tokens := 4096 |} |},
     set_sessions
       (sessions w ++
          [{| model_name := "gemini-1.5-flash";
              generation_config :=
                {| temperature := 0.4%Q; top_p := 0.99%Q; top_k := 0;
                   max_output_tokens := 4096 |} |}])
       (set_genai_api_key ((environ w ∪ dotenv_values E) !! "API_KEY")
          (set_environ (environ w ∪ dotenv_values E) w))).
Proof. reflexivity. Qed.

Lemma setup_api_grows E : preserves stdout_grows (setup_api E).
Proof.
  intros w r w'. rewrite setup_api_run. intros [= _ <-].
  exists []. simpl. now rewrite app_nil_r.
Qed.

Lemma analyze_preserves R `{!PreOrder R} E m p1 p2 :
  (forall parts, preserves R (generate_content E m parts)) ->
  preserves R (analyze_image_similarities E m p1 p2).
Proof.
  intros Hg. unfold analyze_image_similarities.
  apply preserves_bind; [assumption | now apply Image_open_preserves |]. intros i1.
  apply preserves_bind; [assumption | now apply Image_open_preserves |]. intros i2.
  apply preserves_bind; [assumption | apply Hg |]. intros resp.
  now apply preserves_lift.
Qed.

Lemma analyze_keeps {B} (f : World -> B) E m p1 p2 :
  (forall v w, f (set_genai_log v w) = f w) ->
  preserves (keeps f) (analyze_image_similarities E m p1 p2).
Proof.
  intros Hf. apply analyze_preserves; [typeclasses eauto|].
  intros parts. now apply generate_content_keeps.
Qed.

Lemma analyze_grows E m p1 p2 :
  preserves stdout_grows (analyze_image_similarities E m p1 p2).
Proof.
  apply analyze_preserves; [typeclasses eauto|].
  intros parts. apply generate_content_grows.
Qed.

Lemma main_body_unfold E :
  main_body E = (print "Setting up API..." ;; model <- setup_api E ;; after_setup E model).
Proof. reflexivity. Qed.

Lemma after_setup_preserves R `{!PreOrder R} E model :
  (forall prompt label filename, preserves R (await_url E prompt label filename)) ->
  (forall s, preserves R (print s)) ->
  (forall p1 p2, preserves R (analyze_image_similarities E model p1 p2)) ->
  (forall path, preserves R (os_remove path)) ->
  preserves R (after_setup E model).
Proof.
  intros Ha Hp Hn Hr. unfold after_setup.
  repeat (apply preserves_bind; [assumption | auto | intros ?]); auto.
Qed.

Lemma after_setup_grows E model : preserves stdout_grows (after_setup E model).
Proof.
  apply after_setup_preserves; [typeclasses eauto | | | |].
  - intros. apply await_url_grows.
  - intros. apply print_grows.
  - intros. apply analyze_grows.
  - intros. apply os_remove_grows.
Qed.

Lemma after_setup_sessions E model : preserves (keeps sessions) (after_setup E model).
Proof.
  apply after_setup_preserves; [typeclasses eauto | | | |].
  - intros. now apply await_url_keeps; [apply io_blind_sessions|].
  - intros. now apply print_keeps.
  - intros. now apply analyze_keeps.
  - intros. now apply os_remove_keeps.
Qed.

(** C8: [setup_api] returns a session for the model [gemini-1.5-flash]
    with temperature 0.4, top-p 0.99, top-k 0 and at most 4096 output
    tokens.  The key it configures is the value of [API_KEY] in the
    process environment once the [.env] file is loaded into it (a variable
    already set wins over the file); nothing else in the world changes.
    [main] calls it once: a run constructs exactly this one session. *)
Theorem setup_api_session (E : Env) (w : World) :
  exists m w1,
    setup_api E w = (Ok m, w1)
    /\ model_name m = "gemini-1.5-flash"
    /\ temperature (generation_config m) = 0.4%Q
    /\ top_p (generation_config m) = 0.99%Q
    /\ top_k (generation_config m) = 0
    /\ max_output_tokens (generation_config m) = 4096
    /\ sessions w1 = sessions w ++ [m]
    /\ environ w1 = environ w ∪ dotenv_values E
    /\ genai_api_key w1 = environ w1 !! "API_KEY"
    /\ genai_api_key w1 =
         match environ w !! "API_KEY" with
         | Some key => Some key
         | None => dotenv_values E !! "API_KEY"
         end
    /\ (fs w1 = fs w /\ stdin w1 = stdin w /\ stdout w1 = stdout w /\
        requests_log w1 = requests_log w /\ genai_log w1 = genai_log w)
    /\ sessions (snd (main E w)) = sessions w ++ [m].
Proof.
  eexists _, _. split; [apply setup_api_run|].
  repeat (split; [reflexivity|]).
  split.
  { simpl. destruct (environ w !! "API_KEY") as [key|] eqn:Hk.
    - now apply lookup_union_Some_l.
    - now rewrite lookup_union_r. }
  split; [now repeat split|].
  unfold main. rewrite main_body_unfold.
  destruct (try_except _ _ w) as [r w'] eqn:Hmain. simpl snd.
  unfold try_except in Hmain.
  destruct (bind _ _ w) as [r0 w0] eqn:Hbody.
  assert (Hs : sessions w0 = sessions w ++
                 [{| model_name := "gemini-1.5-flash";
                     generation_config :=
                       {| temperature := 0.4%Q; top_p := 0.99%Q; top_k := 0;
                          max_output_tokens := 4096 |} |}]).
  { rewrite bind_print in Hbody.
    rewrite (bind_ok _ _ _ _ _ (setup_api_run E _)) in Hbody.
    apply after_setup_sessions in Hbody. unfold keeps in Hbody. now rewrite Hbody. }
  destruct r0 as [[]|[cls msg|]].
  - now injection Hmain as _ <-.
  - unfold print in Hmain. now injection Hmain as _ <-.
  - now injection Hmain as _ <-.
Qed.

(** ** The extension test in the driver *)

Lemma validate_file_driver_names E :
  validate_file E "image1.jpg" = true /\ validate_file E "image2.jpg" = true.
Proof. unfold validate_file. now destruct (os_name E). Qed.

Lemma download_without_extension_test E url filename w :
  validate_file E filename = true ->
  download_and_validate_image E url filename w = download_url_checked E url filename w.
Proof.
  intros Hv. unfold download_and_validate_image, download_url_checked, bind.
  now rewrite Hv.
Qed.

(** C9: the driver passes only ["image1.jpg"] and ["image2.jpg"], which
    [validate_file] accepts, so on its calls [download_and_validate_image]
    behaves as if the extension test were not there: what a pass of either
    loop catches was raised by the URL validation or by the download. *)
Theorem extension_branch_unreachable (E : Env) (url : string) (w : World) :
  validate_file E "image1.jpg" = true
  /\ validate_file E "image2.jpg" = true
  /\ download_and_validate_image E url "image1.jpg" w = download_url_checked E url "image1.jpg" w
  /\ download_and_validate_image E url "image2.jpg" w = download_url_checked E url "image2.jpg" w
  /\ attempt E "First" "image1.jpg" url w =
       try_except
         (image_path <- download_url_checked E url "image1.jpg" ;;
          print ("First image saved as: " +:+ image_path) ;;
          ret (Some image_path))
         (fun _ msg => print ("Error: " +:+ msg) ;; ret None) w
  /\ attempt E "Second" "image2.jpg" url w =
       try_except
         (image_path <- download_url_checked E url "image2.jpg" ;;
          print ("Second image saved as: " +:+ image_path) ;;
          ret (Some image_path))
         (fun _ msg => print ("Error: " +:+ msg) ;; ret None) w
  /\ (forall filename e w',
        filename = "image1.jpg" \/ filename = "image2.jpg" ->
        download_and_validate_image E url filename w = (Raise e, w') ->
        (is_valid_url E url = Raise e /\ w' = w)
        \/ (is_valid_url E url = Ok false /\
            e = Exception "ValueError" "Invalid URL provided" /\ w' = w)
        \/ (is_valid_url E url = Ok true /\
            download_file_from_url E url filename w = (Raise e, w'))).
Proof.
  destruct (validate_file_driver_names E) as [H1 H2].
  split; [exact H1|]. split; [exact H2|].
  split; [now apply download_without_extension_test|].
  split; [now apply download_without_extension_test|].
  split.
  { unfold attempt, try_except, bind at 1 3.
    now rewrite (download_without_extension_test E url _ w H1). }
  split.
  { unfold attempt, try_except, bind at 1 3.
    now rewrite (download_without_extension_test E url _ w H2). }
  intros filename e w' Hname.
  assert (Hv : validate_file E filename = true) by now destruct Hname as [->| ->].
  rewrite (download_without_extension_test _ _ _ _ Hv).
  unfold download_url_checked, bind, lift, raise.
  destruct (is_valid_url E url) as [[|]|e0]; simpl.
  - intros H. right. right. now split.
  - intros [= <- <-]. right. left. now repeat split.
  - intros [= <- <-]. left. now split.
Qed.

Lemma extension_branch_unreachable_witness :
  (is_valid_url Demo.env "https://example.com/missing.jpg" =
     Raise (Exception "HTTPError"
              "404 Client Error: Not Found for url: https://example.com/missing.jpg")
   /\ set_requests_log ["https://example.com/missing.jpg"] (Demo.world []) = Demo.world [])
  \/ (is_valid_url Demo.env "https://example.com/missing.jpg" = Ok false /\
      Exception "HTTPError"
        "404 Client Error: Not Found for url: https://example.com/missing.jpg" =
      Exception "ValueError" "Invalid URL provided" /\
      set_requests_log ["https://example.com/missing.jpg"] (Demo.world []) = Demo.world [])
  \/ (is_valid_url Demo.env "https://example.com/missing.jpg" = Ok true /\
      download_file_from_url Demo.env "https://example.com/missing.jpg" "image1.jpg"
        (Demo.world []) =
      (Raise (Exception "HTTPError"
                "404 Client Error: Not Found for url: https://example.com/missing.jpg"),
       set_requests_log ["https://example.com/missing.jpg"] (Demo.world []))).
Proof.
  apply (proj2 (proj2 (proj2 (proj2 (proj2 (proj2
           (extension_branch_unreachable Demo.env "https://example.com/missing.jpg"
              (Demo.world []))))))) "image1.jpg").
  - left. reflexivity.
  - vm_compute. reflexivity.
Defined.

Lemma download_and_validate_image_fails_fast_witness :
  download_and_validate_image Demo.env "notaurl" "image1.jpg" (Demo.world []) =
    (Raise (Exception "ValueError" "Invalid URL provided"), Demo.world [])
  /\ download_and_validate_image Demo.env "https://example.com/a.png" "a.bmp" (Demo.world []) =
    (Raise (Exception "ValueError" "Invalid file extension"), Demo.world [])
  /\ download_and_validate_image Demo.env "https://example.com/a.png" "a.PNG" (Demo.world []) =
    download_file_from_url Demo.env "https://example.com/a.png" "a.PNG" (Demo.world []).
Proof.
  split; [|split].
  - apply (proj1 (download_and_validate_image_fails_fast Demo.env "notaurl" "image1.jpg"
                    (Demo.world []))).
    reflexivity.
  - apply (proj1 (proj2 (download_and_validate_image_fails_fast Demo.env
                           "https://example.com/a.png" "a.bmp" (Demo.world []))));
      reflexivity.
  - apply (proj1 (proj2 (proj2 (download_and_validate_image_fails_fast Demo.env
                                  "https://example.com/a.png" "a.PNG" (Demo.world [])))));
      reflexivity.
Defined.

(** ** Leaving with [quit] *)

Lemma await_url_quit E prompt label filename w line rest :
  stdin w = line :: rest -> Py.lower (Py.strip line) = "quit" ->
  await_url E prompt label filename w =
    (Raise SystemExit, set_stdin rest (set_stdout (stdout w ++ [prompt]) w)).
Proof.
  intros Hin Hq. unfold await_url. rewrite Hin. cbn [await_loop].
  unfold handle_line. rewrite Hq. reflexivity.
Qed.

(** C4: a line that reads [quit] once stripped and lowercased ends the
    process at either prompt: the loop raises [SystemExit] right after the
    prompt, nothing more is printed, no file or log changes, and the exit
    status is 0.  At the first prompt of a run no file has been written and
    no request sent; at the second, the first image stays on disk. *)
Theorem quit_exits_immediately (E : Env) (line : string) (rest : list string) :
  Py.lower (Py.strip line) = "quit" ->
  (forall prompt label filename w,
      stdin w = line :: rest ->
      await_url E prompt label filename w =
        (Raise SystemExit, set_stdin rest (set_stdout (stdout w ++ [prompt]) w)))
  /\ (forall w,
        stdin w = line :: rest ->
        exists w',
          main E w = (Raise SystemExit, w')
          /\ exit_status (fst (main E w)) = 0
          /\ fs w' = fs w
          /\ requests_log w' = requests_log w
          /\ genai_log w' = genai_log w
          /\ stdout w' = stdout w ++ ["Setting up API..." +:+ Py.nl; first_prompt]
          /\ stdin w' = rest)
  /\ (forall w model w1 image1_path w2,
        setup_api E (printed "Setting up API..." w) = (Ok model, w1) ->
        await_url E first_prompt "First" "image1.jpg" w1 = (Ok image1_path, w2) ->
        stdin w2 = line :: rest ->
        main E w = (Raise SystemExit, set_stdin rest (set_stdout (stdout w2 ++ [second_prompt]) w2))
        /\ exit_status (fst (main E w)) = 0
        /\ is_Some (fs w2 !! "image1.jpg")).
Proof.
  intros Hq. split; [|split].
  - intros prompt label filename w Hin. now apply (await_url_quit _ _ _ _ _ line).
  - intros w Hin.
    assert (Hmain : main E w =
              (Raise SystemExit,
               set_stdin rest
                 (set_stdout
                    (stdout w ++ ["Setting up API..." +:+ Py.nl] ++ [first_prompt])
                    (snd (setup_api E (printed "Setting up API..." w)))))).
    { unfold main. apply try_except_exit. rewrite main_body_unfold.
      rewrite bind_print.
      rewrite (bind_ok _ _ _ _ _ (setup_api_run E _)).
      unfold after_setup.
      match goal with
      | |- bind _ _ ?w1 = _ =>
          rewrite (bind_raise _ _ _ _ _
                     (await_url_quit E first_prompt "First" "image1.jpg" w1 line rest Hin Hq))
      end.
      simpl. now rewrite <- app_assoc. }
    eexists. split; [exact Hmain|]. rewrite Hmain. simpl.
    now repeat split.
  - intros w model w1 p1 w2 Hs H1 Hin.
    assert (Hmain : main E w =
              (Raise SystemExit, set_stdin rest (set_stdout (stdout w2 ++ [second_prompt]) w2))).
    { unfold main. apply try_except_exit. rewrite main_body_unfold.
      rewrite bind_print.
      rewrite (bind_ok _ _ _ _ _ Hs).
      unfold after_setup. rewrite (bind_ok _ _ _ _ _ H1).
      apply bind_raise. now apply (await_url_quit _ _ _ _ _ line). }
    split; [exact Hmain|]. rewrite Hmain. split; [reflexivity|].
    now apply await_url_saved in H1.
Qed.

Lemma quit_exits_immediately_witness :
  exists w',
    main Demo.env (Demo.world ["  QUIT "; "https://example.com/a.png"]) = (Raise SystemExit, w')
    /\ exit_status (fst (main Demo.env (Demo.world ["  QUIT "; "https://example.com/a.png"]))) = 0
    /\ fs w' = fs (Demo.world ["  QUIT "; "https://example.com/a.png"])
    /\ requests_log w' = requests_log (Demo.world ["  QUIT "; "https://example.com/a.png"])
    /\ genai_log w' = genai_log (Demo.world ["  QUIT "; "https://example.com/a.png"])
    /\ stdout w' = stdout (Demo.world ["  QUIT "; "https://example.com/a.png"]) ++
                   ["Setting up API..." +:+ Py.nl; first_prompt]
    /\ stdin w' = ["https://example.com/a.png"].
Proof.
  apply (proj1 (proj2 (quit_exits_immediately Demo.env "  QUIT " ["https://example.com/a.png"]
                         eq_refl))).
  reflexivity.
Defined.

(** ** Retrying *)

Lemma await_url_step E prompt label filename w line rest :
  stdin w = line :: rest ->
  await_url E prompt label filename w =
    match handle_line E label filename line
            (set_stdin rest (set_stdout (stdout w ++ [prompt]) w)) with
    | (Ok (Some image_path), w') => (Ok image_path, w')
    | (Ok None, w') => await_url E prompt label filename w'
    | (Raise e, w') => (Raise e, w')
    end.
Proof.
  intros Hin. unfold await_url at 1. rewrite Hin. cbn [await_loop].
  destruct (handle_line E label filename line _) as [[[p|]|e] w1] eqn:Hh; try reflexivity.
  apply handle_line_stdin in Hh. unfold keeps in Hh. simpl in Hh.
  unfold await_url. now rewrite Hh.
Qed.

Lemma await_url_retry E prompt label filename w line rest cls msg w1 :
  stdin w = line :: rest -> Py.lower (Py.strip line) <> "quit" ->
  download_and_validate_image E (Py.strip line) filename
    (set_stdin rest (set_stdout (stdout w ++ [prompt]) w)) = (Raise (Exception cls msg), w1) ->
  await_url E prompt label filename w =
    await_url E prompt label filename (printed ("Error: " +:+ msg) w1)
  /\ stdin w1 = rest.
Proof.
  intros Hin Hq Hd. rewrite (await_url_step _ _ _ _ _ _ _ Hin).
  unfold handle_line. apply String.eqb_neq in Hq. rewrite Hq.
  rewrite (attempt_error _ _ _ _ _ _ _ _ Hd). split; [reflexivity|].
  apply (download_keeps stdin _ _ _ io_blind_stdin) in Hd. exact Hd.
Qed.

Lemma await_url_success E prompt label filename w line rest p w1 :
  stdin w = line :: rest -> Py.lower (Py.strip line) <> "quit" ->
  download_and_validate_image E (Py.strip line) filename
    (set_stdin rest (set_stdout (stdout w ++ [prompt]) w)) = (Ok p, w1) ->
  await_url E prompt label filename w =
    (Ok p, printed (label +:+ " image saved as: " +:+ p) w1).
Proof.
  intros Hin Hq Hd. rewrite (await_url_step _ _ _ _ _ _ _ Hin).
  unfold handle_line. apply String.eqb_neq in Hq. rewrite Hq.
  now rewrite (attempt_ok _ _ _ _ _ _ _ Hd).
Qed.

(** Any number of refused lines is answered line by line, and the loop
    is then where it started, asking the same question. *)
Lemma await_url_invalid_lines E prompt label filename bad : forall rest w,
  Forall (fun l => Py.lower (Py.strip l) <> "quit" /\ is_valid_url E (Py.strip l) = Ok false) bad ->
  stdin w = bad ++ rest ->
  await_url E prompt label filename w =
    await_url E prompt label filename
      (set_stdin rest
         (set_stdout
            (stdout w ++
               flat_map (fun _ => [prompt; "Error: Invalid URL provided" +:+ Py.nl]) bad) w)).
Proof.
  induction bad as [|l bad IH]; intros rest w Hbad Hin.
  - simpl in *. rewrite app_nil_r, <- Hin. now destruct w.
  - apply Forall_cons in Hbad as [[Hq Hv] Hbad]. simpl in Hin.
    pose proof (download_invalid_url E (Py.strip l) filename
                  (set_stdin (bad ++ rest) (set_stdout (stdout w ++ [prompt]) w)) Hv) as Hd.
    destruct (await_url_retry E prompt label filename _ _ _ _ _ _ Hin Hq Hd) as [-> _].
    rewrite (IH rest) by (exact Hbad || reflexivity).
    f_equal. destruct w. unfold printed, set_stdin, set_stdout. simpl.
    now rewrite <- !app_assoc.
Qed.

(** C6: in either loop a line that is not [quit] is validated and
    downloaded.  If that raises, the error is caught in the loop, a line
    ["Error: "] followed by its text is printed, and the loop is back in
    the same state with the same prompt; if it returns, the loop ends with
    the saved path.  No exception of validation or download leaves the
    loop, and there is no bound on the number of retries. *)
Theorem input_loop_retries (E : Env) (prompt label filename : string) :
  (forall w line rest cls msg w1,
      stdin w = line :: rest -> Py.lower (Py.strip line) <> "quit" ->
      download_and_validate_image E (Py.strip line) filename
        (set_stdin rest (set_stdout (stdout w ++ [prompt]) w)) =
        (Raise (Exception cls msg), w1) ->
      await_url E prompt label filename w =
        await_url E prompt label filename (printed ("Error: " +:+ msg) w1)
      /\ stdin w1 = rest)
  /\ (forall w line rest image_path w1,
        stdin w = line :: rest -> Py.lower (Py.strip line) <> "quit" ->
        download_and_validate_image E (Py.strip line) filename
          (set_stdin rest (set_stdout (stdout w ++ [prompt]) w)) = (Ok image_path, w1) ->
        await_url E prompt label filename w =
          (Ok image_path, printed (label +:+ " image saved as: " +:+ image_path) w1))
  /\ (forall w e w',
        await_url E prompt label filename w = (Raise e, w') ->
        e = SystemExit \/
        (e = Exception "EOFError" "EOF when reading a line" /\ stdin w' = []))
  /\ (forall bad rest w,
        Forall (fun l => Py.lower (Py.strip l) <> "quit" /\
                         is_valid_url E (Py.strip l) = Ok false) bad ->
        stdin w = bad ++ rest ->
        await_url E prompt label filename w =
          await_url E prompt label filename
            (set_stdin rest
               (set_stdout
                  (stdout w ++
                     flat_map (fun _ => [prompt; "Error: Invalid URL provided" +:+ Py.nl]) bad)
                  w))).
Proof.
  split; [|split; [|split]].
  - intros. now apply (await_url_retry _ _ _ _ _ line _ cls).
  - intros. now apply (await_url_success _ _ _ _ _ line rest).
  - intros w e w'. apply await_url_raises.
  - intros. now apply await_url_invalid_lines.
Qed.

Lemma input_loop_retries_witness :
  await_url Demo.env first_prompt "First" "image1.jpg"
    (Demo.world ["notaurl"; "also not"; "https://example.com/a.png"]) =
  await_url Demo.env first_prompt "First" "image1.jpg"
    (set_stdin ["https://example.com/a.png"]
       (set_stdout
          [first_prompt; "Error: Invalid URL provided" +:+ Py.nl;
           first_prompt; "Error: Invalid URL provided" +:+ Py.nl]
          (Demo.world ["notaurl"; "also not"; "https://example.com/a.png"]))).
Proof.
  apply (proj2 (proj2 (proj2 (input_loop_retries Demo.env first_prompt "First" "image1.jpg")))
           ["notaurl"; "also not"] ["https://example.com/a.png"]).
  - repeat constructor; discriminate.
  - reflexivity.
Defined.

(** ** The end of a run *)

(** Once both loops have returned, the two files are on disk under the
    driver's names and nothing else in the directory has changed. *)
Lemma both_saved E w1 p1 w2 p2 w3 :
  await_url E first_prompt "First" "image1.jpg" w1 = (Ok p1, w2) ->
  await_url E second_prompt "Second" "image2.jpg" w2 = (Ok p2, w3) ->
  p1 = "image1.jpg" /\ p2 = "image2.jpg"
  /\ is_Some (fs w3 !! "image1.jpg") /\ is_Some (fs w3 !! "image2.jpg")
  /\ (forall other, other <> "image1.jpg" -> other <> "image2.jpg" ->
        fs w3 !! other = fs w1 !! other).
Proof.
  intros H1 H2.
  destruct (await_url_saved _ _ _ _ _ _ _ H1) as [-> Hf1].
  destruct (await_url_saved _ _ _ _ _ _ _ H2) as [-> Hf2].
  pose proof (await_url_fs _ _ _ _ _ _ _ H1) as Hx1.
  pose proof (await_url_fs _ _ _ _ _ _ _ H2) as Hx2.
  repeat split; try assumption.
  - rewrite (Hx2 "image1.jpg") by discriminate. exact Hf1.
  - intros other Hn1 Hn2. now rewrite Hx2, Hx1.
Qed.

Lemma os_remove_present path w :
  is_Some (fs w !! path) -> os_remove path w = (Ok tt, set_fs (delete path (fs w)) w).
Proof. intros [x Hx]. unfold os_remove. now rewrite Hx. Qed.

(** C5: when both downloads succeed and the analysis returns its text,
    [main] prints the text, then removes [image1.jpg] and [image2.jpg] and
    ends normally: neither file is left, and no other file of the
    directory has been touched by the run. *)
Theorem success_path_cleans_up (E : Env) (w : World)
    (model : GenerativeModel) (w1 : World) (image1_path : string) (w2 : World)
    (image2_path : string) (w3 : World) (similarities : string) (w4 : World) :
  setup_api E (printed "Setting up API..." w) = (Ok model, w1) ->
  await_url E first_prompt "First" "image1.jpg" w1 = (Ok image1_path, w2) ->
  await_url E second_prompt "Second" "image2.jpg" w2 = (Ok image2_path, w3) ->
  analyze_image_similarities E model image1_path image2_path
    (printed (Py.nl +:+ "Analyzing image similarities...") w3) = (Ok similarities, w4) ->
  let w5 :=
    set_fs (delete "image2.jpg" (delete "image1.jpg" (fs w4)))
      (printed similarities (printed (Py.nl +:+ "Image Analysis:") w4)) in
  main E w = (Ok tt, w5)
  /\ exit_status (fst (main E w)) = 0
  /\ is_Some (fs w4 !! "image1.jpg") /\ is_Some (fs w4 !! "image2.jpg")
  /\ fs w5 !! "image1.jpg" = None /\ fs w5 !! "image2.jpg" = None
  /\ (forall other, other <> "image1.jpg" -> other <> "image2.jpg" ->
        fs w5 !! other = fs w !! other)
  /\ stdout w5 = stdout w4 ++ [(Py.nl +:+ "Image Analysis:") +:+ Py.nl; similarities +:+ Py.nl].
Proof.
  intros Hs H1 H2 Ha w5.
  destruct (both_saved _ _ _ _ _ _ H1 H2) as (-> & -> & Hf1 & Hf2 & Hother).
  assert (Hfs4 : fs w4 = fs w3).
  { apply (analyze_keeps fs) in Ha; [exact Ha | reflexivity]. }
  assert (Hfs1 : fs w1 = fs w).
  { rewrite setup_api_run in Hs. now injection Hs as _ <-. }
  assert (Hmain : main E w = (Ok tt, w5)).
  { unfold main. apply try_except_ok. rewrite main_body_unfold.
    rewrite bind_print.
    rewrite (bind_ok _ _ _ _ _ Hs). unfold after_setup.
    rewrite (bind_ok _ _ _ _ _ H1), (bind_ok _ _ _ _ _ H2).
    rewrite bind_print, (bind_ok _ _ _ _ _ Ha), !bind_print.
    erewrite bind_ok; [|apply os_remove_present; simpl; now rewrite Hfs4].
    rewrite os_remove_present; [reflexivity|].
    simpl. rewrite lookup_delete_ne by discriminate. now rewrite Hfs4. }
  split; [exact Hmain|]. rewrite Hmain.
  split; [reflexivity|].
  rewrite Hfs4. split; [exact Hf1|]. split; [exact Hf2|].
  unfold w5. simpl. rewrite Hfs4.
  split; [rewrite lookup_delete_ne by discriminate; apply lookup_delete_eq|].
  split; [apply lookup_delete_eq|].
  split.
  - intros other Hn1 Hn2. rewrite !lookup_delete_ne by congruence.
    now rewrite Hother, Hfs1.
  - now rewrite <- app_assoc.
Qed.

Lemma success_path_cleans_up_witness :
  exists w5,
    main Demo.env (Demo.world ["https://example.com/a.png"; "https://example.com/b.gif"]) =
      (Ok tt, w5)
    /\ fs w5 !! "image1.jpg" = None /\ fs w5 !! "image2.jpg" = None
    /\ stdout w5 =
         ["Setting up API..." +:+ Py.nl;
          first_prompt; "First image saved as: image1.jpg" +:+ Py.nl;
          second_prompt; "Second image saved as: image2.jpg" +:+ Py.nl;
          (Py.nl +:+ "Analyzing image similarities...") +:+ Py.nl;
          (Py.nl +:+ "Image Analysis:") +:+ Py.nl;
          "Both images show a landscape." +:+ Py.nl].
Proof.
  pose (w := Demo.world ["https://example.com/a.png"; "https://example.com/b.gif"]).
  pose (w1 := snd (setup_api Demo.env (printed "Setting up API..." w))).
  pose (w2 := snd (await_url Demo.env first_prompt "First" "image1.jpg" w1)).
  pose (w3 := snd (await_url Demo.env second_prompt "Second" "image2.jpg" w2)).
  pose (w4 := snd (analyze_image_similarities Demo.env Demo.model "image1.jpg" "image2.jpg"
                     (printed (Py.nl +:+ "Analyzing image similarities...") w3))).
  destruct (success_path_cleans_up Demo.env w Demo.model w1 "image1.jpg" w2 "image2.jpg" w3
              "Both images show a landscape." w4)
    as (Hmain & _ & _ & _ & Hn1 & Hn2 & _ & Hout);
    try (vm_compute; reflexivity).
  eexists. split; [exact Hmain|]. split; [exact Hn1|]. split; [exact Hn2|].
  rewrite Hout. vm_compute. reflexivity.
Defined.

(** C10: when the analysis raises after both downloads, the cleanup is
    skipped: the top-level handler prints the error and [main] ends
    normally with [image1.jpg] and [image2.jpg] still on disk. *)
Theorem analysis_failure_leaves_files (E : Env) (w : World)
    (model : GenerativeModel) (w1 : World) (image1_path : string) (w2 : World)
    (image2_path : string) (w3 : World) (cls msg : string) (w4 : World) :
  setup_api E (printed "Setting up API..." w) = (Ok model, w1) ->
  await_url E first_prompt "First" "image1.jpg" w1 = (Ok image1_path, w2) ->
  await_url E second_prompt "Second" "image2.jpg" w2 = (Ok image2_path, w3) ->
  analyze_image_similarities E model image1_path image2_path
    (printed (Py.nl +:+ "Analyzing image similarities...") w3) =
    (Raise (Exception cls msg), w4) ->
  let w5 := printed ("Error: " +:+ msg) w4 in
  main E w = (Ok tt, w5)
  /\ exit_status (fst (main E w)) = 0
  /\ fs w5 = fs w3
  /\ is_Some (fs w5 !! "image1.jpg") /\ is_Some (fs w5 !! "image2.jpg")
  /\ stdout w5 = stdout w3 ++ [(Py.nl +:+ "Analyzing image similarities...") +:+ Py.nl;
                               ("Error: " +:+ msg) +:+ Py.nl].
Proof.
  intros Hs H1 H2 Ha w5.
  destruct (both_saved _ _ _ _ _ _ H1 H2) as (-> & -> & Hf1 & Hf2 & _).
  assert (Hfs4 : fs w4 = fs w3).
  { apply (analyze_keeps fs) in Ha; [exact Ha | reflexivity]. }
  assert (Hout4 : stdout w4 = stdout w3 ++ [(Py.nl +:+ "Analyzing image similarities...") +:+ Py.nl]).
  { apply (analyze_keeps stdout) in Ha; [exact Ha | reflexivity]. }
  assert (Hmain : main E w = (Ok tt, w5)).
  { unfold main. rewrite (try_except_caught _ _ w cls msg w4); [reflexivity|].
    rewrite main_body_unfold.
    rewrite bind_print.
    rewrite (bind_ok _ _ _ _ _ Hs). unfold after_setup.
    rewrite (bind_ok _ _ _ _ _ H1), (bind_ok _ _ _ _ _ H2).
    rewrite bind_print. now apply bind_raise. }
  split; [exact Hmain|]. rewrite Hmain. split; [reflexivity|].
  unfold w5. simpl. rewrite Hfs4, Hout4, <- app_assoc. now repeat split.
Qed.

Lemma analysis_failure_leaves_files_witness :
  exists w5,
    main Demo.env_api_down
      (Demo.world ["https://example.com/a.png"; "https://example.com/b.gif"]) = (Ok tt, w5)
    /\ is_Some (fs w5 !! "image1.jpg") /\ is_Some (fs w5 !! "image2.jpg").
Proof.
  pose (w := Demo.world ["https://example.com/a.png"; "https://example.com/b.gif"]).
  pose (w1 := snd (setup_api Demo.env_api_down (printed "Setting up API..." w))).
  pose (w2 := snd (await_url Demo.env_api_down first_prompt "First" "image1.jpg" w1)).
  pose (w3 := snd (await_url Demo.env_api_down second_prompt "Second" "image2.jpg" w2)).
  pose (w4 := snd (analyze_image_similarities Demo.env_api_down Demo.model
                     "image1.jpg" "image2.jpg"
                     (printed (Py.nl +:+ "Analyzing image similarities...") w3))).
  destruct (analysis_failure_leaves_files Demo.env_api_down w Demo.model w1 "image1.jpg" w2
              "image2.jpg" w3 "DefaultCredentialsError" "No API_KEY or ADC found." w4)
    as (Hmain & _ & _ & Hf1 & Hf2 & _);
    try (vm_compute; reflexivity).
  eexists. split; [exact Hmain|]. split; [exact Hf1 | exact Hf2].
Defined.

(** ** The top-level handler *)

Lemma try_except_never_raises (body : M unit) (w : World) cls msg :
  fst (try_except body (fun _ m => print ("Error: " +:+ m)) w) <> Raise (Exception cls msg).
Proof.
  unfold try_except. destruct (body w) as [[[]|[c m|]] w1]; simpl; discriminate.
Qed.

(** [SystemExit] leaves a loop only when a line read there was [quit]. *)
Lemma await_url_exit E prompt label filename w w' :
  await_url E prompt label filename w = (Raise SystemExit, w') ->
  exists line, In line (stdin w) /\ Py.lower (Py.strip line) = "quit".
Proof.
  unfold await_url. generalize (stdin w) as lines. intros lines. revert w.
  induction lines as [|line lines IH]; intros w H; cbn [await_loop] in H; [discriminate|].
  destruct (handle_line E label filename line _) as [[[q|]|e] w1] eqn:Hl.
  - discriminate.
  - destruct (IH _ H) as (l & Hin & Hq). exists l. split; [now right | exact Hq].
  - injection H as -> _. exists line. split; [now left|].
    eapply handle_line_raises, Hl.
Qed.

(** A loop only consumes input: what it leaves was there when it began. *)
Lemma await_url_stdin E prompt label filename w r w' :
  await_url E prompt label filename w = (r, w') ->
  forall line, In line (stdin w') -> In line (stdin w).
Proof.
  unfold await_url.
  assert (Hgen : forall lines w0, stdin w0 = lines ->
            await_loop E prompt label filename lines w0 = (r, w') ->
            forall line, In line (stdin w') -> In line lines).
  { induction lines as [|l lines IH]; intros w0 Hin H; cbn [await_loop] in H.
    - injection H as _ <-. simpl. now rewrite Hin.
    - destruct (handle_line E label filename l _) as [[[q|]|e] w1] eqn:Hl.
      + injection H as _ <-. apply handle_line_stdin in Hl. unfold keeps in Hl.
        simpl in Hl. rewrite Hl. intros line Hline. now right.
      + intros line Hline. right. apply (IH w1); [|exact H | exact Hline].
        apply handle_line_stdin in Hl. exact Hl.
      + injection H as _ <-. apply handle_line_stdin in Hl. unfold keeps in Hl.
        simpl in Hl. rewrite Hl. intros line Hline. now right. }
  intros H. now apply (Hgen (stdin w) w).
Qed.

Lemma analyze_raises E m p1 p2 w e w' :
  analyze_image_similarities E m p1 p2 w = (Raise e, w') ->
  exists cls msg, e = Exception cls msg.
Proof.
  unfold analyze_image_similarities. intros H.
  assert (Himg : forall path w0 e0 w1,
            Image_open E path w0 = (Raise e0, w1) -> exists cls msg, e0 = Exception cls msg).
  { intros path w0 e0 w1. unfold Image_open.
    destruct (fs w0 !! path) as [data|]; [destruct (pil_identify E data)|];
      intros [= <- _]; eauto. }
  apply bind_inv in H as [(i1 & w1 & _ & H)|(e0 & H1 & [= <-])]; [|eapply Himg, H1].
  apply bind_inv in H as [(i2 & w2 & _ & H)|(e0 & H2 & [= <-])]; [|eapply Himg, H2].
  apply bind_inv in H as [(resp & w3 & _ & H)|(e0 & H3 & [= <-])].
  - unfold lift in H. destruct (text resp); cbn [outcome] in H;
      [discriminate | injection H as <- _; eauto].
  - unfold generate_content in H3.
    destruct (genai_generate E _ m _); cbn [outcome] in H3;
      [discriminate | injection H3 as <- _; eauto].
Qed.

Lemma os_remove_raises path w e w' :
  os_remove path w = (Raise e, w') -> exists cls msg, e = Exception cls msg.
Proof.
  unfold os_remove. destruct (fs w !! path); [discriminate|]. intros [= <- _]. eauto.
Qed.

(** [main] ends with [SystemExit] only when a line of its input was
    [quit]: nothing but [exit()] raises it. *)
Lemma main_exit_only_on_quit E w :
  fst (main E w) = Raise SystemExit ->
  exists line, In line (stdin w) /\ Py.lower (Py.strip line) = "quit".
Proof.
  unfold main, try_except.
  destruct (main_body E w) as [[[]|[cls msg|]] w0] eqn:Hb; simpl; try discriminate.
  intros _. rewrite main_body_unfold, bind_print in Hb.
  rewrite (bind_ok _ _ _ _ _ (setup_api_run E _)) in Hb.
  unfold after_setup in Hb.
  apply bind_inv in Hb as [(p1 & w2 & H1 & Hb)|(e & H1 & [= <-])];
    [|apply await_url_exit in H1; exact H1].
  apply bind_inv in Hb as [(p2 & w3 & H2 & Hb)|(e & H2 & [= <-])].
  - exfalso. rewrite bind_print in Hb.
    apply bind_inv in Hb as [(text & w4 & Ha & Hb)|(e & Ha & [= <-])];
      [|apply analyze_raises in Ha as (? & ? & ?); discriminate].
    rewrite !bind_print in Hb.
    apply bind_inv in Hb as [(? & w5 & Hr1 & Hb)|(e & Hr1 & [= <-])];
      [|apply os_remove_raises in Hr1 as (? & ? & ?); discriminate].
    apply os_remove_raises in Hb as (? & ? & ?); discriminate.
  - apply await_url_exit in H2 as (line & Hin & Hq).
    exists line. split; [|exact Hq].
    exact (await_url_stdin _ _ _ _ _ _ _ H1 line Hin).
Qed.

Lemma main_body_grows E w r w' :
  main_body E w = (r, w') ->
  exists out, stdout w' = stdout w ++ ("Setting up API..." +:+ Py.nl) :: out.
Proof.
  rewrite main_body_unfold, bind_print. intros H.
  assert (Hg : stdout_grows (printed "Setting up API..." w) w').
  { revert H. apply preserves_bind; [typeclasses eauto | apply setup_api_grows |].
    intros m. apply after_setup_grows. }
  destruct Hg as [out Hout]. exists out. rewrite Hout. simpl.
  now rewrite <- app_assoc.
Qed.

(** C7: whatever [main_body] raises as an [Exception], in setup, in a
    loop, in the analysis or in the cleanup, is caught by the one handler
    around it, which prints ["Error: "] and the text and returns.  [main]
    therefore never ends with an exception other than the [SystemExit] of
    a [quit] line, the exit status is 0 in every run, and every run has
    printed at least its first line. *)
Theorem top_level_handler (E : Env) (w : World) :
  (forall cls msg w1,
      main_body E w = (Raise (Exception cls msg), w1) ->
      main E w = (Ok tt, printed ("Error: " +:+ msg) w1))
  /\ (forall w1, main_body E w = (Ok tt, w1) -> main E w = (Ok tt, w1))
  /\ (forall cls msg, fst (main E w) <> Raise (Exception cls msg))
  /\ (fst (main E w) = Ok tt \/
      (fst (main E w) = Raise SystemExit /\
       exists line, In line (stdin w) /\ Py.lower (Py.strip line) = "quit"))
  /\ exit_status (fst (main E w)) = 0
  /\ (exists out, stdout (snd (main E w)) = stdout w ++ ("Setting up API..." +:+ Py.nl) :: out)
  /\ (forall (body : M unit) w0 cls msg,
        fst (try_except body (fun _ m => print ("Error: " +:+ m)) w0) <>
        Raise (Exception cls msg)).
Proof.
  split; [|split; [|split; [|split; [|split; [|split]]]]].
  - intros cls msg w1 H. unfold main. now rewrite (try_except_caught _ _ _ _ _ _ H).
  - intros w1 H. unfold main. now apply try_except_ok.
  - intros cls msg. apply try_except_never_raises.
  - destruct (fst (main E w)) as [[]|[c m|]] eqn:Hr.
    + now left.
    + exfalso. exact (try_except_never_raises (main_body E) w c m Hr).
    + right. split; [reflexivity|]. exact (main_exit_only_on_quit E w Hr).
  - unfold main, try_except.
    destruct (main_body E w) as [[[]|[c m|]] w1]; reflexivity.
  - unfold main, try_except.
    destruct (main_body E w) as [[[]|[c m|]] w1] eqn:Hb;
      destruct (main_body_grows _ _ _ _ Hb) as [out Hout]; simpl.
    + now exists out.
    + exists (out ++ [("Error: " +:+ m) +:+ Py.nl]).
      rewrite Hout, <- app_assoc. reflexivity.
    + now exists out.
  - intros body w0 cls msg. apply try_except_never_raises.
Qed.

Lemma top_level_handler_witness :
  main Demo.env (Demo.world ["https://example.com/a.png"]) =
    (Ok tt,
     printed "Error: EOF when reading a line"
       (snd (main_body Demo.env (Demo.world ["https://example.com/a.png"])))).
Proof.
  apply (proj1 (top_level_handler Demo.env (Demo.world ["https://example.com/a.png"]))
           "EOFError" "EOF when reading a line").
  vm_compute. reflexivity.
Defined.

(** ** Worked runs *)

(** A name that is only a dot and an extension has no extension for
    [os.path.splitext], so it is refused. *)
Example validate_file_dotfile (E : Env) : validate_file E ".jpg" = false.
Proof. unfold validate_file. now destruct (os_name E). Qed.

(** The network location need not hold a host name: a port is enough. *)
Example is_valid_url_port_only (E : Env) : is_valid_url E "http://:80" = Ok true.
Proof. reflexivity. Qed.

(** The sentinel is recognised whatever its case and the blanks around
    it, and only as the whole line. *)
Example quit_sentinel :
  Py.lower (Py.strip "  QuIt ") = "quit" /\ Py.lower (Py.strip "quit now") <> "quit".
Proof. split; [reflexivity | discriminate]. Qed.

(** A transfer that breaks at the first prompt leaves what it wrote; a
    [quit] at the next pass of the same prompt does not remove it. *)
Example quit_after_broken_transfer :
  let r := main Demo.env (Demo.world ["https://example.com/broken.jpg"; "quit"]) in
  fst r = Raise SystemExit
  /\ fs (snd r) = {[ "image1.jpg" := "JPG-" ]}
  /\ requests_log (snd r) = ["https://example.com/broken.jpg"]
  /\ stdout (snd r) =
       ["Setting up API..." +:+ Py.nl; first_prompt;
        "Error: Connection broken" +:+ Py.nl; first_prompt].
Proof. vm_compute. repeat split. Qed.

(** A whole run with two refused lines, a missing page and a broken
    transfer before the two images arrive. *)
Example full_run :
  let r := main Demo.env
             (Demo.world ["notaurl"; "https://example.com/missing.jpg";
                          " https://example.com/a.png ";
                          "https://example.com/broken.jpg"; "https://example.com/b.gif"]) in
  fst r = Ok tt
  /\ fs (snd r) = ∅
  /\ requests_log (snd r) =
       ["https://example.com/missing.jpg"; "https://example.com/a.png";
        "https://example.com/broken.jpg"; "https://example.com/b.gif"]
  /\ length (genai_log (snd r)) = 1%nat
  /\ sessions (snd r) = [Demo.model].
Proof. vm_compute. repeat split. Qed.

(** * Further properties of the code *)

(** ** [download_file_from_url] *)

Lemma str_app_assoc s t u : (s +:+ t) +:+ u = s +:+ (t +:+ u).
Proof.
  induction s as [|c s IH]; [reflexivity|].
  now rewrite !str_app_cons, IH.
Qed.

Lemma set_fs_same w : set_fs (fs w) w = w.
Proof. now destruct w. Qed.

(** The write loop appends the chunks in order to what the file holds,
    also when the stream breaks after them. *)
Lemma write_chunks_run name cs err : forall w content,
  fs w !! name = Some content ->
  write_chunks name cs err w =
    (match err with
     | Some (cls, msg) => Raise (Exception cls msg)
     | None => Ok tt
     end,
     set_fs (<[name := content +:+ joined cs]> (fs w)) w).
Proof.
  induction cs as [|c cs IH]; intros w content Hfile; simpl.
  - rewrite str_app_nil_r, (insert_id _ _ _ Hfile), set_fs_same.
    now destruct err as [[cls msg]|].
  - unfold bind, file_write. rewrite Hfile. cbn [default].
    rewrite (IH _ (content +:+ c)) by (simpl; apply lookup_insert_eq).
    simpl. now rewrite insert_insert_eq, str_app_assoc.
Qed.

(** What a download does once the server has answered without an error
    status: the file is replaced by the bytes received, and the call
    returns or raises as the stream ended. *)
Lemma download_file_run E url filename w r :
  http_get E (requests_log w) url = Returned r ->
  (400 <=? status_code r) && (status_code r <? 600) = false ->
  download_file_from_url E url filename w =
    (match stream_error r with
     | Some (cls, msg) => Raise (Exception cls msg)
     | None => Ok filename
     end,
     set_fs (<[filename := joined (chunks r)]> (fs w))
       (set_requests_log (requests_log w ++ [url]) w)).
Proof.
  intros Hget Hstatus.
  unfold download_file_from_url, bind at 1, requests_get. rewrite Hget. cbn [outcome].
  unfold bind at 1, raise_for_status. rewrite Hstatus. unfold ret at 1.
  unfold bind at 1, open_wb. unfold bind.
  rewrite (write_chunks_run _ _ _ _ EmptyString) by (simpl; apply lookup_insert_eq).
  simpl. rewrite insert_insert_eq.
  now destruct (stream_error r) as [[cls msg]|].
Qed.

Lemma download_file_refused E url filename w :
  (forall cls msg,
      http_get E (requests_log w) url = Failed cls msg ->
      download_file_from_url E url filename w =
        (Raise (Exception cls msg), set_requests_log (requests_log w ++ [url]) w))
  /\ (forall r,
        http_get E (requests_log w) url = Returned r ->
        (400 <=? status_code r) && (status_code r <? 600) = true ->
        download_file_from_url E url filename w =
          (Raise (Exception "HTTPError" (http_error r)),
           set_requests_log (requests_log w ++ [url]) w)).
Proof.
  split.
  - intros cls msg Hget.
    unfold download_file_from_url, bind, requests_get. now rewrite Hget.
  - intros r Hget Hstatus.
    unfold download_file_from_url, bind, requests_get, raise_for_status.
    rewrite Hget. cbn [outcome]. now rewrite Hstatus.
Qed.

Lemma status_ok_iff (n : Z) :
  (400 <=? n) && (n <? 600) = false <-> n < 400 \/ 600 <= n.
Proof.
  destruct (Z.leb_spec 400 n), (Z.ltb_spec n 600); simpl; split; intros Hx;
    try reflexivity; try discriminate; lia.
Qed.



(** X2: when [requests.get] fails, or the server answers with a status
    from 400 to 599, [download_file_from_url] raises after its one request
    and before it opens the file: no file is created, and a file already
    at that name keeps its contents. *)
Theorem download_refused_leaves_files (E : Env) (url filename : string) (w : World) :
  (forall cls msg,
      http_get E (requests_log w) url = Failed cls msg ->
      download_file_from_url E url filename w =
        (Raise (Exception cls msg), set_requests_log (requests_log w ++ [url]) w))
  /\ (forall r,
        http_get E (requests_log w) url = Returned r ->
        400 <= status_code r < 600 ->
        download_file_from_url E url filename w =
          (Raise (Exception "HTTPError" (http_error r)),
           set_requests_log (requests_log w ++ [url]) w))
  /\ (forall e w',
        download_file_from_url E url filename w = (Raise e, w') ->
        fs w' = fs w \/
        exists r, http_get E (requests_log w) url = Returned r /\
                  fs w' = <[filename := joined (chunks r)]> (fs w)).
Proof.
  split; [apply download_file_refused|]. split.
  - intros r Hget [H1 H2]. apply download_file_refused; [exact Hget|].
    apply andb_true_intro. split; [now apply Z.leb_le | now apply Z.ltb_lt].
  - intros e w' H.
    destruct (http_get E (requests_log w) url) as [r|cls msg] eqn:Hget.
    + destruct ((400 <=? status_code r) && (status_code r <? 600)) eqn:Hstatus.
      * rewrite (proj2 (download_file_refused E url filename w) r Hget Hstatus) in H.
        injection H as _ <-. now left.
      * rewrite (download_file_run _ _ _ _ _ Hget Hstatus) in H.
        injection H as _ <-. right. now exists r.
    + rewrite (proj1 (download_file_refused E url filename w) cls msg Hget) in H.
      injection H as _ <-. now left.
Qed.

Lemma download_refused_leaves_files_witness :
  download_file_from_url Demo.env "https://example.com/missing.jpg" "image1.jpg"
    (set_fs {[ "image1.jpg" := "old bytes" ]} (Demo.world [])) =
  (Raise (Exception "HTTPError"
            "404 Client Error: Not Found for url: https://example.com/missing.jpg"),
   set_requests_log ["https://example.com/missing.jpg"]
     (set_fs {[ "image1.jpg" := "old bytes" ]} (Demo.world []))).
Proof.
  refine (eq_trans
            (proj1 (proj2 (download_refused_leaves_files Demo.env
                             "https://example.com/missing.jpg" "image1.jpg"
                             (set_fs {[ "image1.jpg" := "old bytes" ]} (Demo.world []))))
               _ eq_refl _) _).
  - simpl. lia.
  - reflexivity.
Defined.

(** X3: when the stream breaks after the file is opened,
    [download_file_from_url] raises the stream's error and leaves the file
    holding just the chunks received: what the file held before is lost
    and the partial file is not removed. *)
Theorem download_broken_stream_leaves_partial_file (E : Env) (url filename : string)
    (w : World) (r : Response) (cls msg : string) :
  http_get E (requests_log w) url = Returned r ->
  status_code r < 400 \/ 600 <= status_code r ->
  stream_error r = Some (cls, msg) ->
  download_file_from_url E url filename w =
    (Raise (Exception cls msg),
     set_fs (<[filename := joined (chunks r)]> (fs w))
       (set_requests_log (requests_log w ++ [url]) w)).
Proof.
  intros Hget Hstatus Hstream. apply status_ok_iff in Hstatus.
  rewrite (download_file_run _ _ _ _ _ Hget Hstatus). now rewrite Hstream.
Qed.

Lemma download_broken_stream_leaves_partial_file_witness :
  download_file_from_url Demo.env "https://example.com/broken.jpg" "image1.jpg"
    (set_fs {[ "image1.jpg" := "a complete earlier image" ]} (Demo.world [])) =
  (Raise (Exception "ChunkedEncodingError" "Connection broken"),
   set_fs {[ "image1.jpg" := "JPG-" ]}
     (set_requests_log ["https://example.com/broken.jpg"] (Demo.world []))).
Proof.
  refine (eq_trans
            (download_broken_stream_leaves_partial_file Demo.env
               "https://example.com/broken.jpg" "image1.jpg"
               (set_fs {[ "image1.jpg" := "a complete earlier image" ]} (Demo.world []))
               _ "ChunkedEncodingError" "Connection broken" eq_refl _ eq_refl) _).
  - left. simpl. lia.
  - vm_compute. reflexivity.
Defined.



(** ** [analyze_image_similarities] *)

Lemma analyze_opened E m p1 p2 w d1 d2 :
  fs w !! p1 = Some d1 -> fs w !! p2 = Some d2 ->
  pil_identify E d1 = None -> pil_identify E d2 = None ->
  analyze_image_similarities E m p1 p2 w =
    (match genai_generate E (genai_api_key w) m (analysis_request d1 d2) with
     | Returned response => outcome (text response)
     | Failed cls msg => Raise (Exception cls msg)
     end,
     set_genai_log (genai_log w ++ [analysis_request d1 d2]) w).
Proof.
  intros H1 H2 Hi1 Hi2.
  unfold analyze_image_similarities, bind, Image_open, generate_content, lift.
  rewrite H1, Hi1, H2, Hi2. fold (analysis_request d1 d2).
  now destruct (genai_generate E (genai_api_key w) m (analysis_request d1 d2)).
Qed.

(** The analysis either stops at an image it cannot open, with the world
    as it was, or sends its one request for the two files on disk. *)
Lemma analyze_cases E m p1 p2 w r w' :
  analyze_image_similarities E m p1 p2 w = (r, w') ->
  (w' = w /\ exists cls msg, r = Raise (Exception cls msg))
  \/ (exists d1 d2,
        fs w !! p1 = Some d1 /\ fs w !! p2 = Some d2
        /\ pil_identify E d1 = None /\ pil_identify E d2 = None
        /\ w' = set_genai_log (genai_log w ++ [analysis_request d1 d2]) w).
Proof.
  destruct (fs w !! p1) as [d1|] eqn:H1, (fs w !! p2) as [d2|] eqn:H2;
    try destruct (pil_identify E d1) as [m1|] eqn:Hi1;
    try destruct (pil_identify E d2) as [m2|] eqn:Hi2;
    try (rewrite (analyze_opened _ _ _ _ _ _ _ H1 H2 Hi1 Hi2);
         intros [= _ <-]; right; exists d1, d2; now repeat split);
    unfold analyze_image_similarities, bind, Image_open;
    rewrite ?H1, ?Hi1, ?H2, ?Hi2; intros [= <- <-]; left; eauto.
Qed.

(** X5: with both files on disk and recognised as images,
    [analyze_image_similarities] sends exactly one request: the bytes of
    the first file, the bytes of the second and the fixed prompt, in that
    order.  It returns the text of the answer, or raises what the request
    or the reading of [.text] raises; the files are left as they are. *)
Theorem analyze_sends_both_images (E : Env) (model : GenerativeModel)
    (image1_path image2_path : string) (w : World) (image1 image2 : string) :
  fs w !! image1_path = Some image1 -> fs w !! image2_path = Some image2 ->
  pil_identify E image1 = None -> pil_identify E image2 = None ->
  exists r,
    analyze_image_similarities E model image1_path image2_path w =
      (r, set_genai_log
            (genai_log w ++ [[ImagePart image1; ImagePart image2; TextPart analysis_prompt]]) w)
    /\ (forall response,
          genai_generate E (genai_api_key w) model
            [ImagePart image1; ImagePart image2; TextPart analysis_prompt] = Returned response ->
          r = outcome (text response))
    /\ (forall cls msg,
          genai_generate E (genai_api_key w) model
            [ImagePart image1; ImagePart image2; TextPart analysis_prompt] = Failed cls msg ->
          r = Raise (Exception cls msg)).
Proof.
  intros H1 H2 Hi1 Hi2.
  eexists. split; [apply (analyze_opened _ _ _ _ _ _ _ H1 H2 Hi1 Hi2)|].
  unfold analysis_request. split.
  - now intros response ->.
  - now intros cls msg ->.
Qed.

Lemma analyze_sends_both_images_witness :
  exists r,
    analyze_image_similarities Demo.env Demo.model "image1.jpg" "image2.jpg"
      (set_genai_api_key (Some "secret")
         (set_fs {[ "image1.jpg" := "PNG-a"; "image2.jpg" := "GIF-b" ]} (Demo.world []))) =
      (r, set_genai_log
            [[ImagePart "PNG-a"; ImagePart "GIF-b"; TextPart analysis_prompt]]
            (set_genai_api_key (Some "secret")
               (set_fs {[ "image1.jpg" := "PNG-a"; "image2.jpg" := "GIF-b" ]} (Demo.world []))))
    /\ r = Ok "Both images show a landscape.".
Proof.
  destruct (analyze_sends_both_images Demo.env Demo.model "image1.jpg" "image2.jpg"
              (set_genai_api_key (Some "secret")
                 (set_fs {[ "image1.jpg" := "PNG-a"; "image2.jpg" := "GIF-b" ]} (Demo.world [])))
              "PNG-a" "GIF-b") as (r & Hrun & Hok & _);
    try (vm_compute; reflexivity).
  exists r. split; [exact Hrun|].
  exact (Hok {| text := Returned "Both images show a landscape." |} eq_refl).
Defined.

(** X6: [analyze_image_similarities] opens the first image, then the
    second, and only then calls the model.  A file that is missing raises
    [FileNotFoundError] and one that is not an image raises the decoder's
    error, the first image's failure coming first; in each of these cases
    no request is sent and nothing changes. *)
Theorem analyze_fails_before_request (E : Env) (model : GenerativeModel)
    (image1_path image2_path : string) (w : World) :
  (fs w !! image1_path = None ->
     analyze_image_similarities E model image1_path image2_path w =
       (Raise (Exception "FileNotFoundError"
                 ("[Errno 2] No such file or directory: '" +:+ image1_path +:+ "'")), w))
  /\ (forall image1 msg,
        fs w !! image1_path = Some image1 -> pil_identify E image1 = Some msg ->
        analyze_image_similarities E model image1_path image2_path w =
          (Raise (Exception "UnidentifiedImageError" msg), w))
  /\ (forall image1,
        fs w !! image1_path = Some image1 -> pil_identify E image1 = None ->
        fs w !! image2_path = None ->
        analyze_image_similarities E model image1_path image2_path w =
          (Raise (Exception "FileNotFoundError"
                    ("[Errno 2] No such file or directory: '" +:+ image2_path +:+ "'")), w))
  /\ (forall image1 image2 msg,
        fs w !! image1_path = Some image1 -> pil_identify E image1 = None ->
        fs w !! image2_path = Some image2 -> pil_identify E image2 = Some msg ->
        analyze_image_similarities E model image1_path image2_path w =
          (Raise (Exception "UnidentifiedImageError" msg), w))
  /\ (forall r w',
        analyze_image_similarities E model image1_path image2_path w = (r, w') ->
        genai_log w' = genai_log w ->
        w' = w /\ exists cls msg, r = Raise (Exception cls msg)).
Proof.
  unfold analyze_image_similarities, bind, Image_open.
  split; [|split; [|split; [|split]]].
  - now intros ->.
  - now intros image1 msg -> ->.
  - now intros image1 -> -> ->.
  - now intros image1 image2 msg -> -> -> ->.
  - intros r w' H Hlog.
    destruct (analyze_cases E model image1_path image2_path w r w' H)
      as [Hsame|(d1 & d2 & _ & _ & _ & _ & ->)]; [exact Hsame|].
    simpl in Hlog. exfalso.
    assert (Hlen := f_equal (@length _) Hlog).
    rewrite List.length_app in Hlen. simpl in Hlen. lia.
Qed.

Lemma analyze_fails_before_request_witness :
  analyze_image_similarities Demo.env Demo.model "image1.jpg" "image2.jpg"
    (set_fs {[ "image2.jpg" := "GIF-b" ]} (Demo.world [])) =
  (Raise (Exception "FileNotFoundError" "[Errno 2] No such file or directory: 'image1.jpg'"),
   set_fs {[ "image2.jpg" := "GIF-b" ]} (Demo.world [])).
Proof.
  apply (proj1 (analyze_fails_before_request Demo.env Demo.model "image1.jpg" "image2.jpg"
                  (set_fs {[ "image2.jpg" := "GIF-b" ]} (Demo.world [])))).
  vm_compute. reflexivity.
Defined.

(** ** Whole runs of [main] *)

Lemma io_blind_genai_log : io_blind genai_log.
Proof. now repeat split. Qed.

Lemma io_blind_environ : io_blind environ.
Proof. now repeat split. Qed.

(** The four ways a run of [main_body] can go: it is left in the first
    loop, in the second loop or in the analysis, or it reaches the cleanup,
    which then finds both files and removes them. *)
Lemma main_body_shapes E w r w' :
  main_body E w = (r, w') ->
  exists model w0,
    setup_api E (printed "Setting up API..." w) = (Ok model, w0) /\
    ((exists e, await_url E first_prompt "First" "image1.jpg" w0 = (Raise e, w') /\ r = Raise e)
     \/ exists w2,
         await_url E first_prompt "First" "image1.jpg" w0 = (Ok "image1.jpg", w2) /\
         ((exists e, await_url E second_prompt "Second" "image2.jpg" w2 = (Raise e, w') /\
                     r = Raise e)
          \/ exists w3,
              await_url E second_prompt "Second" "image2.jpg" w2 = (Ok "image2.jpg", w3) /\
              ((exists e,
                   analyze_image_similarities E model "image1.jpg" "image2.jpg"
                     (printed (Py.nl +:+ "Analyzing image similarities...") w3) = (Raise e, w') /\
                   r = Raise e)
               \/ exists similarities w4,
                   analyze_image_similarities E model "image1.jpg" "image2.jpg"
                     (printed (Py.nl +:+ "Analyzing image similarities...") w3) =
                     (Ok similarities, w4) /\
                   r = Ok tt /\
                   w' = set_fs (delete "image2.jpg" (delete "image1.jpg" (fs w4)))
                          (printed similarities (printed (Py.nl +:+ "Image Analysis:") w4))))).
Proof.
  rewrite main_body_unfold, bind_print. intros H.
  eexists _, _. split; [apply setup_api_run|].
  rewrite (bind_ok _ _ _ _ _ (setup_api_run E _)) in H. unfold after_setup in H.
  apply bind_inv in H as [(p1 & w2 & H1 & H)|(e & H1 & ->)]; [|left; now exists e].
  right. destruct (await_url_saved _ _ _ _ _ _ _ H1) as [-> Hf1].
  exists w2. split; [exact H1|].
  apply bind_inv in H as [(p2 & w3 & H2 & H)|(e & H2 & ->)]; [|left; now exists e].
  right. destruct (both_saved _ _ _ _ _ _ H1 H2) as (_ & -> & Hs1 & Hs2 & _).
  exists w3. split; [exact H2|].
  rewrite bind_print in H.
  apply bind_inv in H as [(text & w4 & Ha & H)|(e & Ha & ->)]; [|left; now exists e].
  right. exists text, w4. split; [exact Ha|].
  assert (Hfs4 : fs w4 = fs w3).
  { apply (analyze_keeps fs) in Ha; [exact Ha | reflexivity]. }
  rewrite !bind_print in H.
  erewrite bind_ok in H; [|apply os_remove_present; simpl; now rewrite Hfs4].
  rewrite os_remove_present in H.
  - now injection H as <- <-.
  - simpl. rewrite lookup_delete_ne by discriminate. now rewrite Hfs4.
Qed.

(** [main] ends in the world its body left, with one more line printed
    when the body raised an [Exception]. *)
Lemma main_world E w :
  exists r0 w0,
    main_body E w = (r0, w0) /\
    ((main E w = (r0, w0) /\ forall cls msg, r0 <> Raise (Exception cls msg))
     \/ exists cls msg,
         r0 = Raise (Exception cls msg) /\
         main E w = (Ok tt, printed ("Error: " +:+ msg) w0)).
Proof.
  unfold main, try_except.
  destruct (main_body E w) as [[[]|[cls msg|]] w0]; eexists _, _; (split; [reflexivity|]).
  - left. split; [reflexivity | discriminate].
  - right. now exists cls, msg.
  - left. split; [reflexivity | discriminate].
Qed.

(** A property of the two worlds that printing a line does not disturb
    and that the body of [main] establishes holds of [main]. *)
Lemma main_from_body E w (P : World -> World -> Prop) :
  (forall s w', P w w' -> P w (printed s w')) ->
  (forall r w', main_body E w = (r, w') -> P w w') ->
  P w (snd (main E w)).
Proof.
  intros Hprint Hbody.
  destruct (main_world E w) as (r0 & w0 & Hb & [[-> _]|(cls & msg & _ & ->)]).
  - exact (Hbody _ _ Hb).
  - apply Hprint. exact (Hbody _ _ Hb).
Qed.

Lemma main_body_genai_log E w r w' :
  main_body E w = (r, w') ->
  (genai_log w' = genai_log w
   \/ exists image1 image2,
       r <> Raise SystemExit /\
       genai_log w' = genai_log w ++ [analysis_request image1 image2]).
Proof.
  intros H.
  destruct (main_body_shapes _ _ _ _ H) as (model & w0 & Hs & Hshape).
  assert (H0 : genai_log w0 = genai_log w).
  { rewrite setup_api_run in Hs. now injection Hs as _ <-. }
  assert (Hloop : forall prompt label filename v x v',
            await_url E prompt label filename v = (x, v') -> genai_log v' = genai_log v).
  { intros prompt label filename v x v' Hl.
    now apply (await_url_keeps genai_log _ _ _ _ io_blind_genai_log) in Hl. }
  destruct Hshape as [(e & H1 & _)|(w2 & H1 & Hshape)].
  { left. now rewrite (Hloop _ _ _ _ _ _ H1). }
  destruct Hshape as [(e & H2 & _)|(w3 & H2 & Hshape)].
  { left. now rewrite (Hloop _ _ _ _ _ _ H2), (Hloop _ _ _ _ _ _ H1). }
  assert (H3 : genai_log w3 = genai_log w).
  { now rewrite (Hloop _ _ _ _ _ _ H2), (Hloop _ _ _ _ _ _ H1). }
  destruct Hshape as [(e & Ha & ->)|(text & w4 & Ha & -> & ->)];
    destruct (analyze_cases _ _ _ _ _ _ _ Ha)
      as [[-> (cls & msg & Hr)]|(d1 & d2 & _ & _ & _ & _ & ->)];
    simpl; rewrite ?H3; try (now left); try discriminate.
  - right. exists d1, d2. split; [|reflexivity].
    intros [= ->]. apply analyze_raises in Ha as (? & ? & ?). discriminate.
  - right. exists d1, d2. split; [discriminate | reflexivity].
Qed.

(** X7: a run of [main] sends at most one request to the model, and that
    request carries two images and the fixed prompt; a run that ends on
    [quit] has sent none. *)
Theorem main_one_model_request (E : Env) (w : World) :
  (genai_log (snd (main E w)) = genai_log w
   \/ exists image1 image2,
       genai_log (snd (main E w)) =
         genai_log w ++ [[ImagePart image1; ImagePart image2; TextPart analysis_prompt]])
  /\ (fst (main E w) = Raise SystemExit -> genai_log (snd (main E w)) = genai_log w).
Proof.
  destruct (main_world E w) as (r0 & w0 & Hb & [[Hm _]|(cls & msg & -> & Hm)]);
    rewrite Hm; simpl;
    destruct (main_body_genai_log _ _ _ _ Hb) as [Hlog|(d1 & d2 & Hne & Hlog)];
    rewrite Hlog; split; try (now left); try (right; now exists d1, d2);
    try reflexivity; try discriminate.
  intros ->. now destruct Hne.
Qed.

Lemma main_one_model_request_witness :
  genai_log (snd (main Demo.env (Demo.world ["https://example.com/a.png"; " Quit"]))) =
  genai_log (Demo.world ["https://example.com/a.png"; " Quit"]).
Proof.
  apply (proj2 (main_one_model_request Demo.env
                  (Demo.world ["https://example.com/a.png"; " Quit"]))).
  vm_compute. reflexivity.
Defined.

Lemma main_body_other_files E w r w' other :
  main_body E w = (r, w') ->
  other <> "image1.jpg" -> other <> "image2.jpg" ->
  fs w' !! other = fs w !! other.
Proof.
  intros H Hn1 Hn2.
  destruct (main_body_shapes _ _ _ _ H) as (model & w0 & Hs & Hshape).
  assert (H0 : fs w0 = fs w).
  { rewrite setup_api_run in Hs. now injection Hs as _ <-. }
  assert (Hloop1 : forall v x v',
            await_url E first_prompt "First" "image1.jpg" v = (x, v') ->
            fs v' !! other = fs v !! other).
  { intros v x v' Hl. now apply (await_url_fs _ _ _ _ _ _ _ Hl). }
  assert (Hloop2 : forall v x v',
            await_url E second_prompt "Second" "image2.jpg" v = (x, v') ->
            fs v' !! other = fs v !! other).
  { intros v x v' Hl. now apply (await_url_fs _ _ _ _ _ _ _ Hl). }
  destruct Hshape as [(e & H1 & _)|(w2 & H1 & Hshape)].
  { now rewrite (Hloop1 _ _ _ H1), H0. }
  destruct Hshape as [(e & H2 & _)|(w3 & H2 & Hshape)].
  { now rewrite (Hloop2 _ _ _ H2), (Hloop1 _ _ _ H1), H0. }
  assert (H3 : fs w3 !! other = fs w !! other).
  { now rewrite (Hloop2 _ _ _ H2), (Hloop1 _ _ _ H1), H0. }
  destruct Hshape as [(e & Ha & _)|(text & w4 & Ha & _ & ->)];
    apply (analyze_keeps fs) in Ha; try reflexivity; unfold keeps in Ha; simpl in Ha.
  - now rewrite Ha.
  - simpl. rewrite !lookup_delete_ne by congruence. now rewrite Ha.
Qed.

(** X8: whatever the input and the outside do, a run of [main] leaves
    every file other than [image1.jpg] and [image2.jpg] as it found it. *)
Theorem main_touches_only_its_two_files (E : Env) (w : World) (other : string) :
  other <> "image1.jpg" -> other <> "image2.jpg" ->
  fs (snd (main E w)) !! other = fs w !! other.
Proof.
  intros Hn1 Hn2.
  apply (main_from_body E w (fun v v' => fs v' !! other = fs v !! other)).
  - intros s w' H. exact H.
  - intros r w' H. now apply (main_body_other_files _ _ _ _ _ H).
Qed.

Lemma main_touches_only_its_two_files_witness :
  fs (snd (main Demo.env
             (set_fs {[ "notes.txt" := "keep me"; "image1.jpg" := "old" ]}
                (Demo.world ["https://example.com/a.png"; "https://example.com/b.gif"]))))
    !! "notes.txt" =
  fs (set_fs {[ "notes.txt" := "keep me"; "image1.jpg" := "old" ]}
        (Demo.world ["https://example.com/a.png"; "https://example.com/b.gif"]))
    !! "notes.txt".
Proof.
  apply (main_touches_only_its_two_files Demo.env
           (set_fs {[ "notes.txt" := "keep me"; "image1.jpg" := "old" ]}
              (Demo.world ["https://example.com/a.png"; "https://example.com/b.gif"]))
           "notes.txt"); discriminate.
Defined.

(** [download_and_validate_image] either raises with the world as it
    was, or has found both validators true and is the downloader. *)
Lemma download_and_validate_cases E url filename w r w' :
  download_and_validate_image E url filename w = (r, w') ->
  (w' = w /\ exists e, r = Raise e)
  \/ (is_valid_url E url = Ok true /\ validate_file E filename = true /\
      download_file_from_url E url filename w = (r, w')).
Proof.
  unfold download_and_validate_image, bind, lift, raise.
  destruct (is_valid_url E url) as [[|]|e], (validate_file E filename); simpl;
    try (intros [= <- <-]; left; split; eauto).
  intros H. right. now repeat split.
Qed.

(** A pass sends at most one request, to the stripped line, and only if
    that line is a valid URL. *)
Lemma handle_line_requests E label filename line w r w' :
  handle_line E label filename line w = (r, w') ->
  requests_log w' = requests_log w
  \/ (requests_log w' = requests_log w ++ [Py.strip line] /\
      is_valid_url E (Py.strip line) = Ok true).
Proof.
  unfold handle_line. destruct (String.eqb _ _).
  { unfold_M. intros [= _ <-]. now left. }
  destruct (attempt_cases E label filename (Py.strip line) w)
    as [(p & w1 & Hd & ->)|(cls & msg & w1 & Hd & ->)]; intros [= _ <-]; simpl;
    destruct (download_and_validate_cases _ _ _ _ _ _ Hd) as [[-> _]|(Hv & _ & Hf)];
    try (now left); right; split; try exact Hv;
    exact (download_file_requests _ _ _ _ _ _ Hf).
Qed.




(** ** The input runs out *)

Lemma main_runs_out_first E w bad :
  Forall (fun l => Py.lower (Py.strip l) <> "quit" /\
                   is_valid_url E (Py.strip l) = Ok false) bad ->
  stdin w = bad ->
  main E w =
    (Ok tt,
     printed "Error: EOF when reading a line"
       (set_stdout
          ((stdout (snd (setup_api E (printed "Setting up API..." w))) ++
              flat_map (fun _ => [first_prompt; "Error: Invalid URL provided" +:+ Py.nl]) bad)
             ++ [first_prompt])
          (set_stdin [] (snd (setup_api E (printed "Setting up API..." w)))))).
Proof.
  intros Hbad Hin.
  unfold main. rewrite (try_except_caught _ _ w "EOFError" "EOF when reading a line"
                          (set_stdout
          ((stdout (snd (setup_api E (printed "Setting up API..." w))) ++
              flat_map (fun _ => [first_prompt; "Error: Invalid URL provided" +:+ Py.nl]) bad)
             ++ [first_prompt])
          (set_stdin [] (snd (setup_api E (printed "Setting up API..." w)))))); [reflexivity|].
  rewrite main_body_unfold, bind_print.
  rewrite (bind_ok _ _ _ _ _ (setup_api_run E _)). unfold after_setup.
  apply bind_raise.
  rewrite (await_url_invalid_lines E first_prompt "First" "image1.jpg" bad []);
    [reflexivity | exact Hbad | simpl; now rewrite app_nil_r].
Qed.

(** X10: when the input holds only lines that are not valid URLs and
    then ends, [main] answers each of them with the invalid-URL error,
    meets the end of the input at the next prompt, prints
    ["Error: EOF when reading a line"] and ends normally; it has written
    no file, sent no request and called no model.  With no input at all
    that is the whole run. *)
Theorem input_runs_out_before_a_valid_url (E : Env) (w : World) :
  Forall (fun l => Py.lower (Py.strip l) <> "quit" /\
                   is_valid_url E (Py.strip l) = Ok false) (stdin w) ->
  exists w',
    main E w = (Ok tt, w')
    /\ exit_status (fst (main E w)) = 0
    /\ stdout w' =
         stdout w ++ ["Setting up API..." +:+ Py.nl] ++
         flat_map (fun _ => [first_prompt; "Error: Invalid URL provided" +:+ Py.nl]) (stdin w) ++
         [first_prompt; "Error: EOF when reading a line" +:+ Py.nl]
    /\ stdin w' = []
    /\ fs w' = fs w
    /\ requests_log w' = requests_log w
    /\ genai_log w' = genai_log w.
Proof.
  intros Hbad.
  pose proof (main_runs_out_first E w (stdin w) Hbad eq_refl) as Hmain.
  eexists. split; [exact Hmain|]. rewrite Hmain. simpl.
  repeat split.
  rewrite <- !app_assoc. reflexivity.
Qed.

Lemma input_runs_out_before_a_valid_url_witness :
  exists w',
    main Demo.env (Demo.world ["notaurl"; "http:///nohost"]) = (Ok tt, w')
    /\ exit_status (fst (main Demo.env (Demo.world ["notaurl"; "http:///nohost"]))) = 0
    /\ stdout w' =
         stdout (Demo.world ["notaurl"; "http:///nohost"]) ++
         ["Setting up API..." +:+ Py.nl] ++
         flat_map (fun _ => [first_prompt; "Error: Invalid URL provided" +:+ Py.nl])
           (stdin (Demo.world ["notaurl"; "http:///nohost"])) ++
         [first_prompt; "Error: EOF when reading a line" +:+ Py.nl]
    /\ stdin w' = []
    /\ fs w' = fs (Demo.world ["notaurl"; "http:///nohost"])
    /\ requests_log w' = requests_log (Demo.world ["notaurl"; "http:///nohost"])
    /\ genai_log w' = genai_log (Demo.world ["notaurl"; "http:///nohost"]).
Proof.
  apply (input_runs_out_before_a_valid_url Demo.env (Demo.world ["notaurl"; "http:///nohost"])).
  repeat constructor; discriminate.
Defined.

(** ** What the model is asked about *)

(** A download that returns has stored the body of the answer it got. *)
Lemma download_file_ok_inv E url filename w p w' :
  download_file_from_url E url filename w = (Ok p, w') ->
  exists r,
    http_get E (requests_log w) url = Returned r /\ stream_error r = None /\
    w' = set_fs (<[filename := joined (chunks r)]> (fs w))
           (set_requests_log (requests_log w ++ [url]) w).
Proof.
  intros H.
  destruct (http_get E (requests_log w) url) as [r|cls msg] eqn:Hget.
  - destruct ((400 <=? status_code r) && (status_code r <? 600)) eqn:Hstatus.
    + rewrite (proj2 (download_file_refused E url filename w) r Hget Hstatus) in H.
      discriminate.
    + rewrite (download_file_run _ _ _ _ _ Hget Hstatus) in H.
      destruct (stream_error r) as [[cls msg]|] eqn:Hstream; [discriminate|].
      injection H as _ <-. now exists r.
  - rewrite (proj1 (download_file_refused E url filename w) cls msg Hget) in H.
    discriminate.
Qed.

Lemma handle_line_fetched E label filename line w p w' :
  handle_line E label filename line w = (Ok (Some p), w') ->
  exists r,
    http_get E (requests_log w) (Py.strip line) = Returned r /\ stream_error r = None /\
    requests_log w' = requests_log w ++ [Py.strip line] /\
    fs w' !! filename = Some (joined (chunks r)).
Proof.
  unfold handle_line. destruct (String.eqb _ _).
  { unfold_M. discriminate. }
  destruct (attempt_cases E label filename (Py.strip line) w)
    as [(q & w1 & Hd & ->)|(cls & msg & w1 & Hd & ->)]; [|discriminate].
  intros [= _ <-].
  destruct (download_and_validate_cases _ _ _ _ _ _ Hd) as [[_ [e [=]]]|(_ & _ & Hf)].
  destruct (download_file_ok_inv _ _ _ _ _ _ Hf) as (r & Hget & Hstream & ->).
  exists r. simpl. repeat split; try assumption. apply lookup_insert_eq.
Qed.

(** A loop that returns has just stored the body of an answer to its last
    request. *)
Lemma await_url_fetched E prompt label filename w p w' :
  await_url E prompt label filename w = (Ok p, w') ->
  exists url sent r,
    http_get E sent url = Returned r /\ stream_error r = None /\
    (exists earlier, sent = requests_log w ++ earlier) /\
    requests_log w' = sent ++ [url] /\
    fs w' !! filename = Some (joined (chunks r)).
Proof.
  unfold await_url. generalize (stdin w) as lines. intros lines. revert w.
  induction lines as [|l lines IH]; intros w0 H; cbn [await_loop] in H; [discriminate|].
  destruct (handle_line E label filename l _) as [[[q|]|e] w1] eqn:Hl; [| |discriminate].
  - injection H as _ <-.
    destruct (handle_line_fetched _ _ _ _ _ _ _ Hl) as (r & Hget & Hstream & Hlog & Hfile).
    simpl in Hget, Hlog.
    exists (Py.strip l), (requests_log w0), r.
    repeat split; try assumption. exists []. now rewrite app_nil_r.
  - destruct (IH _ H) as (url & sent & r & Hget & Hstream & (earlier & ->) & Hlog & Hfile).
    exists url, (requests_log w1 ++ earlier), r.
    repeat split; try assumption.
    apply handle_line_requests in Hl. simpl in Hl. destruct Hl as [->|[-> _]].
    + now exists earlier.
    + exists ([Py.strip l] ++ earlier). now rewrite app_assoc.
Qed.

Lemma main_body_model_request E w r w' :
  main_body E w = (r, w') ->
  genai_log w' <> genai_log w ->
  exists url1 sent1 r1 url2 sent2 r2,
    http_get E sent1 url1 = Returned r1 /\ stream_error r1 = None /\
    http_get E sent2 url2 = Returned r2 /\ stream_error r2 = None /\
    (exists between, sent2 = sent1 ++ url1 :: between) /\
    requests_log w' = sent2 ++ [url2] /\
    genai_log w' =
      genai_log w ++ [analysis_request (joined (chunks r1)) (joined (chunks r2))].
Proof.
  intros H Hcalled.
  destruct (main_body_shapes _ _ _ _ H) as (model & w0 & Hs & Hshape).
  assert (H0 : genai_log w0 = genai_log w).
  { rewrite setup_api_run in Hs. now injection Hs as _ <-. }
  assert (Hloop : forall prompt label filename v x v',
            await_url E prompt label filename v = (x, v') -> genai_log v' = genai_log v).
  { intros prompt label filename v x v' Hl.
    now apply (await_url_keeps genai_log _ _ _ _ io_blind_genai_log) in Hl. }
  destruct Hshape as [(e & H1 & _)|(w2 & H1 & Hshape)].
  { exfalso. apply Hcalled. now rewrite (Hloop _ _ _ _ _ _ H1). }
  destruct Hshape as [(e & H2 & _)|(w3 & H2 & Hshape)].
  { exfalso. apply Hcalled. now rewrite (Hloop _ _ _ _ _ _ H2), (Hloop _ _ _ _ _ _ H1). }
  assert (H3 : genai_log w3 = genai_log w).
  { now rewrite (Hloop _ _ _ _ _ _ H2), (Hloop _ _ _ _ _ _ H1). }
  destruct (await_url_fetched _ _ _ _ _ _ _ H1)
    as (url1 & sent1 & r1 & Hget1 & Hstream1 & _ & Hlog1 & Hfile1).
  destruct (await_url_fetched _ _ _ _ _ _ _ H2)
    as (url2 & sent2 & r2 & Hget2 & Hstream2 & (between & Hsent2) & Hlog2 & Hfile2).
  assert (Hfile1' : fs w3 !! "image1.jpg" = Some (joined (chunks r1))).
  { rewrite <- Hfile1. now apply (await_url_fs _ _ _ _ _ _ _ H2). }
  assert (Hw' : exists w4,
             analyze_image_similarities E model "image1.jpg" "image2.jpg"
               (printed (Py.nl +:+ "Analyzing image similarities...") w3) = (w4.1, w4.2) /\
             requests_log w' = requests_log w4.2 /\ genai_log w' = genai_log w4.2).
  { destruct Hshape as [(e & Ha & _)|(text & w4 & Ha & _ & ->)].
    - now exists (Raise e, w').
    - now exists (Ok text, w4). }
  destruct Hw' as ([x w4] & Ha & -> & Hg). simpl in *.
  exists url1, sent1, r1, url2, sent2, r2.
  split; [exact Hget1|]. split; [exact Hstream1|].
  split; [exact Hget2|]. split; [exact Hstream2|].
  split. { exists between. now rewrite Hsent2, Hlog1, <- app_assoc. }
  destruct (analyze_cases _ _ _ _ _ _ _ Ha)
    as [[-> _]|(d1 & d2 & Hd1 & Hd2 & _ & _ & ->)]; simpl in *.
  - exfalso. apply Hcalled. now rewrite Hg.
  - rewrite Hfile1' in Hd1. rewrite Hfile2 in Hd2.
    injection Hd1 as <-. injection Hd2 as <-.
    split; [exact Hlog2|]. now rewrite Hg, H3.
Qed.

(** X11: whenever a run of [main] asks the model anything, the two images
    of the request are the bodies of two answers that [requests.get] gave
    without an error, the first to an earlier request and the second to
    the last request of the run: the model is asked about what was
    downloaded, the first image not changed by the second loop. *)
Theorem model_is_sent_the_downloads (E : Env) (w : World) :
  genai_log (snd (main E w)) <> genai_log w ->
  exists url1 sent1 r1 url2 sent2 r2,
    http_get E sent1 url1 = Returned r1 /\ stream_error r1 = None /\
    http_get E sent2 url2 = Returned r2 /\ stream_error r2 = None /\
    (exists between, sent2 = sent1 ++ url1 :: between) /\
    requests_log (snd (main E w)) = sent2 ++ [url2] /\
    genai_log (snd (main E w)) =
      genai_log w ++ [analysis_request (joined (chunks r1)) (joined (chunks r2))].
Proof.
  destruct (main_world E w) as (r0 & w0 & Hbody & [[-> _]|(cls & msg & _ & ->)]);
    simpl; intros Hcalled; exact (main_body_model_request _ _ _ _ Hbody Hcalled).
Qed.

Lemma model_is_sent_the_downloads_witness :
  genai_log (snd (main Demo.env
                    (Demo.world ["https://example.com/a.png"; "https://example.com/b.gif"])))
  = [analysis_request "PNG-a" "GIF-b"].
Proof.
  destruct (model_is_sent_the_downloads Demo.env
              (Demo.world ["https://example.com/a.png"; "https://example.com/b.gif"]))
    as (url1 & sent1 & r1 & url2 & sent2 & r2 & _ & _ & _ & _ & _ & _ & _).
  - vm_compute. discriminate.
  - vm_compute. reflexivity.
Defined.

(** ** When [is_valid_url] raises *)

Lemma chars_within_refl s : chars_within s s.
Proof. now intros p. Qed.

Lemma chars_within_trans s t u : chars_within s t -> chars_within t u -> chars_within s u.
Proof. intros H1 H2 p H. now apply H1, H2. Qed.

Lemma chars_within_lstrip d s : chars_within (Py.lstrip_by d s) s.
Proof.
  intros p. induction s as [|c s IH]; simpl; [reflexivity|].
  intros [H1 H2]%andb_prop. destruct (d c); [now apply IH|].
  simpl. now rewrite H1, H2.
Qed.

Lemma chars_within_remove cs s : chars_within (Py.remove_chars cs s) s.
Proof.
  intros p. induction s as [|c s IH]; simpl; [reflexivity|].
  intros [H1 H2]%andb_prop. destruct (Py.contains c cs); [now apply IH|].
  simpl. now rewrite H1, IH.
Qed.

Lemma chars_within_take n s : chars_within (Py.take n s) s.
Proof.
  intros p. revert s. induction n as [|n IH]; intros [|c s]; simpl; try reflexivity.
  intros [H1 H2]%andb_prop. now rewrite H1, IH.
Qed.

Lemma chars_within_drop n s : chars_within (Py.drop n s) s.
Proof.
  intros p. revert s. induction n as [|n IH]; intros [|c s]; simpl; try reflexivity;
    try (now intros ->).
  intros [H1 H2]%andb_prop. now apply IH.
Qed.

Lemma chars_within_lacks c t s :
  chars_within t s -> Py.contains c s = false -> Py.contains c t = false.
Proof.
  intros Hsub Hc. apply all_chars_not_contains, Hsub.
  clear Hsub. induction s as [|a s IH]; simpl; [reflexivity|].
  simpl in Hc. apply orb_false_elim in Hc as [-> Hc]. simpl. now apply IH.
Qed.

(** The network location that [urlsplit] cuts out is made of characters
    of the string it was given. *)
Lemma urlsplit_cases E s :
  exists sch netloc rest,
    chars_within netloc s /\
    UrlParse.urlsplit E s =
      let lbr := Py.contains "["%char netloc in
      let rbr := Py.contains "]"%char netloc in
      if (lbr && negb rbr) || (rbr && negb lbr)
      then Raise (Exception "ValueError" "Invalid IPv6 URL")
      else
        match (if lbr && rbr then check_bracketed_netloc E netloc else None) with
        | Some msg => Raise (Exception "ValueError" msg)
        | None =>
            match (if negb (Py.truthy netloc) || UrlParse.isascii netloc then None
                   else checknetloc_nfkc E netloc) with
            | Some msg => Raise (Exception "ValueError" msg)
            | None => Ok {| UrlParse.scheme := sch; UrlParse.netloc := netloc;
                            UrlParse.rest := rest |}
            end
        end.
Proof.
  unfold UrlParse.urlsplit.
  set (url0 := Py.remove_chars _ (Py.lstrip_by _ s)).
  assert (H0 : chars_within url0 s).
  { eapply chars_within_trans; [apply chars_within_remove | apply chars_within_lstrip]. }
  assert (H1 : exists sch u,
             chars_within u s /\
             match UrlParse.split_scheme url0 with
             | Some (s0, u0) => (s0, u0)
             | None => (EmptyString, url0)
             end = (sch, u)).
  { unfold UrlParse.split_scheme. destruct url0 as [|c0 url'] eqn:Hu.
    - now exists EmptyString, EmptyString.
    - rewrite <- Hu in *. destruct (_ && _ && _).
      + eexists _, _. split; [|reflexivity].
        eapply chars_within_trans; [apply chars_within_drop | exact H0].
      + now exists EmptyString, url0. }
  destruct H1 as (sch & u & Hu & ->).
  assert (H2 : exists netloc rest,
             chars_within netloc s /\
             (if String.eqb (Py.slice_to 2 u) "//" then UrlParse._splitnetloc u 2
              else (EmptyString, u)) = (netloc, rest)).
  { destruct (String.eqb _ _).
    - unfold UrlParse._splitnetloc. eexists _, _. split; [|reflexivity].
      unfold Py.slice, Py.slice_from.
      eapply chars_within_trans; [apply chars_within_take|].
      eapply chars_within_trans; [apply chars_within_drop | exact Hu].
    - exists EmptyString, u. split; [|reflexivity]. now intros p. }
  destruct H2 as (netloc & rest & Hn & ->).
  now exists sch, netloc, rest.
Qed.

(** X12: [is_valid_url] raises only a [ValueError], and only on a string
    that holds a square bracket or a character that is not ASCII: on
    every other string it answers true or false. *)
Theorem is_valid_url_raises_only_on_brackets (E : Env) (s : string) (e : exn) :
  is_valid_url E s = Raise e ->
  (exists msg, e = Exception "ValueError" msg)
  /\ (Py.contains "["%char s = true \/ Py.contains "]"%char s = true
      \/ UrlParse.isascii s = false).
Proof.
  unfold is_valid_url, UrlParse.urlparse.
  destruct (urlsplit_cases E s) as (sch & netloc & rest & Hsub & ->). cbv zeta.
  intros H. split.
  - destruct (_ || _); [injection H as <-; eauto|].
    destruct (if _ && _ then _ else _) as [msg|]; [injection H as <-; eauto|].
    destruct (if _ || _ then _ else _) as [msg|]; [injection H as <-; eauto|discriminate].
  - destruct (Py.contains "["%char s) eqn:Hl; [now left|].
    destruct (Py.contains "]"%char s) eqn:Hr; [now right; left|].
    destruct (UrlParse.isascii s) eqn:Ha; [|now right; right].
    exfalso.
    rewrite (chars_within_lacks _ _ _ Hsub Hl), (chars_within_lacks _ _ _ Hsub Hr) in H.
    unfold UrlParse.isascii in *. rewrite (Hsub _ Ha), orb_true_r in H.
    simpl in H. discriminate.
Qed.

Lemma is_valid_url_raises_only_on_brackets_witness :
  (exists msg, Exception "ValueError" "Invalid IPv6 URL" = Exception "ValueError" msg)
  /\ (Py.contains "["%char "http://[::1" = true \/ Py.contains "]"%char "http://[::1" = true
      \/ UrlParse.isascii "http://[::1" = false).
Proof.
  apply (is_valid_url_raises_only_on_brackets Demo.env "http://[::1").
  vm_compute. reflexivity.
Defined.

(** ** Characters that the validator and the loop drop *)

Lemma lstrip_app_dropped d pad s :
  Py.all_chars d pad = true -> Py.lstrip_by d (pad +:+ s) = Py.lstrip_by d s.
Proof.
  induction pad as [|c pad IH]; [reflexivity|].
  rewrite str_app_cons. simpl. intros [-> H]%andb_prop. now apply IH.
Qed.

Lemma lstrip_all_dropped d pad :
  Py.all_chars d pad = true -> Py.lstrip_by d pad = EmptyString.
Proof.
  induction pad as [|c pad IH]; [reflexivity|].
  simpl. intros [-> H]%andb_prop. now apply IH.
Qed.

Lemma rstrip_all_dropped d pad :
  Py.all_chars d pad = true -> Py.rstrip_by d pad = EmptyString.
Proof.
  induction pad as [|c pad IH]; [reflexivity|].
  simpl. intros [-> H]%andb_prop. now rewrite IH.
Qed.

Lemma rstrip_app_dropped d s pad :
  Py.all_chars d pad = true -> Py.rstrip_by d (s +:+ pad) = Py.rstrip_by d s.
Proof.
  intros H. induction s as [|c s IH].
  - rewrite str_app_nil_l. now apply rstrip_all_dropped.
  - rewrite str_app_cons. simpl. now rewrite IH.
Qed.

Lemma lstrip_app_r d s pad :
  Py.all_chars d pad = true ->
  Py.lstrip_by d (s +:+ pad) =
    match Py.lstrip_by d s with
    | EmptyString => EmptyString
    | r => r +:+ pad
    end.
Proof.
  intros H. induction s as [|c s IH].
  - rewrite str_app_nil_l. simpl. now apply lstrip_all_dropped.
  - rewrite str_app_cons. simpl. destruct (d c); [exact IH|reflexivity].
Qed.

(** [strip] drops the blanks around a string, however many there are. *)
Lemma strip_padded pad1 s pad2 :
  Py.all_chars Py.isspace pad1 = true -> Py.all_chars Py.isspace pad2 = true ->
  Py.strip (pad1 +:+ s +:+ pad2) = Py.strip s.
Proof.
  intros H1 H2. unfold Py.strip.
  rewrite (lstrip_app_dropped _ _ _ H1), (lstrip_app_r _ _ _ H2).
  destruct (Py.lstrip_by Py.isspace s) as [|c r] eqn:Hs; [reflexivity|].
  now apply rstrip_app_dropped.
Qed.

Lemma lstrip_remove_comm d cs s :
  (forall c, Py.contains c cs = true -> d c = true) ->
  Py.lstrip_by d (Py.remove_chars cs s) = Py.remove_chars cs (Py.lstrip_by d s).
Proof.
  intros Hcs. induction s as [|c s IH]; [reflexivity|].
  simpl. destruct (Py.contains c cs) eqn:Hc.
  - now rewrite (Hcs _ Hc).
  - simpl. destruct (d c); [exact IH|]. simpl. now rewrite Hc.
Qed.

Lemma remove_chars_idem cs s :
  Py.remove_chars cs (Py.remove_chars cs s) = Py.remove_chars cs s.
Proof.
  induction s as [|c s IH]; [reflexivity|].
  simpl. destruct (Py.contains c cs) eqn:Hc; [exact IH|].
  simpl. now rewrite Hc, IH.
Qed.

Lemma unsafe_bytes_are_c0 c :
  Py.contains c UrlParse.unsafe_url_bytes = true -> UrlParse.is_c0_control_or_space c = true.
Proof.
  revert c. apply char_impl. vm_compute. reflexivity.
Qed.

Lemma urlsplit_prepared E s t :
  Py.remove_chars UrlParse.unsafe_url_bytes (Py.lstrip_by UrlParse.is_c0_control_or_space s) =
  Py.remove_chars UrlParse.unsafe_url_bytes (Py.lstrip_by UrlParse.is_c0_control_or_space t) ->
  is_valid_url E s = is_valid_url E t.
Proof.
  intros H. unfold is_valid_url, UrlParse.urlparse, UrlParse.urlsplit. now rewrite H.
Qed.

(** X13: [is_valid_url] does not see control characters and spaces in
    front of a URL, nor tabs, carriage returns and line feeds anywhere in
    it: the string with them and the string without them get the same
    answer.  The validator so accepts strings that are not the URL it has
    checked. *)
Theorem is_valid_url_ignores_control_characters (E : Env) (pad s : string) :
  Py.all_chars UrlParse.is_c0_control_or_space pad = true ->
  is_valid_url E (pad +:+ s) = is_valid_url E s
  /\ is_valid_url E (Py.remove_chars UrlParse.unsafe_url_bytes s) = is_valid_url E s.
Proof.
  intros Hpad. split; apply urlsplit_prepared.
  - now rewrite (lstrip_app_dropped _ _ _ Hpad).
  - rewrite (lstrip_remove_comm _ _ _ unsafe_bytes_are_c0). apply remove_chars_idem.
Qed.

Lemma is_valid_url_ignores_control_characters_witness :
  is_valid_url Demo.env
    (String (ascii_of_nat 1) (String (ascii_of_nat 32) "ht" +:+ Py.nl +:+ "tps://example.com"))
  = Ok true.
Proof.
  destruct (is_valid_url_ignores_control_characters Demo.env
              (String (ascii_of_nat 1) (String (ascii_of_nat 32) EmptyString))
              ("ht" +:+ Py.nl +:+ "tps://example.com")) as [H1 H2]; [reflexivity|].
  refine (eq_trans H1 _). vm_compute. reflexivity.
Defined.

(** X14: blanks typed around a line change nothing: a loop that reads the
    line with white space before and after it does exactly what it does
    on the line itself, whether that is a URL, [quit] or anything else. *)
Theorem blanks_around_a_line_are_ignored (E : Env) (prompt label filename : string)
    (w : World) (line pad1 pad2 : string) (rest : list string) :
  Py.all_chars Py.isspace pad1 = true -> Py.all_chars Py.isspace pad2 = true ->
  stdin w = line :: rest ->
  await_url E prompt label filename (set_stdin ((pad1 +:+ line +:+ pad2) :: rest) w) =
  await_url E prompt label filename w.
Proof.
  intros H1 H2 Hin.
  rewrite (await_url_step E prompt label filename w line rest Hin).
  rewrite (await_url_step E prompt label filename
             (set_stdin ((pad1 +:+ line +:+ pad2) :: rest) w)
             (pad1 +:+ line +:+ pad2) rest) by now destruct w.
  replace (handle_line E label filename (pad1 +:+ line +:+ pad2))
    with (handle_line E label filename line)
    by (unfold handle_line; now rewrite (strip_padded _ _ _ H1 H2)).
  now destruct w.
Qed.

Lemma blanks_around_a_line_are_ignored_witness :
  await_url Demo.env first_prompt "First" "image1.jpg"
    (Demo.world ["  https://example.com/a.png " +:+ Py.nl]) =
  await_url Demo.env first_prompt "First" "image1.jpg"
    (Demo.world ["https://example.com/a.png"]).
Proof.
  apply (blanks_around_a_line_are_ignored Demo.env first_prompt "First" "image1.jpg"
           (Demo.world ["https://example.com/a.png"])
           "https://example.com/a.png" "  " (" " +:+ Py.nl) []); reflexivity.
Defined.

(** ** File names without an extension *)

Lemma rfind_lt_len c s : Py.rfind c s < Py.len s.
Proof.
  unfold Py.len. induction s as [|a s IH]; simpl String.length; [simpl; lia|].
  cbn [Py.rfind]. destruct (Z.leb_spec 0 (Py.rfind c s)); [lia|].
  destruct (Ascii.eqb a c); lia.
Qed.

Lemma rfind_all c s :
  Py.all_chars (fun a => Ascii.eqb a c) s = true -> Py.rfind c s = Py.len s - 1.
Proof.
  unfold Py.len. induction s as [|a s IH]; [reflexivity|].
  simpl String.length. cbn [Py.rfind Py.all_chars]. intros [Ha Hs]%andb_prop.
  rewrite (IH Hs), Ha. destruct (Z.leb_spec 0 (Z.of_nat (String.length s) - 1)); lia.
Qed.

Lemma drop_add a b s : Py.drop (a + b) s = Py.drop b (Py.drop a s).
Proof.
  revert s. induction a as [|a IH]; intros [|c s]; simpl; try reflexivity.
  - now destruct b.
  - apply IH.
Qed.

Lemma drop_in_run c run t j :
  Py.all_chars (fun a => Ascii.eqb a c) run = true -> (j < String.length run)%nat ->
  exists r, Py.drop j (run +:+ t) = String c r.
Proof.
  revert j. induction run as [|a run IH]; intros j Hall Hj; [simpl in Hj; lia|].
  rewrite str_app_cons. simpl in Hall. apply andb_prop in Hall as [Ha Hall].
  apply Ascii.eqb_eq in Ha as ->. destruct j as [|j]; simpl.
  - now eexists.
  - apply IH; [exact Hall | simpl in Hj; lia].
Qed.

(** The loop over leading dots runs to its end on a run of dots. *)
Lemma skip_leading_dots_run dir dots body dotIndex n : forall j,
  Py.all_chars (fun a => Ascii.eqb a "."%char) dots = true ->
  (j + n < String.length dots)%nat ->
  OsPath.skip_leading_dots n (dir +:+ dots +:+ body) "."%char dotIndex
    (Z.of_nat (String.length dir + j)) =
  (dir +:+ dots +:+ body, Py.slice_to 0 (dir +:+ dots +:+ body)).
Proof.
  induction n as [|n IH]; intros j Hall Hj; cbn [OsPath.skip_leading_dots]; [reflexivity|].
  assert (Hc : Py.char_at (Z.of_nat (String.length dir + j)) (dir +:+ dots +:+ body)
               = Some "."%char).
  { unfold Py.char_at, Py.slice_from. rewrite Nat2Z.id, drop_add, drop_app_length.
    destruct (drop_in_run "."%char dots body j Hall) as (r & ->); [lia|reflexivity]. }
  rewrite decide_True by exact Hc.
  replace (Z.of_nat (String.length dir + j) + 1) with (Z.of_nat (String.length dir + S j))
    by lia.
  apply IH; [exact Hall | lia].
Qed.

Lemma splitext_of_dots dir dots body sep altsep :
  Py.all_chars (fun a => Ascii.eqb a "."%char) dots = true ->
  Py.contains "."%char body = false ->
  match altsep with
  | Some a => Z.max (Py.rfind sep (dir +:+ dots +:+ body)) (Py.rfind a (dir +:+ dots +:+ body))
  | None => Py.rfind sep (dir +:+ dots +:+ body)
  end = Py.len dir - 1 ->
  snd (OsPath._splitext (dir +:+ dots +:+ body) sep altsep "."%char) = EmptyString.
Proof.
  intros Hdots Hbody Hsep. unfold OsPath._splitext. cbv zeta. rewrite Hsep.
  assert (Hempty : forall q, Py.slice_to 0 q = EmptyString) by now intros [|c q].
  assert (Hdot : Py.rfind "."%char (dir +:+ dots +:+ body) =
                 if 0 <=? Py.len dots - 1 then Py.len dir + (Py.len dots - 1)
                 else Py.rfind "."%char dir).
  { rewrite rfind_app. rewrite (rfind_app _ dots body), (rfind_absent _ _ Hbody).
    change (0 <=? -1) with false. cbv iota. now rewrite (rfind_all _ _ Hdots). }
  rewrite Hdot. destruct (Z.leb_spec 0 (Py.len dots - 1)) as [Hne|He].
  - destruct (Z.ltb_spec (Py.len dir - 1) (Py.len dir + (Py.len dots - 1))); [|lia].
    replace (Py.len dir - 1 + 1) with (Z.of_nat (String.length dir + 0))
      by (unfold Py.len; lia).
    rewrite skip_leading_dots_run; [apply Hempty | exact Hdots|].
    unfold Py.len in *. lia.
  - pose proof (rfind_lt_len "."%char dir).
    destruct (Z.ltb_spec (Py.len dir - 1) (Py.rfind "."%char dir)); [lia|].
    apply Hempty.
Qed.

Lemma rfind_after_slash c dir tail :
  dir = EmptyString \/ (exists d, dir = d +:+ "/") ->
  Py.contains c tail = false ->
  (c = "/"%char -> Py.rfind c (dir +:+ tail) = Py.len dir - 1)
  /\ Py.rfind c (dir +:+ tail) <= Py.len dir - 1.
Proof.
  intros Hdir Htail. rewrite rfind_app, (rfind_absent _ _ Htail).
  change (0 <=? -1) with false. cbv iota. split.
  - intros ->. destruct Hdir as [->|[d ->]]; [reflexivity|].
    rewrite rfind_app. unfold Py.len. rewrite length_app. simpl. lia.
  - pose proof (rfind_lt_len c dir). lia.
Qed.

(** X15: [validate_file] rejects every name whose last component has no
    extension: no dot at all, as in [noext] and [a.jpg/readme], or dots
    only at its start, as in the hidden files [.jpg] and [photos/..png].
    [os.path.splitext] gives such a name the empty extension, on POSIX
    and on Windows. *)
Theorem validate_file_rejects_names_without_extension (E : Env) (dir dots body : string) :
  dir = EmptyString \/ (exists d, dir = d +:+ "/") ->
  Py.all_chars (fun a => Ascii.eqb a "."%char) dots = true ->
  plain_ext body = true ->
  snd (OsPath.splitext (os_name E) (dir +:+ dots +:+ body)) = EmptyString
  /\ validate_file E (dir +:+ dots +:+ body) = false.
Proof.
  intros Hdir Hdots Hbody.
  assert (Hext : snd (OsPath.splitext (os_name E) (dir +:+ dots +:+ body)) = EmptyString).
  { assert (Hlacks : forall c, Py.contains c "./\" = true -> c <> "."%char ->
                               Py.contains c (dots +:+ body) = false).
    { intros c Hc Hne. rewrite contains_app.
      rewrite (lacks_of_all_chars _ _ _ Hc Hbody), orb_false_r.
      apply all_chars_not_contains. revert Hdots. apply all_chars_impl.
      intros a Ha. apply Ascii.eqb_eq in Ha as ->.
      apply negb_true_iff, Ascii.eqb_neq. congruence. }
    assert (Hslash : Py.contains "/"%char (dots +:+ body) = false)
      by (apply Hlacks; [reflexivity | discriminate]).
    assert (Hback : Py.contains "\"%char (dots +:+ body) = false)
      by (apply Hlacks; [reflexivity | discriminate]).
    assert (Hdot : Py.contains "."%char body = false)
      by (apply (lacks_of_all_chars "./\"); [reflexivity | exact Hbody]).
    destruct (rfind_after_slash "/"%char dir _ Hdir Hslash) as [Hs _].
    destruct (rfind_after_slash "\"%char dir _ Hdir Hback) as [_ Hb].
    specialize (Hs eq_refl).
    destruct (os_name E); unfold OsPath.splitext;
      apply splitext_of_dots; try assumption. lia. }
  split; [exact Hext|]. unfold validate_file. now rewrite Hext.
Qed.

Lemma validate_file_rejects_names_without_extension_witness :
  snd (OsPath.splitext (os_name Demo.env) ("photos/" +:+ ".." +:+ "jpg")) = EmptyString
  /\ validate_file Demo.env ("photos/" +:+ ".." +:+ "jpg") = false.
Proof.
  apply (validate_file_rejects_names_without_extension Demo.env "photos/" ".." "jpg");
    [right; now exists "photos" | reflexivity | reflexivity].
Defined.

(** ** A transfer that breaks *)

Lemma download_and_validate_broken E url filename w r cls msg :
  is_valid_url E url = Ok true -> validate_file E filename = true ->
  http_get E (requests_log w) url = Returned r ->
  (400 <=? status_code r) && (status_code r <? 600) = false ->
  stream_error r = Some (cls, msg) ->
  download_and_validate_image E url filename w =
    (Raise (Exception cls msg),
     set_fs (<[filename := joined (chunks r)]> (fs w))
       (set_requests_log (requests_log w ++ [url]) w)).
Proof.
  intros Hv Hf Hget Hstatus Hstream.
  unfold download_and_validate_image, bind at 1, lift. rewrite Hv, Hf. cbn [negb].
  rewrite (download_file_run _ _ _ _ _ Hget Hstatus). now rewrite Hstream.
Qed.

(** X16: [main] removes its files only after the analysis.  When the
    transfer of the first image breaks in the middle and the next line is
    [quit], the run ends with the part of the image that had arrived
    still in [image1.jpg]; the same file is left when the input ends
    there instead. *)
Theorem broken_transfer_leaves_partial_file_behind (E : Env) (w : World)
    (line : string) (rest : list string) (r : Response) (cls msg : string) :
  stdin w = line :: rest ->
  Py.lower (Py.strip line) <> "quit" ->
  is_valid_url E (Py.strip line) = Ok true ->
  http_get E (requests_log w) (Py.strip line) = Returned r ->
  (status_code r < 400 \/ 600 <= status_code r) ->
  stream_error r = Some (cls, msg) ->
  (forall q rest', rest = q :: rest' -> Py.lower (Py.strip q) = "quit" ->
     exists w',
       main E w = (Raise SystemExit, w')
       /\ fs w' = <["image1.jpg" := joined (chunks r)]> (fs w)
       /\ stdout w' = stdout w ++ ["Setting up API..." +:+ Py.nl; first_prompt;
                                   "Error: " +:+ msg +:+ Py.nl; first_prompt])
  /\ (rest = [] ->
      exists w',
        main E w = (Ok tt, w')
        /\ fs w' = <["image1.jpg" := joined (chunks r)]> (fs w)
        /\ stdout w' = stdout w ++ ["Setting up API..." +:+ Py.nl; first_prompt;
                                    "Error: " +:+ msg +:+ Py.nl; first_prompt;
                                    "Error: EOF when reading a line" +:+ Py.nl]).
Proof.
  intros Hin Hq Hv Hget Hstatus Hstream. apply status_ok_iff in Hstatus.
  pose proof (setup_api_run E (printed "Setting up API..." w)) as Hs.
  set (w0 := snd (setup_api E (printed "Setting up API..." w))).
  assert (Hin0 : stdin w0 = line :: rest) by exact Hin.
  pose proof (download_and_validate_broken E (Py.strip line) "image1.jpg"
                (set_stdin rest (set_stdout (stdout w0 ++ [first_prompt]) w0)) r cls msg
                Hv (proj1 (validate_file_driver_names E)) Hget Hstatus Hstream) as Hd.
  destruct (await_url_retry E first_prompt "First" "image1.jpg" _ _ _ _ _ _ Hin0 Hq Hd)
    as [Hloop _].
  assert (Hbody : forall x v,
            await_url E first_prompt "First" "image1.jpg" w0 = (Raise x, v) ->
            main_body E w = (Raise x, v)).
  { intros x v H. rewrite main_body_unfold, bind_print.
    rewrite (bind_ok _ _ _ _ _ Hs). unfold after_setup. now apply bind_raise. }
  split.
  - intros q rest' -> Hquit.
    match type of Hloop with
    | _ = await_url _ _ _ _ ?v =>
        rewrite (await_url_quit E first_prompt "First" "image1.jpg" v q rest' eq_refl Hquit)
          in Hloop
    end.
    apply Hbody in Hloop. unfold main. rewrite (try_except_exit _ _ _ _ Hloop).
    eexists. split; [reflexivity|]. simpl. split; [reflexivity|].
    now rewrite <- !app_assoc.
  - intros ->. unfold await_url at 2 in Hloop. cbn in Hloop.
    apply Hbody in Hloop. unfold main. rewrite (try_except_caught _ _ _ _ _ _ Hloop).
    eexists. split; [reflexivity|]. simpl. split; [reflexivity|].
    now rewrite <- !app_assoc.
Qed.

Lemma broken_transfer_leaves_partial_file_behind_witness :
  exists w',
    main Demo.env (Demo.world ["https://example.com/broken.jpg"; "quit"]) =
      (Raise SystemExit, w')
    /\ fs w' = <["image1.jpg" := "JPG-"]> (fs (Demo.world ["https://example.com/broken.jpg"; "quit"]))
    /\ stdout w' = ["Setting up API..." +:+ Py.nl; first_prompt;
                    "Error: " +:+ "Connection broken" +:+ Py.nl; first_prompt].
Proof.
  apply (proj1 (broken_transfer_leaves_partial_file_behind Demo.env
                  (Demo.world ["https://example.com/broken.jpg"; "quit"])
                  "https://example.com/broken.jpg" ["quit"]
                  {| status_code := 200; http_error := ""; chunks := ["JPG-"];
                     stream_error := Some ("ChunkedEncodingError", "Connection broken") |}
                  "ChunkedEncodingError" "Connection broken"
                  eq_refl ltac:(discriminate) eq_refl eq_refl ltac:(left; reflexivity) eq_refl)
           "quit" [] eq_refl eq_refl).
Defined.
